(** * parser_kwork: extraction, record store and notifier

    A shallow embedding of [kwork_parser.py], [database_manager.py] and
    [telegram_bot.py], followed by the properties of the pipeline that the
    design document states about them and by further properties of the
    code itself.

    Conventions of the embedding.
    - A Python [str] is a list of Unicode code points ([N]); [len] is
      [length], slices are [take]/[drop].
    - Values decoded from JSON and carried in dictionaries are [pyval].
    - Code that can raise returns a [result]; a [try/except] is a match on
      it.
    - The SQLite tables are lists of rows, in insertion order.  A statement
      [INSERT OR REPLACE] removes the rows that conflict on the primary key
      and appends the new row. *)

From Stdlib Require Import String Ascii DecimalString.
From stdpp Require Import base numbers option list gmap.
From Equations Require Import Equations.

Set Default Proof Using "Type".
Set Warnings "-clear-no-such-hyp".
Local Open Scope Z_scope.

(* ===================================================================== *)
(** * Python values *)
(* ===================================================================== *)

Module Py.

(** [str]: a sequence of code points. *)
Abbreviation str := (list N).

(** A literal of the source, given as an ASCII string. *)
Definition lit (s : string) : str :=
  map N_of_ascii (list_ascii_of_string s).
Arguments lit s%_string : simpl never.

Definition NL : N := 10%N.
Definition DQUOTE : N := 34%N.

(** [str(z)] for an integer: decimal notation. *)
Definition decimal (z : Z) : str :=
  lit (DecimalString.NilZero.string_of_int (Z.to_int z)).
Arguments decimal : simpl never.

(** [str.isspace] on one character, which is also what [\s] matches in a
    [str] pattern and what [str.lstrip()] removes. *)
Definition py_isspace (c : N) : bool :=
  ((9 <=? c) && (c <=? 13) || (28 <=? c) && (c <=? 32)
   || (c =? 133) || (c =? 160) || (c =? 5760)
   || (8192 <=? c) && (c <=? 8202) || (c =? 8232) || (c =? 8233)
   || (c =? 8239) || (c =? 8287) || (c =? 12288))%N.

(** [text.lstrip()] *)
Fixpoint lstrip (text : str) : str :=
  match text with
  | c :: rest => if py_isspace c then lstrip rest else text
  | [] => []
  end.

(** [text.rstrip()] and [text.strip()] *)
Definition rstrip (text : str) : str := reverse (lstrip (reverse text)).
Definition strip (text : str) : str := rstrip (lstrip text).

(** Highest index of [c] in [text], counted from [i]; [-1] when [c] does
    not occur. *)
Fixpoint rfind_from (c : N) (text : str) (i : Z) : Z :=
  match text with
  | [] => -1
  | x :: rest =>
      let r := rfind_from c rest (i + 1) in
      if r =? -1 then (if (x =? c)%N then i else -1) else r
  end.

(** [text.rfind(c, 0, stop)] for a one-character needle. *)
Definition rfind (c : N) (text : str) (stop : nat) : Z :=
  rfind_from c (take stop text) 0.

(** [text.replace(c, by)] for a one-character needle. *)
Definition replace (c : N) (by_ : str) (text : str) : str :=
  flat_map (fun x => if (x =? c)%N then by_ else [x]) text.

(** [needle in text] on strings. *)
Fixpoint starts_with (needle text : str) : bool :=
  match needle, text with
  | [], _ => true
  | _ :: _, [] => false
  | a :: needle', b :: text' => (a =? b)%N && starts_with needle' text'
  end.

Fixpoint str_contains (needle text : str) : bool :=
  starts_with needle text
  || match text with
     | [] => false
     | _ :: text' => str_contains needle text'
     end.

Definition str_eqb (a b : str) : bool := bool_decide (a = b).

(** A [float], as far as the code can tell floats apart: whether it is
    non-zero, the integer it equals if there is one, and its text. *)
Record pyfloat := {
  float_nonzero : bool;
  float_int : option Z;
  float_str : list N
}.

(** Values as [json.loads] builds them. *)
#[warnings="-register-all"] Inductive pyval :=
| PNone
| PBool (b : bool)
| PInt (z : Z)
| PFloat (f : pyfloat)
| PStr (s : str)
| PList (l : list pyval)
| PDict (d : list (str * pyval)).

(** [bool(v)] *)
Definition truthy (v : pyval) : bool :=
  match v with
  | PNone => false
  | PBool b => b
  | PInt z => negb (z =? 0)
  | PFloat f => float_nonzero f
  | PStr s => negb (length s =? 0)%nat
  | PList l => negb (length l =? 0)%nat
  | PDict d => negb (length d =? 0)%nat
  end.

(** [str(v)], which is also how an f-string renders [{v}].  The text of a
    list or of a dictionary comes from [repr], which is left to the
    caller. *)
Definition to_str (repr : pyval -> str) (v : pyval) : str :=
  match v with
  | PNone => lit "None"
  | PBool true => lit "True"
  | PBool false => lit "False"
  | PInt z => decimal z
  | PFloat f => float_str f
  | PStr s => s
  | PList _ | PDict _ => repr v
  end.

(** [l[lo:hi]] for [0 <= lo <= hi]. *)
Definition slice {A} (l : list A) (lo hi : Z) : list A :=
  take (Z.to_nat (hi - lo)) (drop (Z.to_nat lo) l).

(** Exceptions the modelled code can meet. *)
Inductive exn :=
| TypeError
| AttributeError
| KeyError
| ValueError
| JSONDecodeError
| RecursionError
| InterfaceError   (* sqlite3: a parameter of a type it cannot bind *)
| OverflowError    (* sqlite3: an integer beyond 64 bits *)
| IntegrityError   (* sqlite3: a constraint of the schema is violated *)
| EngineDefined.   (* the outcome is fixed by SQLite's value adaptation,
                      which the embedding leaves open *)

Inductive result (A : Type) :=
| Ok (a : A)
| Raise (e : exn).
Arguments Ok {A} a.
Arguments Raise {A} e.

Definition bind {A B} (m : result A) (k : A -> result B) : result B :=
  match m with
  | Ok a => k a
  | Raise e => Raise e
  end.

#[global] Instance result_ret : MRet result := @Ok.
#[global] Instance result_bind : MBind result := fun A B k m => bind m k.

(** First binding of a key in the items of a dictionary. *)
Fixpoint assoc (key : str) (d : list (str * pyval)) : option pyval :=
  match d with
  | [] => None
  | (k, v) :: d' => if str_eqb k key then Some v else assoc key d'
  end.

(** A [Dict] of the source: its items, oldest key first. *)
Abbreviation dict := (list (list N * pyval)).

(** [d.get(key, default)] on a dictionary. *)
Definition dget (d : dict) (key : str) (dflt : pyval) : pyval :=
  default dflt (assoc key d).

(** [key in v] for a string [key]. *)
Definition contains (key : str) (v : pyval) : result bool :=
  match v with
  | PDict d => Ok (bool_decide (is_Some (assoc key d)))
  | PList l =>
      Ok (existsb (fun x => match x with
                            | PStr s => str_eqb s key
                            | _ => false
                            end) l)
  | PStr s => Ok (str_contains key s)
  | _ => Raise TypeError
  end.

(** [v[key]] for a string [key]. *)
Definition getitem (v : pyval) (key : str) : result pyval :=
  match v with
  | PDict d =>
      match assoc key d with
      | Some x => Ok x
      | None => Raise KeyError
      end
  | _ => Raise TypeError
  end.

(** [v.get(key, default)]; only dictionaries have the method. *)
Definition get (v : pyval) (key : str) (dflt : pyval) : result pyval :=
  match v with
  | PDict d => Ok (default dflt (assoc key d))
  | _ => Raise AttributeError
  end.

(** [range(0, stop, step)] *)
Definition range0 (stop step : Z) : result (list Z) :=
  if step =? 0 then Raise ValueError
  else
    let count :=
      if 0 <? step then (stop + step - 1) / step
      else (- stop - step - 1) / (- step) in
    Ok (map (fun k => Z.of_nat k * step) (seq 0 (Z.to_nat count))).

(** [for x in v]: the elements a loop over [v] visits. *)
Definition iter (v : pyval) : result (list pyval) :=
  match v with
  | PList l => Ok l
  | PDict d => Ok (map (fun kv => PStr (fst kv)) d)
  | PStr s => Ok (map (fun c => PStr [c]) s)
  | _ => Raise TypeError
  end.

(** [v[:n]]: a text and a list can be sliced; [None], a number and a
    boolean raise [TypeError].  (A dictionary raises as well, with an
    exception that depends on the version of the interpreter; the embedding
    has [TypeError] for it.) *)
Definition slice_to (v : pyval) (n : nat) : result pyval :=
  match v with
  | PStr s => Ok (PStr (take n s))
  | PList l => Ok (PList (take n l))
  | _ => Raise TypeError
  end.

End Py.

(* ===================================================================== *)
(** * database_manager.py *)
(* ===================================================================== *)

Module DatabaseManager.
Import Py.

(** ** The three tables of [init_database]

    Columns hold the value that was bound for them.  The columns
    [created_at] and [updated_at] are filled by the engine from the wall
    clock and are left out. *)

Record project_row := {
  p_id : Z;
  p_name : pyval;
  p_url : pyval;
  p_description : pyval;
  p_price_limit : pyval;
  p_possible_price_limit : pyval;
  p_category_id : pyval;
  p_status : pyval;
  p_time_left : pyval;
  p_offers_count : pyval;
  p_date_create : pyval;
  p_date_active : pyval;
  p_date_expire : pyval;
  p_kwork_count : pyval;
  p_is_higher_price : pyval
}.

Record buyer_row := {
  b_user_id : str;
  b_username : pyval;
  b_profile_url : pyval;
  b_avatar : pyval;
  b_wants_count : pyval;
  b_hired_percent : pyval
}.

Record db := {
  projects : list project_row;
  buyers : list buyer_row;
  project_buyers : list (Z * str)
}.

Definition empty_db : db :=
  {| projects := []; buyers := []; project_buyers := [] |}.

(** ** Parameter binding of [cursor.execute] *)

Definition int64 (z : Z) : bool := (- 2 ^ 63 <=? z) && (z <? 2 ^ 63).

(** sqlite3 binds [None], [int] (and so [bool]), [float] and [str]; an
    [int] must fit 64 bits; a list or a dictionary is refused. *)
Definition sql_param (v : pyval) : result pyval :=
  match v with
  | PList _ | PDict _ => Raise InterfaceError
  | PInt z => if int64 z then Ok v else Raise OverflowError
  | _ => Ok v
  end.

(** The value of a run of decimal digits, read after [acc]. *)
Fixpoint digits_value (acc : Z) (s : str) : option Z :=
  match s with
  | [] => Some acc
  | c :: rest =>
      if ((48 <=? c) && (c <=? 57))%N
      then digits_value (10 * acc + Z.of_N (c - 48)) rest
      else None
  end.

(** The integer of which a text is the decimal notation (the text is
    [str(z)]: digits, after a minus sign for a negative integer), if there
    is one. *)
Definition int_of_text (s : str) : option Z :=
  z ← match s with
      | [] => None
      | c :: digits =>
          if (c =? 45)%N
          then match digits with
               | [] => None
               | _ :: _ => option_map Z.opp (digits_value 0 digits)
               end
          else digits_value 0 s
      end;
  if str_eqb (decimal z) s then Some z else None.

(** A bound value as a key of an [INTEGER] key column.  The affinity of
    the column turns a text that is the decimal notation of an integer
    into that integer, on a write and in a comparison alike, so that the
    text ['7'] denotes the key [7].  What the engine makes of [NULL], of a
    real or of any other text there is left open. *)
Definition as_integer_key (v : pyval) : result Z :=
  match v with
  | PInt z => Ok z
  | PBool b => Ok (Z.b2z b)
  | PStr s =>
      match int_of_text s with
      | Some z => if int64 z then Ok z else Raise EngineDefined
      | None => Raise EngineDefined
      end
  | _ => Raise EngineDefined
  end.

(** A bound value as a key of a [TEXT] key column: an integer is stored in
    its text form. *)
Definition as_text_key (v : pyval) : result str :=
  match v with
  | PStr s => Ok s
  | PInt z => Ok (decimal z)
  | PBool b => Ok (decimal (Z.b2z b))
  | _ => Raise EngineDefined
  end.

(** A column declared [NOT NULL]. *)
Definition not_null (v : pyval) : result pyval :=
  match v with
  | PNone => Raise IntegrityError
  | _ => Ok v
  end.

(** ** Operations *)

(** [SELECT id FROM projects WHERE id = ?] *)
Definition project_exists (d : db) (project_id : pyval) : result bool :=
  v ← sql_param project_id;
  k ← as_integer_key v;
  Ok (existsb (fun r => p_id r =? k) (projects d)).

Definition get_existing_project_ids (d : db) (project_ids : list pyval)
  : result (gset Z) :=
  if bool_decide (project_ids = []) then Ok ∅
  else
    bound ← mapM sql_param project_ids;
    keys ← mapM as_integer_key bound;
    Ok (list_to_set
          (filter (fun k => k ∈ keys) (map p_id (projects d)))).

(** [INSERT OR REPLACE INTO buyers ...] *)
Definition insert_buyer (d : db) (buyer_data : pyval) : result db :=
  user_id ← get buyer_data (lit "user_id") (PStr []);
  username ← get buyer_data (lit "username") (PStr []);
  profile_url ← get buyer_data (lit "profile_url") (PStr []);
  avatar ← get buyer_data (lit "avatar") (PStr []);
  wants_count ← get buyer_data (lit "wants_count") (PStr []);
  hired_percent ← get buyer_data (lit "hired_percent") (PStr []);
  user_id ← sql_param user_id;
  username ← sql_param username;
  profile_url ← sql_param profile_url;
  avatar ← sql_param avatar;
  wants_count ← sql_param wants_count;
  hired_percent ← sql_param hired_percent;
  key ← as_text_key user_id;
  username ← not_null username;
  let row := {| b_user_id := key; b_username := username;
                b_profile_url := profile_url; b_avatar := avatar;
                b_wants_count := wants_count;
                b_hired_percent := hired_percent |} in
  Ok {| projects := projects d;
        buyers := filter (fun r => b_user_id r ≠ key) (buyers d) ++ [row];
        project_buyers := project_buyers d |}.

(** The [INSERT OR REPLACE INTO projects ...] of [insert_project]. *)
Definition replace_project (d : db) (project : dict) : result db :=
  id ← sql_param (dget project (lit "id") PNone);
  name ← sql_param (dget project (lit "name") (PStr []));
  url ← sql_param (dget project (lit "url") (PStr []));
  description ← sql_param (dget project (lit "description") (PStr []));
  price_limit ← sql_param (dget project (lit "price_limit") (PStr []));
  possible_price_limit ←
    sql_param (dget project (lit "possible_price_limit") (PStr []));
  category_id ← sql_param (dget project (lit "category_id") (PStr []));
  status ← sql_param (dget project (lit "status") (PStr []));
  time_left ← sql_param (dget project (lit "time_left") (PStr []));
  offers_count ← sql_param (dget project (lit "offers_count") (PInt 0));
  date_create ← sql_param (dget project (lit "date_create") (PStr []));
  date_active ← sql_param (dget project (lit "date_active") (PStr []));
  date_expire ← sql_param (dget project (lit "date_expire") (PStr []));
  kwork_count ← sql_param (dget project (lit "kwork_count") (PInt 0));
  is_higher_price ←
    sql_param (dget project (lit "is_higher_price") (PBool false));
  key ← as_integer_key id;
  name ← not_null name;
  let row := {| p_id := key; p_name := name; p_url := url;
                p_description := description;
                p_price_limit := price_limit;
                p_possible_price_limit := possible_price_limit;
                p_category_id := category_id; p_status := status;
                p_time_left := time_left; p_offers_count := offers_count;
                p_date_create := date_create;
                p_date_active := date_active;
                p_date_expire := date_expire;
                p_kwork_count := kwork_count;
                p_is_higher_price := is_higher_price |} in
  Ok {| projects := filter (fun r => p_id r ≠ key) (projects d) ++ [row];
        buyers := buyers d;
        project_buyers := project_buyers d |}.

(** [INSERT OR IGNORE INTO project_buyers ...] *)
Definition link_buyer (d : db) (project_id buyer_user_id : pyval)
  : result db :=
  pid ← sql_param project_id;
  uid ← sql_param buyer_user_id;
  pid ← as_integer_key pid;
  uid ← as_text_key uid;
  Ok (if bool_decide ((pid, uid) ∈ project_buyers d) then d
      else {| projects := projects d;
              buyers := buyers d;
              project_buyers := project_buyers d ++ [(pid, uid)] |}).

Definition insert_project (d : db) (project : dict) : result db :=
  d ← replace_project d project;
  match assoc (lit "buyer") project with
  | Some buyer =>
      if truthy buyer then
        d ← insert_buyer d buyer;
        buyer_user_id ← get buyer (lit "user_id") (PStr []);
        if truthy buyer_user_id
        then link_buyer d (dget project (lit "id") PNone) buyer_user_id
        else Ok d
      else Ok d
  | None => Ok d
  end.

Record counts := { inserted : nat; skipped : nat }.

(** "Без названия", the name that the progress line of [insert_projects]
    shows for a record without one. *)
Definition ru_no_name : str :=
  [1041; 1077; 1079; 32; 1085; 1072; 1079; 1074; 1072; 1085; 1080; 1103]%N.

(** The loop of [insert_projects], with its two counters.  The progress
    line of an inserted record shows [project.get('name', ...)[:50]], which
    is evaluated after the insert. *)
Fixpoint insert_loop (d : db) (c : counts) (projects : list dict)
  : result (db * counts) :=
  match projects with
  | [] => Ok (d, c)
  | project :: rest =>
      let project_id := dget project (lit "id") PNone in
      if negb (truthy project_id) then insert_loop d c rest
      else
        found ← project_exists d project_id;
        if found : bool
        then insert_loop d {| inserted := inserted c;
                              skipped := S (skipped c) |} rest
        else
          d ← insert_project d project;
          _ ← slice_to (dget project (lit "name") (PStr ru_no_name)) 50;
          insert_loop d {| inserted := S (inserted c);
                           skipped := skipped c |} rest
  end.

Definition insert_projects (d : db) (projects : list dict)
  : result (db * counts) :=
  insert_loop d {| inserted := 0; skipped := 0 |} projects.

(** [get_statistics]: the two [COUNT( * )] queries. *)
Definition total_projects (d : db) : nat := length (projects d).
Definition total_buyers (d : db) : nat := length (buyers d).

End DatabaseManager.

(* ===================================================================== *)
(** * telegram_bot.py *)
(* ===================================================================== *)

Module TelegramBot.
Import Py.

(** ** Splitting a long message *)

(** [max_length] of [_send_long_message]. *)
Definition max_length : nat := 4000.

(** The limit tested by [send_message]. *)
Definition telegram_limit : nat := 4096.

(** The two statements that choose [split_pos]. *)
Definition split_pos (text : str) : Z :=
  let split_pos := rfind NL text max_length in
  if split_pos =? -1 then Z.of_nat max_length else split_pos.

(** The [while text:] loop, with a bound on the number of iterations. *)
Fixpoint split_loop (fuel : nat) (text : str) (parts : list str)
  : option (list str) :=
  match fuel with
  | O => None
  | S fuel' =>
      match text with
      | [] => Some parts
      | _ :: _ =>
          if (length text <=? max_length)%nat then Some (parts ++ [text])
          else
            let pos := Z.to_nat (split_pos text) in
            split_loop fuel' (lstrip (drop pos text))
                       (parts ++ [take pos text])
      end
  end.

(** The list [parts] the loop leaves, by recursion on the length of the
    remaining text. *)
Equations? split_parts (text : str) : list str by wf (length text) lt :=
  split_parts [] := [];
  split_parts (c :: t) with decide (length (c :: t) ≤ max_length)%nat := {
    | left _ := [c :: t];
    | right _ :=
        take (Z.to_nat (split_pos (c :: t))) (c :: t)
        :: split_parts (lstrip (drop (Z.to_nat (split_pos (c :: t)))
                                     (c :: t))) }.
Proof.
  assert (Hstrip : forall s : str, (length (lstrip s) <= length s)%nat).
  { induction s as [|x s IH]; simpl; [lia|].
    destruct (py_isspace x); simpl; lia. }
  assert (Hfrom : forall (s : str) i, 0 <= i ->
             rfind_from NL s i = -1 \/ i <= rfind_from NL s i).
  { induction s as [|x s IH]; intros i Hi; simpl; [by left|].
    destruct (IH (i + 1)) as [-> | Hle]; [lia| |].
    - simpl. destruct (x =? NL)%N; [right; lia | by left].
    - destruct (Z.eqb_spec (rfind_from NL s (i + 1)) (-1)); lia. }
  set (text := c :: t) in *.
  unfold split_pos, rfind.
  destruct (Z.eqb_spec (rfind_from NL (take max_length text) 0) (-1))
    as [_ | Hne].
  - rewrite Nat2Z.id.
    pose proof (Hstrip (drop max_length text)) as Hs.
    rewrite length_drop in Hs. unfold max_length in *. simpl in *. lia.
  - destruct (Z.eq_dec (rfind_from NL (take max_length text) 0) 0)
      as [H0 | Hpos].
    + rewrite H0. simpl. subst text.
      unfold max_length in H0. simpl in H0.
      destruct (Hfrom (take 3999 t) (0 + 1)) as [Hr | Hr]; [lia| |].
      * rewrite Hr in H0. simpl in H0.
        destruct (N.eqb_spec c NL) as [-> | ?]; [|done].
        simpl. pose proof (Hstrip t). lia.
      * destruct (Z.eqb_spec (rfind_from NL (take 3999 t) (0 + 1)) (-1));
          lia.
    + destruct (Hfrom (take max_length text) 0) as [? | Hge]; [lia|done|].
      pose proof (Hstrip (drop (Z.to_nat
        (rfind_from NL (take max_length text) 0)) text)) as Hs.
      rewrite length_drop in Hs. subst text. simpl in *. lia.
Qed.

(** ** Escaping and formatting *)

Section Formatting.

(** [repr] of a list or a dictionary. *)
Variable repr : pyval -> str.

Definition _escape_html (text : pyval) : str :=
  if negb (truthy text) then []
  else
    let text := to_str repr text in
    let text := replace 38 (lit "&amp;") text in
    let text := replace 60 (lit "&lt;") text in
    let text := replace 62 (lit "&gt;") text in
    text.

(** "Без названия", "Новые проекты", "Открыть" and the ruble sign. *)
Definition ru_untitled : str :=
  [1041; 1077; 1079; 32; 1085; 1072; 1079; 1074; 1072; 1085; 1080; 1103]%N.
Definition ru_new_projects : str :=
  [1053; 1086; 1074; 1099; 1077; 32; 1087; 1088; 1086; 1077; 1082; 1090;
   1099]%N.
Definition ru_open : str := [1054; 1090; 1082; 1088; 1099; 1090; 1100]%N.
Definition ruble : N := 8381%N.

(** The body of the loop of [_format_projects_batch]: the entry of one
    project, numbered [i]. *)
Definition format_entry (i : Z) (project : dict) : str :=
  let name := _escape_html (dget project (lit "name") (PStr ru_untitled)) in
  let price_limit := dget project (lit "price_limit") (PStr (lit "N/A")) in
  let possible_price :=
    dget project (lit "possible_price_limit") (PStr (lit "N/A")) in
  let url := dget project (lit "url") (PStr []) in
  [NL] ++ decimal i ++ lit ". <b>" ++ name ++ lit "</b>" ++ [NL]
  ++ lit "   " ++ to_str repr price_limit ++ lit " - "
  ++ to_str repr possible_price ++ lit " " ++ [ruble] ++ [NL]
  ++ lit "   <a href=" ++ [DQUOTE] ++ to_str repr url ++ [DQUOTE]
  ++ lit ">" ++ ru_open ++ lit "</a>" ++ [NL].

Fixpoint format_entries (i : Z) (projects : list dict) : list str :=
  match projects with
  | [] => []
  | project :: rest => format_entry i project :: format_entries (i + 1) rest
  end.

Definition _format_projects_batch (projects : list dict) (start_num : Z)
  : str :=
  let messages :=
    (lit "<b>" ++ ru_new_projects ++ lit " (" ++ decimal start_num
     ++ lit "-" ++ decimal (start_num + Z.of_nat (length projects) - 1)
     ++ lit "):</b>" ++ [NL])
    :: format_entries start_num projects in
  concat messages.

End Formatting.

(** ** Sending *)

(** What the bot does to the outside: the requests it posts, each with its
    outcome, and its pauses. *)
Inductive event :=
| Post (text parse_mode : str) (ok : bool)
| Sleep (seconds : nat).

Abbreviation world := (list event).

Section Sending.

Variable repr : pyval -> str.

(** The outcome of [requests.post] followed by [raise_for_status], given
    what happened before: [true] when no [RequestException] is raised. *)
Variable http_post : world -> str -> str -> bool.

(** The single request of [send_message] and its [try/except]. *)
Definition post_message (w : world) (text parse_mode : str)
  : world * bool :=
  let ok := http_post w text parse_mode in
  (w ++ [Post text parse_mode ok], ok).

(** The sending loop of [_send_long_message], over the parts from index
    [i] on; [send] is the call to [send_message]. *)
Fixpoint send_parts (send : world -> str -> result (world * bool))
    (w : world) (i : nat) (parts : list str) : result (world * bool) :=
  match parts with
  | [] => Ok (w, true)
  | part :: rest =>
      let w := if (0 <? i)%nat then w ++ [Sleep 1] else w in
      '(w, ok) ← send w part;
      if ok : bool then send_parts send w (S i) rest else Ok (w, false)
  end.

(** [send_message] and [_send_long_message] call each other; [depth]
    bounds the nesting of these calls. *)
Fixpoint send_message_rec (depth : nat) (w : world) (text parse_mode : str)
  : result (world * bool) :=
  if (telegram_limit <? length text)%nat then
    match depth with
    | O => Raise RecursionError
    | S depth' =>
        send_parts (fun w part => send_message_rec depth' w part parse_mode)
                   w 0 (split_parts text)
    end
  else Ok (post_message w text parse_mode).

Definition _send_long_message (depth : nat) (w : world)
    (text parse_mode : str) : result (world * bool) :=
  send_parts (fun w part => send_message_rec depth w part parse_mode)
             w 0 (split_parts text).

Definition send_message (w : world) (text parse_mode : str)
  : result (world * bool) :=
  send_message_rec 1 w text parse_mode.

(** The default of the parameter [batch_size]. *)
Definition default_batch_size : Z := 5.

(** The body of the loop of [send_projects_batch] at index [i]. *)
Definition send_batch_at (projects : list dict) (batch_size : Z)
    (st : world * nat) (i : Z) : result (world * nat) :=
  let '(w, sent_count) := st in
  let batch := slice projects i (i + batch_size) in
  let message := _format_projects_batch repr batch (i + 1) in
  '(w, ok) ← send_message w message (lit "HTML");
  let sent_count :=
    if ok : bool then (sent_count + length batch)%nat else sent_count in
  let w :=
    if i + batch_size <? Z.of_nat (length projects)
    then w ++ [Sleep 1] else w in
  Ok (w, sent_count).

(** The [for] loop over the indices that remain. *)
Fixpoint send_batch_loop (projects : list dict) (batch_size : Z)
    (st : world * nat) (indices : list Z) : result (world * nat) :=
  match indices with
  | [] => Ok st
  | i :: rest =>
      st ← send_batch_at projects batch_size st i;
      send_batch_loop projects batch_size st rest
  end.

Definition send_projects_batch (w : world) (projects : list dict)
    (batch_size : Z) : result (world * nat) :=
  indices ← range0 (Z.of_nat (length projects)) batch_size;
  send_batch_loop projects batch_size (w, 0%nat) indices.

End Sending.

(** ** The message for one project *)

Section SingleMessage.

Variable repr : pyval -> str.
Variable http_post : world -> str -> str -> bool.

(** "Нет описания", "Заказчик:", "Проектов: ", " | Нанято: ", "Бюджет:",
    "Осталось:", "Описание:", "Перейти к проекту" and the rule of twenty
    box-drawing characters. *)
Definition ru_no_description : str :=
  [1053; 1077; 1090; 32; 1086; 1087; 1080; 1089; 1072; 1085; 1080; 1103]%N.
Definition ru_customer : str :=
  [1047; 1072; 1082; 1072; 1079; 1095; 1080; 1082; 58]%N.
Definition ru_projects_count : str :=
  [1055; 1088; 1086; 1077; 1082; 1090; 1086; 1074; 58; 32]%N.
Definition ru_hired : str :=
  [32; 124; 32; 1053; 1072; 1085; 1103; 1090; 1086; 58; 32]%N.
Definition ru_budget : str := [1041; 1102; 1076; 1078; 1077; 1090; 58]%N.
Definition ru_time_left : str :=
  [1054; 1089; 1090; 1072; 1083; 1086; 1089; 1100; 58]%N.
Definition ru_description : str :=
  [1054; 1087; 1080; 1089; 1072; 1085; 1080; 1077; 58]%N.
Definition ru_go_to_project : str :=
  [1055; 1077; 1088; 1077; 1081; 1090; 1080; 32; 1082; 32; 1087; 1088; 1086;
   1077; 1082; 1090; 1091]%N.
Definition rule_line : str := repeat 9473%N 20.

(** The description as the message shows it. *)
Definition shown_description (project : dict) : str :=
  let description :=
    _escape_html repr
      (dget project (lit "description") (PStr ru_no_description)) in
  if (500 <? length description)%nat
  then take 497 description ++ lit "..."
  else description.

(** The block about the buyer, empty when the project has none. *)
Definition buyer_info (project : dict) : result str :=
  match assoc (lit "buyer") project with
  | Some buyer =>
      if truthy buyer then
        username ← get buyer (lit "username") (PStr (lit "N/A"));
        wants_count ← get buyer (lit "wants_count") (PStr (lit "0"));
        hired_percent ← get buyer (lit "hired_percent") (PStr (lit "0"));
        Ok ([NL] ++ lit "<b>" ++ ru_customer ++ lit "</b> "
            ++ _escape_html repr username ++ [NL]
            ++ ru_projects_count ++ to_str repr wants_count
            ++ ru_hired ++ to_str repr hired_percent ++ lit "%")
      else Ok []
  | None => Ok []
  end.

(** The f-string of [_format_project_message], before [strip()]. *)
Definition project_template (project : dict) (buyer_info : str) : str :=
  let name := _escape_html repr (dget project (lit "name") (PStr ru_untitled)) in
  let description := shown_description project in
  let price_limit := dget project (lit "price_limit") (PStr (lit "N/A")) in
  let possible_price :=
    dget project (lit "possible_price_limit") (PStr (lit "N/A")) in
  let time_left := dget project (lit "time_left") (PStr (lit "N/A")) in
  let url := dget project (lit "url") (PStr []) in
  [NL] ++ lit "<b>" ++ name ++ lit "</b>" ++ [NL]
  ++ [NL]
  ++ lit "<b>" ++ ru_budget ++ lit "</b> " ++ to_str repr price_limit
  ++ lit " - " ++ to_str repr possible_price ++ lit " " ++ [ruble] ++ [NL]
  ++ lit "<b>" ++ ru_time_left ++ lit "</b> " ++ to_str repr time_left
  ++ [NL]
  ++ buyer_info ++ [NL]
  ++ [NL]
  ++ lit "<b>" ++ ru_description ++ lit "</b>" ++ [NL]
  ++ description ++ [NL]
  ++ [NL]
  ++ lit "<a href=" ++ [DQUOTE] ++ to_str repr url ++ [DQUOTE] ++ lit ">"
  ++ ru_go_to_project ++ lit "</a>" ++ [NL]
  ++ rule_line ++ [NL].

Definition _format_project_message (project : dict) : result str :=
  info ← buyer_info project;
  Ok (strip (project_template project info)).

Definition send_project (w : world) (project : dict)
  : result (world * bool) :=
  message ← _format_project_message project;
  send_message http_post w message (lit "HTML").

End SingleMessage.

End TelegramBot.

(* ===================================================================== *)
(** * kwork_parser.py *)
(* ===================================================================== *)

Module KworkParser.
Import Py.

Definition base_url : str := lit "https://kwork.ru".

(** ** The pattern [window\.stateData\s*=\s*({.*?});] with [re.DOTALL] *)

(** [text] without the prefix [p], when it has it. *)
Fixpoint strip_prefix (p text : str) : option str :=
  match p, text with
  | [], _ => Some text
  | _ :: _, [] => None
  | a :: p', b :: text' =>
      if (a =? b)%N then strip_prefix p' text' else None
  end.

(** [.*?});] : the shortest run of characters after which a closing brace
    and a semicolon follow, returned with the brace. *)
Fixpoint lazy_until_close (text : str) : option str :=
  match text with
  | [] => None
  | c :: rest =>
      match rest with
      | c' :: _ =>
          if (c =? 125)%N && (c' =? 59)%N then Some [c]
          else option_map (cons c) (lazy_until_close rest)
      | [] => None
      end
  end.

(** A match of the whole pattern that starts at the head of [text]: its
    group 1. *)
Definition match_here (text : str) : option str :=
  rest ← strip_prefix (lit "window.stateData") text;
  rest ← strip_prefix (lit "=") (lstrip rest);
  rest ← strip_prefix (lit "{") (lstrip rest);
  body ← lazy_until_close rest;
  Some (123%N :: body).

(** [re.search(pattern, html, re.DOTALL)]: group 1 of the leftmost match. *)
Fixpoint re_search (html : str) : option str :=
  match match_here html with
  | Some group => Some group
  | None =>
      match html with
      | [] => None
      | _ :: html' => re_search html'
      end
  end.

Section Extractor.

(** [repr] of a list or a dictionary. *)
Variable repr : pyval -> str.

(** [json.loads]; [Raise JSONDecodeError] when the text does not decode. *)
Variable json_loads : str -> result pyval.

(** The [try] block of [_parse_project_data]. *)
Definition parse_project_body (data : pyval) : result dict :=
  id ← get data (lit "id") PNone;
  name ← get data (lit "name") (PStr []);
  url_id ← get data (lit "id") (PStr []);
  description ← get data (lit "description") (PStr []);
  price_limit ← get data (lit "priceLimit") (PStr []);
  possible_price_limit ← get data (lit "possiblePriceLimit") (PStr []);
  category_id ← get data (lit "category_id") (PStr []);
  status ← get data (lit "status") (PStr []);
  time_left ← get data (lit "timeLeft") (PStr []);
  offers_count ← get data (lit "views_dirty") (PInt 0);
  date_create ← get data (lit "date_create") (PStr []);
  date_active ← get data (lit "date_active") (PStr []);
  date_expire ← get data (lit "date_expire") (PStr []);
  kwork_count ← get data (lit "kwork_count") (PInt 0);
  is_higher_price ← get data (lit "isHigherPrice") (PBool false);
  let project : dict :=
    [ (lit "id", id);
      (lit "name", name);
      (lit "url", PStr (base_url ++ lit "/projects/" ++ to_str repr url_id));
      (lit "description", description);
      (lit "price_limit", price_limit);
      (lit "possible_price_limit", possible_price_limit);
      (lit "category_id", category_id);
      (lit "status", status);
      (lit "time_left", time_left);
      (lit "offers_count", offers_count);
      (lit "date_create", date_create);
      (lit "date_active", date_active);
      (lit "date_expire", date_expire);
      (lit "kwork_count", kwork_count);
      (lit "is_higher_price", is_higher_price) ] in
  has_user ← contains (lit "user") data;
  if has_user : bool then
    user ← getitem data (lit "user");
    username ← get user (lit "username") (PStr []);
    user_id ← get user (lit "USERID") (PStr []);
    profile_name ← get user (lit "username") (PStr []);
    avatar ← get user (lit "profilepicture") (PStr []);
    let buyer : dict :=
      [ (lit "username", username);
        (lit "user_id", user_id);
        (lit "profile_url",
         PStr (base_url ++ lit "/user/" ++ to_str repr profile_name));
        (lit "avatar", avatar) ] in
    has_data ← contains (lit "data") user;
    if has_data : bool then
      user_data ← getitem user (lit "data");
      wants_count ← get user_data (lit "wants_count") (PStr (lit "0"));
      hired_percent ←
        get user_data (lit "wants_hired_percent") (PStr (lit "0"));
      Ok (project
          ++ [(lit "buyer",
               PDict (buyer ++ [(lit "wants_count", wants_count);
                                (lit "hired_percent", hired_percent)]))])
    else Ok (project ++ [(lit "buyer", PDict buyer)])
  else Ok project.

(** [_parse_project_data]: [None] when the [except] branch is taken. *)
Definition _parse_project_data (data : pyval) : option dict :=
  match parse_project_body data with
  | Ok project => Some project
  | Raise _ => None
  end.

(** The loop that fills [projects]. *)
Fixpoint collect_projects (projects_raw : list pyval) : list dict :=
  match projects_raw with
  | [] => []
  | proj :: rest =>
      match _parse_project_data proj with
      | Some project =>
          if truthy (PDict project)
          then project :: collect_projects rest
          else collect_projects rest
      | None => collect_projects rest
      end
  end.

(** The [try] block of [_extract_projects_from_js] after a match. *)
Definition extract_body (group : str) : result (list dict) :=
  state_data ← json_loads group;
  has_list ← contains (lit "wantsListData") state_data;
  if negb has_list then Ok []
  else
    wants_list ← getitem state_data (lit "wantsListData");
    has_pagination ← contains (lit "pagination") wants_list;
    paginated ←
      (if has_pagination : bool then
         pagination ← getitem wants_list (lit "pagination");
         contains (lit "data") pagination
       else Ok false);
    if paginated : bool then
      pagination ← getitem wants_list (lit "pagination");
      projects_raw ← getitem pagination (lit "data");
      entries ← iter projects_raw;
      Ok (collect_projects entries)
    else
      has_wants ← contains (lit "wants") wants_list;
      if has_wants : bool then
        projects_raw ← getitem wants_list (lit "wants");
        entries ← iter projects_raw;
        Ok (collect_projects entries)
      else Ok [].

(** [_extract_projects_from_js], from inside: the value it returns, or the
    exception that leaves it. *)
Definition extract_outcome (html : str) : result (list dict) :=
  match re_search html with
  | None => Ok []
  | Some group =>
      match extract_body group with
      | Ok projects => Ok projects
      | Raise _ => Ok []      (* the two [except] clauses *)
      end
  end.

Definition _extract_projects_from_js (html : str) : list dict :=
  match extract_outcome html with
  | Ok projects => projects
  | Raise _ => []
  end.

(** ** [parse_and_save] *)

(** The page served for a page number, [None] when the request fails. *)
Variable fetch : Z -> option str.

Definition parse_page (page : Z) : list dict :=
  match fetch page with
  | Some html => _extract_projects_from_js html
  | None => []
  end.

Record totals := {
  all_new_projects : list dict;
  total_inserted : nat;
  total_skipped : nat
}.

(** [proj_id in existing_ids], for a set of integers read from the table. *)
Definition in_ids (proj_id : pyval) (existing_ids : gset Z) : result bool :=
  match proj_id with
  | PInt z => Ok (bool_decide (z ∈ existing_ids))
  | PBool b => Ok (bool_decide (Z.b2z b ∈ existing_ids))
  | PFloat f =>
      Ok (match float_int f with
          | Some z => bool_decide (z ∈ existing_ids)
          | None => false
          end)
  | PNone | PStr _ => Ok false
  | PList _ | PDict _ => Raise TypeError     (* unhashable *)
  end.

(** The loop that separates new projects from known ones; the result is
    [(new_projects, inserted, skipped)], the counters being those of this
    page.  The progress line of a new project shows
    [proj.get('name', '')[:50]]. *)
Fixpoint partition_projects (existing_ids : gset Z) (projects : list dict)
  : result (list dict * nat * nat) :=
  match projects with
  | [] => Ok ([], 0%nat, 0%nat)
  | proj :: rest =>
      let proj_id := dget proj (lit "id") PNone in
      if negb (truthy proj_id) then partition_projects existing_ids rest
      else
        known ← in_ids proj_id existing_ids;
        _ ← (if known : bool then Ok PNone
             else slice_to (dget proj (lit "name") (PStr [])) 50);
        '(new_projects, ins, skip) ← partition_projects existing_ids rest;
        if known : bool then Ok (new_projects, ins, S skip)
        else Ok (proj :: new_projects, S ins, skip)
  end.

Fixpoint insert_all (d : DatabaseManager.db) (new_projects : list dict)
  : result DatabaseManager.db :=
  match new_projects with
  | [] => Ok d
  | proj :: rest =>
      d ← DatabaseManager.insert_project d proj;
      insert_all d rest
  end.

(** The body of the page loop from [if projects:] on, for the projects of
    one page.  The notification of the new projects acts on the channel
    alone and is modelled in [TelegramBot]. *)
Definition save_page (d : DatabaseManager.db) (t : totals)
    (projects : list dict) : result (DatabaseManager.db * totals) :=
  if bool_decide (projects = []) then Ok (d, t)
  else
    let project_ids :=
      filter (fun v => truthy v = true)
             (map (fun p => dget p (lit "id") PNone) projects) in
    existing_ids ← DatabaseManager.get_existing_project_ids d project_ids;
    '(new_projects, ins, skip) ← partition_projects existing_ids projects;
    d ← insert_all d new_projects;
    Ok (d, {| all_new_projects := all_new_projects t ++ new_projects;
              total_inserted := (total_inserted t + ins)%nat;
              total_skipped := (total_skipped t + skip)%nat |}).

Fixpoint page_loop (d : DatabaseManager.db) (t : totals) (pages : list Z)
  : result (DatabaseManager.db * totals) :=
  match pages with
  | [] => Ok (d, t)
  | page :: rest =>
      '(d, t) ← save_page d t (parse_page page);
      page_loop d t rest
  end.

Record stats := {
  total_parsed : nat;
  new_projects : nat;
  skipped_existing : nat;
  db_total_projects : nat;
  db_total_buyers : nat
}.

(** [range(start_page, end_page + 1)] *)
Definition page_range (start_page end_page : Z) : list Z :=
  map (fun k => start_page + Z.of_nat k)
      (seq 0 (Z.to_nat (end_page + 1 - start_page))).

Definition parse_and_save (d : DatabaseManager.db)
    (start_page end_page : Z) : result (DatabaseManager.db * stats) :=
  '(d, t) ← page_loop d {| all_new_projects := []; total_inserted := 0;
                           total_skipped := 0 |}
                      (page_range start_page end_page);
  Ok (d, {| total_parsed := (total_inserted t + total_skipped t)%nat;
            new_projects := total_inserted t;
            skipped_existing := total_skipped t;
            db_total_projects := DatabaseManager.total_projects d;
            db_total_buyers := DatabaseManager.total_buyers d |}).

End Extractor.

End KworkParser.

(* ===================================================================== *)
(** * Reference programs and vocabulary of the properties *)
(* ===================================================================== *)

Module Reference.
Import Py.

(** Consecutive chunks of [n] elements; the last one may be shorter. *)
Fixpoint chunks_upto {A} (fuel n : nat) (l : list A) : list (list A) :=
  match fuel, l with
  | S fuel', _ :: _ => take n l :: chunks_upto fuel' n (drop n l)
  | _, _ => []
  end.

Definition chunks {A} (n : nat) (l : list A) : list (list A) :=
  chunks_upto (length l) n l.

(** The texts posted in a history, oldest first. *)
Definition posted (w : TelegramBot.world) : list str :=
  omap (fun e => match e with
                 | TelegramBot.Post text _ _ => Some text
                 | TelegramBot.Sleep _ => None
                 end) w.

(** What [_escape_html] is meant to do to one character. *)
Definition escape_char (c : N) : str :=
  if (c =? 38)%N then lit "&amp;"
  else if (c =? 60)%N then lit "&lt;"
  else if (c =? 62)%N then lit "&gt;"
  else [c].

(** One message per chunk, in order, the numbering running on from
    [start_num], with a pause before each chunk but the first: the world it
    leaves and the outcome of every chunk. *)
Fixpoint send_chunks (repr : pyval -> str)
    (http_post : TelegramBot.world -> str -> str -> bool)
    (w : TelegramBot.world) (start_num : Z) (chunks : list (list dict))
  : result (TelegramBot.world * list bool) :=
  match chunks with
  | [] => Ok (w, [])
  | batch :: rest =>
      '(w, ok) ← TelegramBot.send_message http_post w
                   (TelegramBot._format_projects_batch repr batch start_num)
                   (lit "HTML");
      let w := match rest with
               | [] => w
               | _ :: _ => w ++ [TelegramBot.Sleep 1]
               end in
      '(w, oks) ← send_chunks repr http_post w
                    (start_num + Z.of_nat (length batch)) rest;
      Ok (w, ok :: oks)
  end.

(** The number of records in the chunks whose outcome is [true]. *)
Fixpoint delivered {A} (chunks : list (list A)) (oks : list bool) : nat :=
  match chunks, oks with
  | batch :: chunks', ok :: oks' =>
      ((if ok then length batch else 0) + delivered chunks' oks')%nat
  | _, _ => 0%nat
  end.

(** ** The extractor *)

(** The fields of a record that are copied from the raw entry: the key in
    the record, the key in the raw entry, and the default. *)
Definition field_defaults : list (str * str * pyval) :=
  [ (lit "name", lit "name", PStr []);
    (lit "description", lit "description", PStr []);
    (lit "price_limit", lit "priceLimit", PStr []);
    (lit "possible_price_limit", lit "possiblePriceLimit", PStr []);
    (lit "category_id", lit "category_id", PStr []);
    (lit "status", lit "status", PStr []);
    (lit "time_left", lit "timeLeft", PStr []);
    (lit "offers_count", lit "views_dirty", PInt 0);
    (lit "date_create", lit "date_create", PStr []);
    (lit "date_active", lit "date_active", PStr []);
    (lit "date_expire", lit "date_expire", PStr []);
    (lit "kwork_count", lit "kwork_count", PInt 0);
    (lit "is_higher_price", lit "isHigherPrice", PBool false) ].

(** The value found by descending through dictionaries along a path of
    keys. *)
Fixpoint descend (v : pyval) (path : list str) : option pyval :=
  match path with
  | [] => Some v
  | key :: path' =>
      match v with
      | PDict d =>
          match assoc key d with
          | Some v' => descend v' path'
          | None => None
          end
      | _ => None
      end
  end.

(** The listing array of the decoded block, under the paginated shape or,
    failing that, under the flat shape. *)
Definition listing (state_data : pyval) : option pyval :=
  match descend state_data
          [lit "wantsListData"; lit "pagination"; lit "data"] with
  | Some l => Some l
  | None => descend state_data [lit "wantsListData"; lit "wants"]
  end.

(** ** The record store *)

Definition is_ok {A} (r : result A) : bool :=
  match r with
  | Ok _ => true
  | Raise _ => false
  end.

(** The identifier of a record as [p.get('id')] reads it. *)
Definition record_id (p : dict) : pyval := dget p (lit "id") PNone.

(** A record has a non-empty identifier. *)
Definition has_id (p : dict) : bool := truthy (record_id p).

(** A record that the engine accepts: [insert_project] into the empty
    store returns.  (Whether it returns does not depend on the store, see
    [insert_project_defined].) *)
Definition storable (p : dict) : bool :=
  is_ok (DatabaseManager.insert_project DatabaseManager.empty_db p).

(** The name of a record can be shown in a progress line: it is a text
    (or a list), or the record has none. *)
Definition named (p : dict) : bool :=
  is_ok (slice_to (dget p (lit "name") (PStr [])) 50).

(** The identifier of a record is an integer (a boolean counts as one), as
    the signatures of the store declare it; and the identifier is a
    text. *)
Definition integer_id (p : dict) : bool :=
  match record_id p with
  | PInt _ | PBool _ => true
  | _ => false
  end.

Definition text_id (p : dict) : bool :=
  match record_id p with
  | PStr _ => true
  | _ => false
  end.

(** A candidate of a batch: unless it has no identifier, the engine
    accepts it and its name can be shown. *)
Definition candidate (p : dict) : bool :=
  implb (has_id p) (storable p && named p).

(** The key that an identifier denotes in the store. *)
Definition id_key (v : pyval) : Z :=
  match v with
  | PInt z => z
  | PBool b => Z.b2z b
  | PStr s => default 0 (DatabaseManager.int_of_text s)
  | _ => 0
  end.

Definition record_key (p : dict) : Z := id_key (record_id p).

(** The keys of the records of a batch that have an identifier. *)
Definition batch_keys (ps : list dict) : list Z :=
  map record_key (filter (fun p => has_id p = true) ps).

(** The identifiers present in the store. *)
Definition store_ids (d : DatabaseManager.db) : gset Z :=
  list_to_set (map DatabaseManager.p_id (DatabaseManager.projects d)).

(** The row that holds the fields of a record. *)
Definition row_of (p : dict) : DatabaseManager.project_row :=
  {| DatabaseManager.p_id := record_key p;
     DatabaseManager.p_name := dget p (lit "name") (PStr []);
     DatabaseManager.p_url := dget p (lit "url") (PStr []);
     DatabaseManager.p_description := dget p (lit "description") (PStr []);
     DatabaseManager.p_price_limit := dget p (lit "price_limit") (PStr []);
     DatabaseManager.p_possible_price_limit :=
       dget p (lit "possible_price_limit") (PStr []);
     DatabaseManager.p_category_id := dget p (lit "category_id") (PStr []);
     DatabaseManager.p_status := dget p (lit "status") (PStr []);
     DatabaseManager.p_time_left := dget p (lit "time_left") (PStr []);
     DatabaseManager.p_offers_count :=
       dget p (lit "offers_count") (PInt 0);
     DatabaseManager.p_date_create := dget p (lit "date_create") (PStr []);
     DatabaseManager.p_date_active := dget p (lit "date_active") (PStr []);
     DatabaseManager.p_date_expire := dget p (lit "date_expire") (PStr []);
     DatabaseManager.p_kwork_count := dget p (lit "kwork_count") (PInt 0);
     DatabaseManager.p_is_higher_price :=
       dget p (lit "is_higher_price") (PBool false) |}.

(** The reference for the bulk insert, in the words of the design: for
    each record in order, call the existence check and then, only if the
    record is absent, the single-record upsert. *)
Fixpoint exists_then_upsert (d : DatabaseManager.db)
    (c : DatabaseManager.counts) (records : list dict)
  : result (DatabaseManager.db * DatabaseManager.counts) :=
  match records with
  | [] => Ok (d, c)
  | record :: rest =>
      found ← DatabaseManager.project_exists d (record_id record);
      if found : bool then
        exists_then_upsert d
          {| DatabaseManager.inserted := DatabaseManager.inserted c;
             DatabaseManager.skipped := S (DatabaseManager.skipped c) |}
          rest
      else
        d ← DatabaseManager.insert_project d record;
        exists_then_upsert d
          {| DatabaseManager.inserted := S (DatabaseManager.inserted c);
             DatabaseManager.skipped := DatabaseManager.skipped c |}
          rest
  end.

Definition bulk_insert_reference (d : DatabaseManager.db)
    (records : list dict)
  : result (DatabaseManager.db * DatabaseManager.counts) :=
  exists_then_upsert d
    {| DatabaseManager.inserted := 0; DatabaseManager.skipped := 0 |}
    records.

(** A record of a page that goes through the whole pass: it has a
    non-empty integer identifier, the engine accepts it and its name can be
    shown. *)
Definition identified (p : dict) : bool :=
  has_id p && integer_id p && storable p && named p.

(** ** Records of the scenarios *)

(** A record as the extractor builds it from an entry that has only an
    identifier and a name. *)
Definition sample_record (id : Z) : dict :=
  [ (lit "id", PInt id);
    (lit "name", PStr (lit "Landing page"));
    (lit "url", PStr (KworkParser.base_url ++ lit "/projects/" ++ decimal id));
    (lit "description", PStr []);
    (lit "price_limit", PStr []);
    (lit "possible_price_limit", PStr []);
    (lit "category_id", PStr []);
    (lit "status", PStr []);
    (lit "time_left", PStr []);
    (lit "offers_count", PInt 0);
    (lit "date_create", PStr []);
    (lit "date_active", PStr []);
    (lit "date_expire", PStr []);
    (lit "kwork_count", PInt 0);
    (lit "is_higher_price", PBool false) ].

(** The same record with another name: a second payload for the same
    identifier. *)
Definition renamed_record (id : Z) : dict :=
  (lit "id", PInt id) :: (lit "name", PStr (lit "Online shop"))
  :: drop 2 (sample_record id).

(** The record [id] with the text of its identifier in place of the
    integer. *)
Definition text_id_record (id : Z) : dict :=
  (lit "id", PStr (decimal id)) :: drop 1 (sample_record id).

(** The record [id] with a number for a name. *)
Definition numbered_record (id : Z) : dict :=
  (lit "id", PInt id) :: (lit "name", PInt 5) :: drop 2 (sample_record id).

(** A raw entry of the listing with an identifier and a name only. *)
Definition sample_entry (id : Z) : pyval :=
  PDict [(lit "id", PInt id); (lit "name", PStr (lit "Landing page"))].

(** A raw entry without identifier. *)
Definition nameless_entry : pyval :=
  PDict [(lit "name", PStr (lit "Landing page"))].

(** A text of 4001 characters without newline, and the same text after a
    leading newline. *)
Definition long_text : str := repeat 97%N 4001.
Definition long_text_nl : str := NL :: repeat 97%N 4001.

(** Stand-ins for the outside of the program in the scenarios: a channel
    that accepts every request, a [repr] that prints nothing, a decoder
    that refuses everything and one that yields a block without listing. *)
Definition always_delivered : TelegramBot.world -> str -> str -> bool :=
  fun _ _ _ => true.
Definition no_repr : pyval -> str := fun _ => [].
Definition never_decodes : str -> result pyval :=
  fun _ => Raise JSONDecodeError.
Definition decodes_empty_state : str -> result pyval :=
  fun _ => Ok (PDict [(lit "wantsListData", PDict [])]).

(** The number of records on the pages of a run. *)
Definition records_on (page_records : Z -> list dict) (pages : list Z)
  : nat :=
  length (concat (map page_records pages)).

Definition no_totals : KworkParser.totals :=
  {| KworkParser.all_new_projects := [];
     KworkParser.total_inserted := 0;
     KworkParser.total_skipped := 0 |}.

(** ** Vocabulary of the further properties *)


(** The characters of a text that are not whitespace, in order. *)
Definition visible (text : str) : str :=
  filter (fun c => py_isspace c = false) text.

(** The requests of a history with their outcomes, oldest first, and the
    number of its pauses. *)
Definition outcomes (w : TelegramBot.world) : list (str * bool) :=
  omap (fun e => match e with
                 | TelegramBot.Post text _ ok => Some (text, ok)
                 | TelegramBot.Sleep _ => None
                 end) w.

Definition pauses (w : TelegramBot.world) : list nat :=
  omap (fun e => match e with
                 | TelegramBot.Sleep seconds => Some seconds
                 | TelegramBot.Post _ _ _ => None
                 end) w.

(** The pieces in which [send_message] transmits a text. *)
Definition pieces (text : str) : list str :=
  if (TelegramBot.telegram_limit <? length text)%nat
  then TelegramBot.split_parts text else [text].

(** ** Further records and stand-ins of the scenarios *)

(** A buyer as the extractor builds it, a record that carries it, and a raw
    entry with a [user]. *)
Definition sample_buyer : dict :=
  [ (lit "username", PStr (lit "anna"));
    (lit "user_id", PInt 42);
    (lit "profile_url", PStr (KworkParser.base_url ++ lit "/user/anna"));
    (lit "avatar", PStr []) ].

Definition record_with_buyer (id : Z) : dict :=
  sample_record id ++ [(lit "buyer", PDict sample_buyer)].

Definition entry_with_user (id : Z) : pyval :=
  PDict [ (lit "id", PInt id);
          (lit "name", PStr (lit "Landing page"));
          (lit "user",
           PDict [ (lit "username", PStr (lit "anna"));
                   (lit "USERID", PInt 42);
                   (lit "data", PDict [(lit "wants_count", PInt 3)]) ]) ].

(** A record whose buyer is a text. *)
Definition record_with_text_buyer (id : Z) : dict :=
  sample_record id ++ [(lit "buyer", PStr (lit "anna"))].

(** A decoder that yields a given block, a block with both listing arrays
    (the paginated one holds a malformed entry between two good ones), a
    block with the flat array only, and a page that embeds a block. *)
Definition decodes_to (state_data : pyval) : str -> result pyval :=
  fun _ => Ok state_data.

Definition both_listings : pyval :=
  PDict [(lit "wantsListData",
          PDict [ (lit "pagination",
                   PDict [(lit "data",
                           PList [ sample_entry 1;
                                   PStr (lit "junk");
                                   sample_entry 2 ])]);
                  (lit "wants", PList [sample_entry 3]) ])].

Definition flat_listing : pyval :=
  PDict [(lit "wantsListData",
          PDict [(lit "wants", PList [sample_entry 3])])].

Definition block_page : str :=
  lit "<script>window.stateData = {};</script>".

(** Every request answered with the same page, and every request failing. *)
Definition serves (html : str) : Z -> option str := fun _ => Some html.
Definition unreachable : Z -> option str := fun _ => None.

End Reference.

(* ===================================================================== *)
(** * Properties of the notifier *)
(* ===================================================================== *)

Section SplitFacts.
Import Py TelegramBot.

Lemma lstrip_length (s : str) : (length (lstrip s) <= length s)%nat.
Proof.
  induction s as [|x s IH]; simpl; [lia|].
  destruct (py_isspace x); simpl; lia.
Qed.

Lemma lstrip_newline (s : str) : lstrip (NL :: s) = lstrip s.
Proof. reflexivity. Qed.

(** [rfind_from] answers [-1] or an index of the scanned range. *)
Lemma rfind_from_range c (s : str) i :
  0 <= i ->
  rfind_from c s i = -1 \/
  (i <= rfind_from c s i < i + Z.of_nat (length s)).
Proof.
  revert i. induction s as [|x s IH]; intros i Hi; simpl; [by left|].
  destruct (IH (i + 1)) as [Hr | Hr]; [lia| |].
  - rewrite Hr. simpl. destruct (x =? c)%N; [right; lia | by left].
  - destruct (Z.eqb_spec (rfind_from c s (i + 1)) (-1)); [lia|].
    right. lia.
Qed.

(** At the index answered, the character is the needle, and the needle
    does not occur after it. *)
Lemma rfind_from_hit c (s : str) i :
  0 <= i -> rfind_from c s i <> -1 ->
  s !! Z.to_nat (rfind_from c s i - i) = Some c /\
  forall j : nat, (Z.to_nat (rfind_from c s i - i) < j)%nat ->
                  s !! j <> Some c.
Proof.
  revert i. induction s as [|x s IH]; intros i Hi; simpl; [done|].
  destruct (rfind_from_range c s (i + 1)) as [Hr | Hr]; [lia| |].
  - rewrite Hr. simpl. destruct (N.eqb_spec x c) as [-> | Hx]; [|done].
    intros _. rewrite Z.sub_diag. simpl. split; [done|].
    intros [|j] Hj; [lia|]. simpl. intros Hlook.
    assert (Hin : c ∈ s) by (by eapply list_elem_of_lookup_2).
    clear -Hin Hr Hi. revert i Hi Hr.
    induction s as [|y s IH]; intros i Hi; [by inversion Hin|].
    simpl.
    destruct (rfind_from_range c s (i + 1 + 1)) as [Hr | Hr]; [lia| |].
    + rewrite Hr. simpl. destruct (N.eqb_spec y c) as [-> | Hy]; [lia|].
      intros _. apply elem_of_cons in Hin as [-> | Hin]; [done|].
      by apply (IH Hin (i + 1)); [lia|].
    + destruct (Z.eqb_spec (rfind_from c s (i + 1 + 1)) (-1)); lia.
  - destruct (Z.eqb_spec (rfind_from c s (i + 1)) (-1)) as [|Hne]; [lia|].
    intros _. destruct (IH (i + 1)) as [Hat Hafter]; [lia|done|].
    replace (Z.to_nat (rfind_from c s (i + 1) - i))
      with (S (Z.to_nat (rfind_from c s (i + 1) - (i + 1)))) by lia.
    simpl. split; [done|].
    intros [|j] Hj; [lia|]. simpl. apply Hafter. lia.
Qed.

Lemma rfind_from_miss c (s : str) i :
  0 <= i -> rfind_from c s i = -1 -> c ∉ s.
Proof.
  revert i. induction s as [|x s IH]; intros i Hi; simpl.
  - intros _ Hin. by inversion Hin.
  - destruct (rfind_from_range c s (i + 1)) as [Hr | Hr]; [lia| |].
    + rewrite Hr. simpl. destruct (N.eqb_spec x c) as [-> | Hx]; [lia|].
      intros _ Hin. apply elem_of_cons in Hin as [-> | Hin]; [done|].
      by apply (IH (i + 1)); [lia| |].
    + destruct (Z.eqb_spec (rfind_from c s (i + 1)) (-1)); lia.
Qed.

End SplitFacts.

Section SplitTheorems.
Import Py TelegramBot.

(** The position chosen for a text longer than [max_length]: the index of
    the last newline among its first [max_length] characters, or
    [max_length] when there is none. *)
Lemma split_pos_spec (text : str) :
  (max_length < length text)%nat ->
  exists k : nat,
    split_pos text = Z.of_nat k /\
    ((k < max_length)%nat /\ text !! k = Some NL /\
       (forall j : nat, (k < j < max_length)%nat -> text !! j <> Some NL)
     \/ k = max_length /\ NL ∉ take max_length text).
Proof.
  intros Hlen. unfold split_pos, rfind.
  pose proof (rfind_from_range NL (take max_length text) 0) as Hrange.
  rewrite length_take, Nat.min_l in Hrange by lia.
  destruct (Z.eqb_spec (rfind_from NL (take max_length text) 0) (-1))
    as [Hmiss | Hhit].
  - exists max_length. split; [done|]. right. split; [done|].
    by eapply rfind_from_miss; [|exact Hmiss].
  - destruct Hrange as [? | Hrange]; [lia|done|].
    destruct (rfind_from_hit NL (take max_length text) 0) as [Hat Hafter];
      [lia|done|].
    rewrite Z.sub_0_r in Hat, Hafter.
    exists (Z.to_nat (rfind_from NL (take max_length text) 0)).
    split; [lia|]. left. split; [lia|]. split.
    + rewrite lookup_take_lt in Hat by lia. exact Hat.
    + intros j Hj Hlook. apply (Hafter j); [lia|].
      rewrite lookup_take_lt by lia. exact Hlook.
Qed.

Lemma split_pos_le (text : str) :
  (max_length < length text)%nat ->
  0 <= split_pos text <= Z.of_nat max_length.
Proof.
  intros Hlen. destruct (split_pos_spec text Hlen) as (k & -> & Hk).
  destruct Hk as [(? & _) | (-> & _)]; lia.
Qed.

(** One turn of the loop leaves a strictly shorter text. *)
Lemma split_rest_shorter (text : str) :
  (max_length < length text)%nat ->
  (length (lstrip (drop (Z.to_nat (split_pos text)) text))
   < length text)%nat.
Proof.
  intros Hlen. destruct (split_pos_spec text Hlen) as (k & -> & Hk).
  rewrite Nat2Z.id.
  pose proof (lstrip_length (drop k text)) as Hs.
  rewrite length_drop in Hs.
  destruct (decide (k = 0%nat)) as [-> | Hk0]; [|lia].
  destruct Hk as [(_ & Hnl & _) | (Hmax & _)]; [|done].
  destruct text as [|c t]; [done|]. simpl in Hnl. injection Hnl as ->.
  rewrite drop_0, lstrip_newline.
  pose proof (lstrip_length t). simpl. lia.
Qed.

Lemma split_parts_nil : split_parts [] = [].
Proof. by simp split_parts. Qed.

Lemma split_parts_short (text : str) :
  text <> [] -> (length text <= max_length)%nat -> split_parts text = [text].
Proof.
  intros Hne Hlen. destruct text as [|c t]; [done|].
  simp split_parts. destruct (decide _); [done | lia].
Qed.

Lemma split_parts_long (text : str) :
  (max_length < length text)%nat ->
  split_parts text =
    take (Z.to_nat (split_pos text)) text
    :: split_parts (lstrip (drop (Z.to_nat (split_pos text)) text)).
Proof.
  intros Hlen. destruct text as [|c t]; [simpl in Hlen; lia|].
  simp split_parts. destruct (decide _); [lia | done].
Qed.

Lemma split_parts_bounded (text : str) :
  Forall (fun part : str => (length part <= max_length)%nat)
         (split_parts text).
Proof.
  remember (length text) as n eqn:Hn. revert text Hn.
  induction n as [n IH] using lt_wf_ind. intros text ->.
  destruct (decide (text = [])) as [-> | Hne].
  { rewrite split_parts_nil. constructor. }
  destruct (decide (length text <= max_length)%nat) as [Hle | Hgt].
  { rewrite split_parts_short by done. constructor; [exact Hle | constructor]. }
  rewrite split_parts_long by lia. constructor.
  - pose proof (split_pos_le text ltac:(lia)). rewrite length_take. lia.
  - eapply IH; [|reflexivity]. apply split_rest_shorter. lia.
Qed.

Lemma split_loop_parts (fuel : nat) (text : str) (parts : list str) :
  (length text < fuel)%nat ->
  split_loop fuel text parts = Some (parts ++ split_parts text).
Proof.
  revert text parts. induction fuel as [|fuel IH]; intros text parts Hlen;
    [lia|].
  destruct text as [|c t].
  { simpl. by rewrite split_parts_nil, app_nil_r. }
  cbn [split_loop].
  destruct (Nat.leb_spec (length (c :: t)) max_length) as [Hle | Hgt].
  - by rewrite split_parts_short.
  - rewrite IH.
    + rewrite (split_parts_long (c :: t)) by done.
      by rewrite <- app_assoc.
    + pose proof (split_rest_shorter (c :: t) Hgt). lia.
Qed.

(** C3. Every segment that the split of a long message produces has at
    most 4000 characters, hence at most the 4096 the channel accepts.  A
    text of at most 4000 characters is one segment; a longer one is cut at
    its last newline among the first 4000 characters, or after exactly 4000
    characters when these hold no newline, and the rest is split on after
    its leading whitespace is dropped. *)
Theorem split_segments_within_limit (text : str) :
  Forall (fun part : str => (length part <= 4000)%nat
                            /\ (length part <= 4096)%nat)
         (split_parts text)
  /\ ((4000 < length text)%nat ->
      exists k : nat,
        split_parts text = take k text :: split_parts (lstrip (drop k text))
        /\ ((k < 4000)%nat /\ text !! k = Some NL /\
              (forall j : nat, (k < j < 4000)%nat -> text !! j <> Some NL)
            \/ k = 4000%nat /\ NL ∉ take 4000 text)).
Proof.
  split.
  - eapply Forall_impl; [apply split_parts_bounded|].
    intros part Hpart. unfold max_length in Hpart. simpl in Hpart. lia.
  - intros Hlen. destruct (split_pos_spec text Hlen) as (k & Hk & Hcut).
    exists k. split; [|exact Hcut].
    rewrite split_parts_long by exact Hlen. by rewrite Hk, Nat2Z.id.
Qed.

(** C10. The splitting loop terminates: a turn of the loop on a text of
    more than 4000 characters leaves a strictly shorter text (the cut is
    at a positive position, or the text starts with a newline, which the
    trim removes), so the loop run with more turns than the text has
    characters returns, and what it returns is [split_parts text]. *)
Theorem split_loop_terminates (text : str) (fuel : nat) :
  (length text < fuel)%nat ->
  split_loop fuel text [] = Some (split_parts text)
  /\ ((max_length < length text)%nat ->
      (length (lstrip (drop (Z.to_nat (split_pos text)) text))
       < length text)%nat
      /\ (0 < split_pos text \/ head text = Some NL)).
Proof.
  intros Hfuel. split; [by rewrite split_loop_parts|].
  intros Hlen. split; [by apply split_rest_shorter|].
  destruct (split_pos_spec text Hlen) as (k & -> & Hk).
  destruct k as [|k]; [right | left; lia].
  destruct Hk as [(_ & Hnl & _) | (Hmax & _)]; [|done].
  by destruct text.
Qed.

End SplitTheorems.

Section SendFacts.
Import Py TelegramBot Reference.

Variable repr : pyval -> str.
Variable http_post : world -> str -> str -> bool.

Lemma posted_app (w1 w2 : world) : posted (w1 ++ w2) = posted w1 ++ posted w2.
Proof. unfold posted. apply omap_app. Qed.

Lemma send_message_rec_short depth (w : world) (text parse_mode : str) :
  (length text <= telegram_limit)%nat ->
  send_message_rec http_post depth w text parse_mode =
    Ok (w ++ [Post text parse_mode (http_post w text parse_mode)],
        http_post w text parse_mode).
Proof.
  intros Hlen. destruct depth; simpl;
    destruct (Nat.ltb_spec telegram_limit (length text)); done || lia.
Qed.

(** The sending loop over parts that fit: it returns, and it has posted a
    prefix of the parts, all of them when it answers [true]. *)
Lemma send_parts_fit depth parse_mode (parts : list str) :
  Forall (fun part : str => (length part <= telegram_limit)%nat) parts ->
  forall (w : world) (i : nat),
  exists (w' : world) (ok : bool) (n : nat),
    send_parts (fun w part => send_message_rec http_post depth w part parse_mode)
               w i parts = Ok (w', ok)
    /\ posted w' = posted w ++ take n parts
    /\ (ok = true -> n = length parts).
Proof.
  induction 1 as [|part parts Hpart _ IH]; intros w i.
  { exists w, true, 0%nat. simpl. by rewrite app_nil_r. }
  cbn [send_parts]. rewrite send_message_rec_short by done.
  set (w1 := if (0 <? i)%nat then w ++ [Sleep 1] else w).
  assert (Hw1 : posted w1 = posted w).
  { subst w1. destruct (0 <? i)%nat; [|done].
    rewrite posted_app. simpl. by rewrite app_nil_r. }
  cbn. destruct (http_post w1 part parse_mode) eqn:Hok.
  - destruct (IH (w1 ++ [Post part parse_mode true]) (S i))
      as (w' & ok & n & Hrun & Hposted & Hall).
    exists w', ok, (S n). split; [done|]. split.
    + rewrite Hposted, posted_app, Hw1. simpl. by rewrite <- app_assoc.
    + intros Hok'. simpl. by rewrite Hall.
  - exists (w1 ++ [Post part parse_mode false]), false, 1%nat.
    split; [done|]. split; [|done].
    rewrite posted_app, Hw1. simpl. by rewrite take_0.
Qed.

Lemma split_parts_fit (text : str) :
  Forall (fun part : str => (length part <= telegram_limit)%nat)
         (split_parts text).
Proof.
  eapply Forall_impl; [apply split_parts_bounded|].
  intros part Hpart. unfold max_length, telegram_limit in *. simpl in *. lia.
Qed.

(** [send_message] returns; what it posts is the text itself or, for a
    long text, leading parts of its split. *)
Lemma send_message_total (w : world) (text parse_mode : str) :
  exists (w' : world) (ok : bool) (n : nat),
    send_message http_post w text parse_mode = Ok (w', ok)
    /\ posted w' =
         posted w ++ take n (if (telegram_limit <? length text)%nat
                             then split_parts text else [text]).
Proof.
  unfold send_message. cbn [send_message_rec].
  destruct (telegram_limit <? length text)%nat.
  - destruct (send_parts_fit 0 parse_mode _ (split_parts_fit text) w 0%nat)
      as (w' & ok & n & Hrun & Hposted & _).
    by exists w', ok, n.
  - eexists _, _, 1%nat. split; [reflexivity|].
    by rewrite posted_app.
Qed.

(** The nesting of the two sending methods never exceeds one level. *)
Lemma send_message_rec_depth depth (w : world) (text parse_mode : str) :
  send_message_rec http_post (S depth) w text parse_mode =
  send_message http_post w text parse_mode.
Proof.
  unfold send_message. cbn [send_message_rec].
  destruct (telegram_limit <? length text)%nat; [|done].
  pose proof (split_parts_fit text) as Hfit.
  enough (Hgen : forall (w : world) (i : nat),
    send_parts (fun w part =>
                  send_message_rec http_post depth w part parse_mode)
               w i (split_parts text) =
    send_parts (fun w part => send_message_rec http_post 0 w part parse_mode)
               w i (split_parts text)) by apply Hgen.
  induction Hfit as [|part parts Hpart _ IH]; intros w' i; [done|].
  cbn [send_parts]. rewrite !send_message_rec_short by done. cbn.
  destruct (http_post _ part parse_mode); [apply IH | done].
Qed.

End SendFacts.

Section EscapeFacts.
Import Py TelegramBot Reference.

Lemma replace_app c (by_ a b : str) :
  replace c by_ (a ++ b) = replace c by_ a ++ replace c by_ b.
Proof. apply flat_map_app. Qed.

(** The three replacements in a row amount to one pass that maps every
    character to its entity. *)
Lemma escape_chain (s : str) :
  replace 62 (lit "&gt;") (replace 60 (lit "&lt;")
    (replace 38 (lit "&amp;") s)) = flat_map escape_char s.
Proof.
  induction s as [|x s IH]; [done|].
  change (x :: s) with ([x] ++ s).
  rewrite !flat_map_app, <- IH. unfold replace at 3.
  rewrite flat_map_app, !replace_app. f_equal.
  simpl. unfold escape_char.
  destruct (x =? 38)%N; [reflexivity|]. simpl.
  destruct (x =? 60)%N; [reflexivity|]. simpl.
  by destruct (x =? 62)%N.
Qed.


End EscapeFacts.

Section SendTheorems.
Import Py TelegramBot Reference.

Variable repr : pyval -> str.
Variable http_post : world -> str -> str -> bool.


End SendTheorems.

Section ChunkFacts.
Import Reference.
Context {A : Type}.
Implicit Types (l : list A) (b fuel : nat).

Lemma chunks_upto_nil fuel b l :
  (length l <= fuel)%nat -> chunks_upto fuel b l = [] <-> l = [].
Proof.
  destruct fuel, l; simpl; intros; split; intros; done || lia.
Qed.

Lemma chunks_upto_cons fuel b l :
  l <> [] ->
  chunks_upto (S fuel) b l = take b l :: chunks_upto fuel b (drop b l).
Proof. by destruct l. Qed.

Lemma chunks_upto_concat fuel b l :
  (0 < b)%nat -> (length l <= fuel)%nat -> concat (chunks_upto fuel b l) = l.
Proof.
  intros Hb. revert l. induction fuel as [|fuel IH]; intros l Hlen.
  - destruct l; [done | simpl in Hlen; lia].
  - destruct l as [|x l]; [done|].
    cbn [chunks_upto concat]. rewrite IH; [apply take_drop|].
    rewrite length_drop. simpl in *. lia.
Qed.

Lemma chunks_upto_sizes fuel b l :
  (0 < b)%nat ->
  Forall (fun chunk => (0 < length chunk <= b)%nat) (chunks_upto fuel b l).
Proof.
  intros Hb. revert l. induction fuel as [|fuel IH]; intros l.
  - destruct l; constructor.
  - destruct l as [|x l]; [constructor|].
    cbn [chunks_upto]. constructor; [|apply IH].
    rewrite length_take. simpl. lia.
Qed.

Lemma chunks_upto_count fuel b l :
  (0 < b)%nat -> (length l <= fuel)%nat ->
  Z.of_nat (length (chunks_upto fuel b l)) =
    (Z.of_nat (length l) + Z.of_nat b - 1) / Z.of_nat b.
Proof.
  intros Hb. revert l. induction fuel as [|fuel IH]; intros l Hlen.
  - destruct l; [|simpl in Hlen; lia]. simpl.
    symmetry. apply Z.div_small. lia.
  - destruct l as [|x l].
    { simpl. symmetry. apply Z.div_small. lia. }
    cbn [chunks_upto]. remember (x :: l) as xl eqn:Hxl.
    assert (Hpos : (0 < length xl)%nat) by (subst xl; simpl; lia).
    assert (Hfuel : (length xl <= S fuel)%nat) by (by subst xl).
    clear Hxl Hlen. cbn [length]. rewrite Nat2Z.inj_succ, IH.
    2:{ rewrite length_drop. lia. }
    rewrite length_drop.
    destruct (decide (length xl <= b)%nat) as [Hle | Hgt].
    + replace (length xl - b)%nat with 0%nat by lia.
      rewrite (Z.div_small (Z.of_nat 0 + _ - 1)) by lia.
      apply Z.div_unique with (r := Z.of_nat (length xl) - 1); lia.
    + replace (Z.of_nat (length xl) + Z.of_nat b - 1)
        with (Z.of_nat (length xl - b) + Z.of_nat b - 1
              + 1 * Z.of_nat b) by lia.
      rewrite Z.div_add by lia. lia.
Qed.

Lemma delivered_le (chunks : list (list A)) (oks : list bool) :
  (delivered chunks oks <= length (concat chunks))%nat.
Proof.
  revert oks. induction chunks as [|chunk chunks IH]; intros oks; [done|].
  destruct oks as [|ok oks]; simpl; [lia|].
  rewrite length_app. specialize (IH oks). destruct ok; lia.
Qed.

End ChunkFacts.

Section BatchTheorem.
Import Py TelegramBot Reference.

Variable repr : pyval -> str.
Variable http_post : world -> str -> str -> bool.

(** The loop over the indices [k0 * batch_size, (k0 + 1) * batch_size, ...]
    does what [send_chunks] does on the chunks of the projects from that
    index on. *)
Lemma send_batch_loop_chunks (projects : list dict) (batch_size : Z) :
  0 < batch_size ->
  forall (fuel k0 : nat) (w : world) (c : nat),
    (length (drop (k0 * Z.to_nat batch_size) projects) <= fuel)%nat ->
    exists (w' : world) (oks : list bool),
      send_chunks repr http_post w
        (Z.of_nat (k0 * Z.to_nat batch_size) + 1)
        (chunks_upto fuel (Z.to_nat batch_size)
                     (drop (k0 * Z.to_nat batch_size) projects))
        = Ok (w', oks)
      /\ length oks =
           length (chunks_upto fuel (Z.to_nat batch_size)
                     (drop (k0 * Z.to_nat batch_size) projects))
      /\ send_batch_loop repr http_post projects batch_size (w, c)
           (map (fun k => Z.of_nat k * batch_size)
                (seq k0 (length
                   (chunks_upto fuel (Z.to_nat batch_size)
                      (drop (k0 * Z.to_nat batch_size) projects)))))
         = Ok (w', (c + delivered
                      (chunks_upto fuel (Z.to_nat batch_size)
                         (drop (k0 * Z.to_nat batch_size) projects))
                      oks)%nat).
Proof.
  intros Hbs. set (b := Z.to_nat batch_size).
  assert (Hb : (0 < b)%nat) by lia.
  induction fuel as [|fuel IH]; intros k0 w c Hlen.
  { exists w, []. destruct (drop (k0 * b) projects); simpl;
      by rewrite Nat.add_0_r. }
  fold b in IH.
  destruct (decide (drop (k0 * b) projects = [])) as [Hnil | Hdrop].
  { rewrite Hnil. exists w, []. simpl. by rewrite Nat.add_0_r. }
  rewrite chunks_upto_cons by done.
  remember (take b (drop (k0 * b) projects)) as batch eqn:Hbatch.
  remember (S k0 * b)%nat as off eqn:Hoff.
  remember (k0 * b)%nat as here eqn:Hhere.
  assert (Hnext : drop b (drop here projects) = drop off projects).
  { rewrite drop_drop. f_equal. lia. }
  rewrite Hnext.
  assert (Hsome : (length (drop here projects) <> 0)%nat)
    by (by destruct (drop here projects)).
  assert (Hlen' : (length (drop off projects) <= fuel)%nat).
  { rewrite <- Hnext, length_drop. lia. }
  cbn [length seq map send_batch_loop send_chunks].
  assert (Hslice : slice projects (Z.of_nat k0 * batch_size)
                     (Z.of_nat k0 * batch_size + batch_size) = batch).
  { unfold slice. subst batch. f_equal; [lia|]. f_equal. lia. }
  unfold send_batch_at. rewrite Hslice.
  replace (Z.of_nat k0 * batch_size + 1) with (Z.of_nat here + 1) by lia.
  destruct (send_message_total http_post w
              (_format_projects_batch repr batch (Z.of_nat here + 1))
              (lit "HTML")) as (w1 & ok & n & Hsend & _).
  rewrite Hsend. cbn.
  remember (if ok then (c + length batch)%nat else c) as c' eqn:Hc'.
  rewrite length_drop in Hsome.
  destruct (decide (drop off projects = [])) as [Hlast | Hmore].
  - (* the last chunk *)
    rewrite Hlast.
    assert (Hnil : chunks_upto fuel b (@nil dict) = [])
      by (by destruct fuel).
    rewrite Hnil. cbn.
    assert (Hno : (Z.of_nat k0 * batch_size + batch_size
                   <? Z.of_nat (length projects)) = false).
    { apply Z.ltb_ge. apply (f_equal length) in Hlast.
      rewrite length_drop in Hlast. simpl in Hlast. lia. }
    rewrite Hno. exists w1, [ok]. split; [done|]. split; [done|].
    do 2 f_equal. subst c'. simpl. destruct ok; lia.
  - (* more chunks follow *)
    assert (Hrestlen : (length (drop off projects) <> 0)%nat)
      by (by destruct (drop off projects)).
    rewrite length_drop in Hrestlen.
    assert (Hyes : (Z.of_nat k0 * batch_size + batch_size
                    <? Z.of_nat (length projects)) = true).
    { apply Z.ltb_lt. lia. }
    rewrite Hyes.
    assert (Hfull : length batch = b).
    { subst batch. rewrite length_take, length_drop. lia. }
    specialize (IH (S k0) (w1 ++ [Sleep 1]) c').
    rewrite <- Hoff in IH.
    destruct (IH Hlen') as (w' & oks & Hchunks & Hoks & Hloop).
    destruct (chunks_upto fuel b (drop off projects))
      as [|chunk rest] eqn:Hrest.
    { apply chunks_upto_nil in Hrest; done. }
    rewrite <- Hrest in *.
    replace (Z.of_nat here + 1 + Z.of_nat (length batch))
      with (Z.of_nat off + 1) by lia.
    rewrite Hchunks. cbn. exists w', (ok :: oks).
    split; [done|]. split; [simpl; by rewrite Hoks|].
    rewrite Hloop. do 2 f_equal. subst c'. simpl. destruct ok; lia.
Qed.

(** C9. For a positive [batch_size], [send_projects_batch] cuts the
    records into consecutive chunks of at most [batch_size] records, sends
    one message per chunk in order, and returns the number of records in
    the chunks whose message was sent: a chunk that failed counts for
    nothing, whatever happened to the chunks before it, and the count is at
    most the number of records. *)
Theorem send_projects_batch_count (w : world) (projects : list dict)
    (batch_size : Z) :
  0 < batch_size ->
  let chunks := chunks (Z.to_nat batch_size) projects in
  concat chunks = projects
  /\ Forall (fun chunk : list dict =>
               (0 < length chunk <= Z.to_nat batch_size)%nat) chunks
  /\ exists (w' : world) (oks : list bool),
       send_chunks repr http_post w 1 chunks = Ok (w', oks)
       /\ length oks = length chunks
       /\ send_projects_batch repr http_post w projects batch_size
          = Ok (w', delivered chunks oks)
       /\ (0 <= delivered chunks oks <= length projects)%nat.
Proof.
  intros Hbs chs. subst chs. unfold chunks.
  assert (Hb : (0 < Z.to_nat batch_size)%nat) by lia.
  pose proof (chunks_upto_concat (length projects) _ projects Hb
                (Nat.le_refl _)) as Hconcat.
  split; [exact Hconcat|]. split; [by apply chunks_upto_sizes|].
  destruct (send_batch_loop_chunks projects batch_size Hbs
              (length projects) 0 w 0) as (w' & oks & Hchunks & Hoks & Hloop).
  { rewrite length_drop. lia. }
  rewrite Nat.mul_0_l, drop_0 in Hchunks, Hoks, Hloop.
  change (Z.of_nat 0 + 1) with 1 in Hchunks.
  exists w', oks. split; [exact Hchunks|]. split; [exact Hoks|]. split.
  - unfold send_projects_batch, range0.
    destruct (Z.eqb_spec batch_size 0); [lia|].
    destruct (Z.ltb_spec 0 batch_size); [|lia]. cbn.
    pose proof (chunks_upto_count (length projects) _ projects Hb
                  (Nat.le_refl _)) as Hcount.
    rewrite Z2Nat.id in Hcount by lia.
    rewrite <- Hcount, Nat2Z.id. exact Hloop.
  - pose proof (delivered_le (chunks_upto (length projects)
                 (Z.to_nat batch_size) projects) oks) as Hle.
    rewrite Hconcat in Hle. lia.
Qed.

End BatchTheorem.

(* ===================================================================== *)
(** * Properties of the record store *)
(* ===================================================================== *)

Section ResultFacts.
Import Py.

Lemma bind_Ok {A B} (m : result A) (k : A -> result B) (b : B) :
  (x ← m; k x) = Ok b <-> exists a, m = Ok a /\ k a = Ok b.
Proof.
  destruct m as [a|e]; cbn; split.
  - intros H. by exists a.
  - by intros (a' & [= ->] & H).
  - done.
  - by intros (a' & [=] & _).
Qed.

Lemma sql_param_Ok (v v' : pyval) :
  DatabaseManager.sql_param v = Ok v' -> v' = v.
Proof.
  destruct v as [| |z| | | |]; cbn; try congruence.
  destruct (DatabaseManager.int64 z); congruence.
Qed.

Lemma not_null_Ok (v v' : pyval) :
  DatabaseManager.not_null v = Ok v' -> v' = v.
Proof. destruct v; cbn; congruence. Qed.

Lemma as_integer_key_Ok (v : pyval) (k : Z) :
  DatabaseManager.as_integer_key v = Ok k -> k = Reference.id_key v.
Proof.
  destruct v as [| | | |s| |]; try (cbn; congruence).
  unfold DatabaseManager.as_integer_key, Reference.id_key.
  destruct (DatabaseManager.int_of_text s) as [z|]; [|congruence].
  destruct (DatabaseManager.int64 z); simpl; congruence.
Qed.

End ResultFacts.

(** Splits a hypothesis [(x ← m; k) = Ok b] into its steps. *)
Ltac inv_bind H :=
  repeat match type of H with
         | mbind _ _ = Py.Ok _ =>
             let a := fresh "a" in
             let Ha := fresh "Hstep" in
             apply bind_Ok in H as (a & Ha & H)
         end.

Section StoreFacts.
Import Py DatabaseManager Reference.

Ltac run_step :=
  match goal with
  | |- context [mbind _ ?m] => destruct m; cbn; try reflexivity
  end.

(** What the statement of [replace_project] leaves, when it returns. *)
Lemma replace_project_Ok (d d' : db) (p : dict) :
  replace_project d p = Ok d' ->
  sql_param (record_id p) = Ok (record_id p)
  /\ as_integer_key (record_id p) = Ok (record_key p)
  /\ d' = {| projects :=
               filter (fun r => p_id r ≠ record_key p) (projects d)
               ++ [row_of p];
             buyers := buyers d;
             project_buyers := project_buyers d |}.
Proof.
  unfold replace_project. intros H. inv_bind H.
  repeat match goal with
         | Hs : sql_param _ = Ok _ |- _ =>
             pose proof (sql_param_Ok _ _ Hs); subst; revert Hs
         end.
  intros Hid _ _ _ _ _ _ _ _ _ _ _ _ _ _.
  match goal with Hn : not_null _ = Ok _ |- _ =>
    apply not_null_Ok in Hn; subst end.
  match goal with Hk : as_integer_key _ = Ok _ |- _ =>
    pose proof (as_integer_key_Ok _ _ Hk); subst end.
  injection H as <-. done.
Qed.

Lemma replace_project_defined (d d' : db) (p : dict) :
  is_ok (replace_project d p) = is_ok (replace_project d' p).
Proof. unfold replace_project. repeat run_step. Qed.

Lemma insert_buyer_defined (d d' : db) (buyer : pyval) :
  is_ok (insert_buyer d buyer) = is_ok (insert_buyer d' buyer).
Proof. unfold insert_buyer. repeat run_step. Qed.

Lemma link_buyer_defined (d d' : db) (pid uid : pyval) :
  is_ok (link_buyer d pid uid) = is_ok (link_buyer d' pid uid).
Proof. unfold link_buyer. repeat run_step. Qed.

Lemma insert_buyer_projects (d d' : db) (buyer : pyval) :
  insert_buyer d buyer = Ok d' -> projects d' = projects d.
Proof.
  unfold insert_buyer. intros H. inv_bind H. by injection H as <-.
Qed.

Lemma link_buyer_projects (d d' : db) (pid uid : pyval) :
  link_buyer d pid uid = Ok d' -> projects d' = projects d.
Proof.
  unfold link_buyer. intros H. inv_bind H. injection H as <-.
  by case_bool_decide.
Qed.

(** [insert_project] touches the table of projects through its first
    statement only. *)
Lemma insert_project_Ok (d d' : db) (p : dict) :
  insert_project d p = Ok d' ->
  sql_param (record_id p) = Ok (record_id p)
  /\ as_integer_key (record_id p) = Ok (record_key p)
  /\ projects d' =
       filter (fun r => p_id r ≠ record_key p) (projects d) ++ [row_of p].
Proof.
  unfold insert_project. intros H. inv_bind H.
  match goal with Hr : replace_project _ _ = Ok _ |- _ =>
    apply replace_project_Ok in Hr as (Hid & Hkey & ->) end.
  split; [done|]. split; [done|].
  destruct (assoc (lit "buyer") p) as [buyer|]; [|by injection H as <-].
  destruct (truthy buyer); [|by injection H as <-].
  inv_bind H.
  match goal with Hbuyer : insert_buyer _ _ = Ok _ |- _ =>
    apply insert_buyer_projects in Hbuyer; rename Hbuyer into Hb end.
  destruct (truthy _).
  - apply link_buyer_projects in H. by rewrite H, Hb.
  - injection H as <-. by rewrite Hb.
Qed.

(** Whether [insert_project] returns depends on the record alone. *)
Lemma insert_project_defined (d d' : db) (p : dict) :
  is_ok (insert_project d p) = is_ok (insert_project d' p).
Proof.
  unfold insert_project.
  pose proof (replace_project_defined d d' p) as Hrep.
  destruct (replace_project d p) as [d1|], (replace_project d' p) as [d1'|];
    try done.
  cbn. destruct (assoc (lit "buyer") p) as [buyer|]; [|done].
  destruct (truthy buyer); [|done].
  pose proof (insert_buyer_defined d1 d1' buyer) as Hbuy.
  destruct (insert_buyer d1 buyer) as [d2|], (insert_buyer d1' buyer)
    as [d2'|]; try done.
  cbn. destruct (get buyer (lit "user_id") (PStr [])) as [uid|]; [|done].
  cbn. destruct (truthy uid); [|done]. apply link_buyer_defined.
Qed.

Lemma storable_insert (d : db) (p : dict) :
  storable p = true -> exists d', insert_project d p = Ok d'.
Proof.
  unfold storable. rewrite (insert_project_defined empty_db d).
  destruct (insert_project d p) as [d'|]; [by exists d' | done].
Qed.

Lemma existsb_store_ids (d : db) (k : Z) :
  existsb (fun r => p_id r =? k) (projects d)
  = bool_decide (k ∈ store_ids d).
Proof.
  unfold store_ids. induction (projects d) as [|r rows IH]; [done|].
  cbn [existsb map list_to_set]. rewrite IH.
  destruct (Z.eqb_spec (p_id r) k) as [-> | Hne]; simpl.
  - symmetry. apply bool_decide_eq_true. set_solver.
  - apply bool_decide_ext. set_solver.
Qed.

(** The existence check on a storable record is the membership of its key
    in the identifiers of the store. *)
Lemma project_exists_storable (d : db) (p : dict) :
  storable p = true ->
  project_exists d (record_id p)
  = Ok (bool_decide (record_key p ∈ store_ids d)).
Proof.
  intros Hs. destruct (storable_insert d p Hs) as (d' & Hins).
  apply insert_project_Ok in Hins as (Hid & Hkey & _).
  unfold project_exists. rewrite Hid. cbn. rewrite Hkey. cbn.
  by rewrite existsb_store_ids.
Qed.

Lemma key_of_bound (v a : pyval) (k : Z) :
  sql_param v = Ok a -> as_integer_key a = Ok k -> k = id_key v.
Proof.
  intros Ha Hk. apply sql_param_Ok in Ha as ->.
  by apply as_integer_key_Ok.
Qed.

(** The existence check, when it returns, is the membership of the key in
    the identifiers of the store. *)
Lemma project_exists_Ok (d : db) (v : pyval) (b : bool) :
  project_exists d v = Ok b -> b = bool_decide (id_key v ∈ store_ids d).
Proof.
  unfold project_exists. intros H. inv_bind H.
  match goal with
  | H1 : sql_param _ = Ok _, H2 : as_integer_key _ = Ok _ |- _ =>
      pose proof (key_of_bound _ _ _ H1 H2) as ->
  end.
  injection H as <-. apply existsb_store_ids.
Qed.

(** The name of a record that can be shown is sliced without error,
    whatever text stands in for a missing name. *)
Lemma named_slice (p : dict) (dflt : str) :
  named p = true ->
  exists v : pyval, slice_to (dget p (lit "name") (PStr dflt)) 50 = Ok v.
Proof.
  unfold named, dget. destruct (assoc (lit "name") p) as [v|]; simpl.
  - destruct (slice_to v 50) as [v'|]; [by exists v' | done].
  - intros _. by eexists.
Qed.

Lemma store_ids_insert (d d' : db) (p : dict) :
  insert_project d p = Ok d' ->
  store_ids d' = store_ids d ∪ {[record_key p]}.
Proof.
  intros H. apply insert_project_Ok in H as (_ & _ & Hrows).
  unfold store_ids. rewrite Hrows.
  rewrite map_app, list_to_set_app_L. simpl.
  apply set_eq. intros k.
  rewrite !elem_of_union, !elem_of_list_to_set, !list_elem_of_fmap.
  setoid_rewrite list_elem_of_filter.
  destruct (decide (k = record_key p)) as [-> | Hne]; [set_solver|].
  split.
  - intros [(r & -> & _ & Hin) | Hk]; [left; by exists r | set_solver].
  - intros [(r & -> & Hin) | Hk]; [left; by exists r | set_solver].
Qed.

End StoreFacts.

Section StoreTheorems.
Import Py DatabaseManager Reference.

Lemma record_key_int (p : dict) (X : Z) :
  record_id p = PInt X -> record_key p = X.
Proof. unfold record_key. by intros ->. Qed.

(** C8. Inserting a record with identifier [X] and then another payload
    with the same identifier leaves exactly one row for [X], and that row
    holds the fields of the second payload. *)
Theorem upsert_overwrites (d : db) (X : Z) (p1 p2 : dict) :
  record_id p1 = PInt X -> record_id p2 = PInt X ->
  storable p1 = true -> storable p2 = true ->
  exists d1 d2 : db,
    insert_project d p1 = Ok d1
    /\ insert_project d1 p2 = Ok d2
    /\ filter (fun r => p_id r = X) (projects d2) = [row_of p2]
    /\ p_id (row_of p2) = X.
Proof.
  intros Hid1 Hid2 Hs1 Hs2.
  destruct (storable_insert d p1 Hs1) as (d1 & Hins1).
  destruct (storable_insert d1 p2 Hs2) as (d2 & Hins2).
  exists d1, d2. split; [done|]. split; [done|].
  apply insert_project_Ok in Hins2 as (_ & _ & ->).
  rewrite (record_key_int p2 X Hid2).
  split; [|by apply record_key_int].
  rewrite filter_app.
  assert (Hnone : filter (fun r => p_id r = X)
                    (filter (fun r => p_id r ≠ X) (projects d1)) = []).
  { induction (projects d1) as [|r rows IH]; [done|].
    rewrite (filter_cons (fun r => p_id r ≠ X)).
    destruct (decide (p_id r ≠ X)); [|exact IH].
    rewrite filter_cons. by destruct (decide (p_id r = X)). }
  rewrite Hnone. simpl.
  rewrite filter_cons, filter_nil.
  destruct (decide (p_id (row_of p2) = X)) as [|Hne]; [done|].
  destruct Hne. by apply record_key_int.
Qed.

Lemma insert_loop_refines (ps : list dict) :
  forall (d : db) (c : counts),
    forallb named ps = true ->
    insert_loop d c ps
    = exists_then_upsert d c (filter (fun p => has_id p = true) ps).
Proof.
  induction ps as [|p ps IH]; intros d c Hall; [done|].
  apply andb_prop in Hall as [Hp Hps].
  rewrite filter_cons. cbn [insert_loop].
  fold (record_id p). fold (has_id p).
  destruct (decide (has_id p = true)) as [Hid | Hid].
  - rewrite Hid. cbn [negb exists_then_upsert].
    destruct (project_exists d (record_id p)) as [[|]|e];
      cbn [mbind result_bind bind]; [by apply IH| |done].
    destruct (insert_project d p) as [d'|e];
      cbn [mbind result_bind bind]; [|done].
    destruct (named_slice p ru_no_name Hp) as [v ->].
    cbn [mbind result_bind bind]. by apply IH.
  - apply not_true_is_false in Hid. rewrite Hid. cbn [negb]. by apply IH.
Qed.

Lemma insert_loop_returns (ps : list dict) :
  forall (d : db) (c : counts) (r : db * counts),
    insert_loop d c ps = Ok r ->
    exists_then_upsert d c (filter (fun p => has_id p = true) ps) = Ok r.
Proof.
  induction ps as [|p ps IH]; intros d c r H; [done|].
  rewrite filter_cons. cbn [insert_loop] in H.
  fold (record_id p) in H. fold (has_id p) in H.
  destruct (decide (has_id p = true)) as [Hid | Hid].
  - rewrite Hid in H. cbn [negb] in H. cbn [exists_then_upsert].
    destruct (project_exists d (record_id p)) as [[|]|e];
      cbn [mbind result_bind bind] in *; [by apply IH| |done].
    destruct (insert_project d p) as [d'|e];
      cbn [mbind result_bind bind] in *; [|done].
    apply bind_Ok in H as (v & _ & H). by apply IH.
  - apply not_true_is_false in Hid. rewrite Hid in H. cbn [negb] in H.
    by apply IH.
Qed.

(** C7, as the code has it.  On records whose name can be shown in the
    progress line, the bulk insert is the reference program (existence
    check, then upsert only if absent, record by record) run on the
    records that have a non-empty identifier: same final store, same
    counts, same failure if any.  A record without identifier is passed
    over before the store is consulted.  On any records, whenever the bulk
    insert returns, the reference program run on the records that have a
    non-empty identifier returns the same store and counts. *)
Theorem insert_projects_refines (d : db) (records : list dict) :
  (forallb named records = true ->
   insert_projects d records =
   bulk_insert_reference d (filter (fun p => has_id p = true) records))
  /\ (forall r : db * counts,
        insert_projects d records = Ok r ->
        bulk_insert_reference d (filter (fun p => has_id p = true) records)
        = Ok r).
Proof.
  unfold insert_projects, bulk_insert_reference. split.
  - apply insert_loop_refines.
  - apply insert_loop_returns.
Qed.

(** The counts and the identifiers that a bulk insert leaves, when it
    returns. *)
Lemma insert_loop_Ok (ps : list dict) :
  forall (d d' : db) (c c' : counts),
    insert_loop d c ps = Ok (d', c') ->
    (inserted c' + skipped c'
     = inserted c + skipped c
       + length (filter (fun p => has_id p = true) ps))%nat
    /\ (inserted c'
        = inserted c
          + size (list_to_set (batch_keys ps) ∖ store_ids d))%nat
    /\ store_ids d' = store_ids d ∪ list_to_set (batch_keys ps).
Proof.
  induction ps as [|p ps IH]; intros d d' c c' H.
  { injection H as <- <-. unfold batch_keys. simpl.
    rewrite difference_disjoint_L, size_empty by set_solver.
    split; [lia|]. split; [lia|]. set_solver. }
  unfold batch_keys. rewrite filter_cons. cbn [insert_loop] in H.
  fold (record_id p) in H. fold (has_id p) in H.
  destruct (decide (has_id p = true)) as [Hid | Hid].
  - rewrite Hid in H. cbn [negb] in H.
    apply bind_Ok in H as (found & Hfound & H).
    apply project_exists_Ok in Hfound as ->. fold (record_key p) in H.
    cbn [map list_to_set length]. fold (batch_keys ps).
    case_bool_decide as Hin.
    + apply IH in H as (Hsum & Hins & Hids). simpl in Hsum, Hins.
      split; [lia|]. split; [|clear -Hids Hin; set_solver].
      rewrite Hins. do 2 f_equal. clear -Hin. set_solver.
    + apply bind_Ok in H as (d1 & Hd1 & H).
      apply bind_Ok in H as (v & _ & H).
      pose proof (store_ids_insert d d1 p Hd1) as Hids1.
      apply IH in H as (Hsum & Hins & Hids). simpl in Hsum, Hins.
      split; [lia|]. split; [|clear -Hids Hids1; set_solver].
      rewrite Hins, Hids1.
      replace (({[record_key p]} ∪ list_to_set (batch_keys ps))
               ∖ store_ids d)
        with ({[record_key p]}
              ∪ (list_to_set (batch_keys ps)
                 ∖ (store_ids d ∪ {[record_key p]}))).
      * assert (Hdisj : ({[record_key p]} : gset Z)
                        ## list_to_set (batch_keys ps)
                           ∖ (store_ids d ∪ {[record_key p]}))
          by (clear; set_solver).
        rewrite (size_union _ _ Hdisj), size_singleton. lia.
      * clear -Hin. apply set_eq. intros k.
        destruct (decide (k = record_key p)); set_solver.
  - apply not_true_is_false in Hid. rewrite Hid in H. cbn [negb] in H.
    fold (batch_keys ps). by apply (IH d d' c c').
Qed.

(** On candidates the bulk insert returns. *)
Lemma insert_loop_candidate (ps : list dict) :
  forall (d : db) (c : counts),
    forallb candidate ps = true ->
    exists (d' : db) (c' : counts), insert_loop d c ps = Ok (d', c').
Proof.
  induction ps as [|p ps IH]; intros d c Hall; [by exists d, c|].
  apply andb_prop in Hall as [Hp Hps].
  cbn [insert_loop]. fold (record_id p). fold (has_id p).
  destruct (has_id p) eqn:Hid; cbn [negb]; [|by apply IH].
  unfold candidate in Hp. rewrite Hid in Hp. simpl in Hp.
  apply andb_prop in Hp as [Hs Hn].
  rewrite (project_exists_storable d p Hs). cbn [mbind result_bind bind].
  case_bool_decide as Hin; [by apply IH|].
  destruct (storable_insert d p Hs) as (d1 & ->).
  cbn [mbind result_bind bind].
  destruct (named_slice p ru_no_name Hn) as [v ->].
  cbn [mbind result_bind bind]. by apply IH.
Qed.

End StoreTheorems.

Section BulkInsertTheorem.
Import Py DatabaseManager Reference.

(** C2. On every list of candidate records the bulk insert returns, and
    whenever it returns its two counts add up to the number of records
    that have a non-empty identifier; the records counted as inserted are
    those whose identifier the store did not hold (each new identifier
    once), and the store ends up holding the identifiers of the batch.  In
    the scenario of the design, where the store holds [2] and the page
    yields [1, 2, 3], the existing identifiers are [{2}], the counts are
    2 inserted and 1 skipped, and the store then holds [{1, 2, 3}]. *)
Theorem insert_projects_partition :
  (forall (d : db) (ps : list dict),
     forallb candidate ps = true ->
     exists (d' : db) (c : counts),
       insert_projects d ps = Ok (d', c)
       /\ (inserted c + skipped c
           = length (filter (fun p => has_id p = true) ps))%nat
       /\ inserted c = size (list_to_set (batch_keys ps) ∖ store_ids d)
       /\ store_ids d' = store_ids d ∪ list_to_set (batch_keys ps))
  /\ (exists d0 : db,
        insert_project empty_db (sample_record 2) = Ok d0
        /\ store_ids d0 = {[2]}
        /\ get_existing_project_ids d0 [PInt 1; PInt 2; PInt 3] = Ok {[2]}
        /\ exists d' : db,
             insert_projects d0
               [sample_record 1; sample_record 2; sample_record 3]
             = Ok (d', {| inserted := 2; skipped := 1 |})
             /\ store_ids d' = {[1; 2; 3]})
  /\ (forall (d d' : db) (c : counts) (ps : list dict),
        insert_projects d ps = Ok (d', c) ->
        (inserted c + skipped c
         = length (filter (fun p => has_id p = true) ps))%nat
        /\ inserted c = size (list_to_set (batch_keys ps) ∖ store_ids d)
        /\ store_ids d' = store_ids d ∪ list_to_set (batch_keys ps)).
Proof.
  split; [|split].
  - intros d ps Hall.
    destruct (insert_loop_candidate ps d {| inserted := 0; skipped := 0 |}
                Hall) as (d' & c & Hrun).
    exists d', c. split; [exact Hrun|].
    apply insert_loop_Ok in Hrun as (Hsum & Hins & Hids).
    simpl in Hsum, Hins. by repeat split.
  - eexists. split; [vm_compute; reflexivity|].
    split; [vm_compute; reflexivity|].
    split; [vm_compute; reflexivity|].
    eexists. split; vm_compute; reflexivity.
  - intros d d' c ps Hrun.
    apply insert_loop_Ok in Hrun as (Hsum & Hins & Hids).
    simpl in Hsum, Hins. by repeat split.
Qed.

End BulkInsertTheorem.

(* ===================================================================== *)
(** * Properties of the page pass *)
(* ===================================================================== *)

Section PassFacts.
Import Py DatabaseManager KworkParser Reference.

Lemma identified_parts (p : dict) :
  identified p = true ->
  has_id p = true /\ integer_id p = true /\ storable p = true
  /\ named p = true.
Proof.
  unfold identified. intros H.
  apply andb_prop in H as [H Hn]. apply andb_prop in H as [H Hs].
  by apply andb_prop in H as [Hid Hint].
Qed.

Lemma mapM_Ok {A B} (f : A -> result B) (l : list A) (l' : list B) :
  mapM f l = Ok l' -> Forall2 (fun x y => f x = Ok y) l l'.
Proof.
  revert l'. induction l as [|x l IH]; intros l' H.
  - injection H as <-. constructor.
  - cbn [mapM] in H. apply bind_Ok in H as (y & Hy & H).
    apply bind_Ok in H as (k & Hk & H). injection H as <-.
    constructor; [done | by apply IH].
Qed.

(** What [get_existing_project_ids] has done when it returns. *)
Lemma existing_ids_Ok (d : db) (ids : list pyval) (found : gset Z) :
  get_existing_project_ids d ids = Ok found ->
  (forall v, v ∈ ids ->
     sql_param v = Ok v /\ as_integer_key v = Ok (id_key v))
  /\ (forall k, k ∈ found <-> k ∈ store_ids d /\ k ∈ map id_key ids).
Proof.
  unfold get_existing_project_ids. intros H.
  case_bool_decide as Hnil.
  { injection H as <-. subst ids. split.
    - intros v Hv. by inversion Hv.
    - intros k. split; [intros Hk; by apply not_elem_of_empty in Hk|].
      intros [_ Hk]. by inversion Hk. }
  apply bind_Ok in H as (bound & Hbound & H).
  apply bind_Ok in H as (keys & Hkeys & H). injection H as <-.
  apply mapM_Ok in Hbound. apply mapM_Ok in Hkeys.
  assert (Hsome : forall {A B} (f : A -> result B) (l : list A) (l' : list B),
            Forall2 (fun x y => f x = Ok y) l l' ->
            forall x, x ∈ l -> exists y, f x = Ok y).
  { intros A B f l l' HF. induction HF as [|x y l l' Hxy _ IH]; intros z Hz.
    - by inversion Hz.
    - apply elem_of_cons in Hz as [-> | Hz]; [by exists y | by apply IH]. }
  assert (Hbound' : bound = ids).
  { clear -Hbound. induction Hbound as [|v a ids bound Ha _ IH]; [done|].
    apply sql_param_Ok in Ha. by rewrite Ha, IH. }
  subst bound.
  assert (Hk : keys = map id_key ids).
  { clear -Hkeys. induction Hkeys as [|v k ids keys Hv _ IH]; [done|].
    apply as_integer_key_Ok in Hv. cbn [map]. by rewrite Hv, IH. }
  subst keys. split.
  - intros v Hv. split.
    + destruct (Hsome _ _ _ _ _ Hbound v Hv) as (a & Ha).
      pose proof (sql_param_Ok _ _ Ha). by subst.
    + destruct (Hsome _ _ _ _ _ Hkeys v Hv) as (k & Hvk).
      pose proof (as_integer_key_Ok _ _ Hvk). by subst.
  - intros k. unfold store_ids.
    rewrite !elem_of_list_to_set, list_elem_of_filter. tauto.
Qed.

Lemma storable_id (p : dict) :
  storable p = true ->
  sql_param (record_id p) = Ok (record_id p)
  /\ as_integer_key (record_id p) = Ok (record_key p).
Proof.
  intros Hs. destruct (storable_insert empty_db p Hs) as (d' & Hins).
  apply insert_project_Ok in Hins as (Hid & Hkey & _). done.
Qed.

(** The two [mapM] of [get_existing_project_ids] on the identifiers of
    identified records. *)
Lemma bind_ids (ps : list dict) :
  forallb identified ps = true ->
  mapM sql_param (map record_id ps) = Ok (map record_id ps)
  /\ mapM as_integer_key (map record_id ps) = Ok (map record_key ps).
Proof.
  induction ps as [|p ps IH]; intros Hall; [done|].
  apply andb_prop in Hall as [Hp Hps].
  apply identified_parts in Hp as (_ & _ & Hs & _).
  destruct (storable_id p Hs) as [Hid Hkey].
  destruct (IH Hps) as [IH1 IH2].
  cbn [map mapM]. by rewrite Hid, Hkey, IH1, IH2.
Qed.

Lemma identified_ids (ps : list dict) :
  forallb identified ps = true ->
  filter (fun v => truthy v = true) (map (fun p => dget p (lit "id") PNone) ps)
  = map record_id ps.
Proof.
  induction ps as [|p ps IH]; intros Hall; [done|].
  apply andb_prop in Hall as [Hp Hps].
  apply identified_parts in Hp as (Hid & _).
  cbn [map]. rewrite filter_cons. fold (record_id p).
  unfold has_id in Hid. rewrite decide_True by done.
  by rewrite IH.
Qed.

Lemma existing_ids_identified (d : db) (ps : list dict) :
  forallb identified ps = true ->
  get_existing_project_ids d (map record_id ps)
  = Ok (store_ids d ∩ list_to_set (map record_key ps)).
Proof.
  intros Hall. unfold get_existing_project_ids.
  destruct ps as [|p ps].
  { simpl. f_equal. set_solver. }
  rewrite bool_decide_eq_false_2 by done.
  destruct (bind_ids (p :: ps) Hall) as [Hbound Hkeys].
  rewrite Hbound. cbn [mbind result_bind bind].
  rewrite Hkeys. cbn [mbind result_bind bind].
  f_equal. unfold store_ids. apply set_eq. intros k.
  rewrite elem_of_intersection, !elem_of_list_to_set, list_elem_of_filter.
  tauto.
Qed.

(** For an integer identifier, membership in the set of existing
    identifiers is membership of its key. *)
Lemma in_ids_integer (p : dict) (S : gset Z) :
  integer_id p = true ->
  in_ids (record_id p) S = Ok (bool_decide (record_key p ∈ S)).
Proof.
  unfold integer_id, record_key. by destruct (record_id p).
Qed.

(** The partition of a page of identified records. *)
Lemma partition_identified (S : gset Z) (ps : list dict) :
  forallb identified ps = true ->
  partition_projects S ps
  = Ok (filter (fun p => record_key p ∉ S) ps,
        length (filter (fun p => record_key p ∉ S) ps),
        length (filter (fun p => record_key p ∈ S) ps)).
Proof.
  induction ps as [|p ps IH]; intros Hall; [done|].
  apply andb_prop in Hall as [Hp Hps].
  apply identified_parts in Hp as (Hid & Hint & _ & Hn).
  cbn [partition_projects]. fold (record_id p).
  unfold has_id in Hid. rewrite Hid. cbn [negb].
  rewrite (in_ids_integer p S Hint), (IH Hps).
  cbn [mbind result_bind bind]. rewrite !filter_cons.
  destruct (named_slice p [] Hn) as [v Hv].
  case_bool_decide as Hin; [|rewrite Hv]; cbn [mbind result_bind bind];
    repeat case_decide; tauto || done.
Qed.

Lemma insert_all_storable (ps : list dict) :
  forall d : db,
    forallb identified ps = true ->
    exists d' : db,
      insert_all d ps = Ok d'
      /\ store_ids d' = store_ids d ∪ list_to_set (map record_key ps).
Proof.
  induction ps as [|p ps IH]; intros d Hall.
  { exists d. split; [done|]. clear. set_solver. }
  apply andb_prop in Hall as [Hp Hps].
  apply identified_parts in Hp as (_ & _ & Hs & _).
  destruct (storable_insert d p Hs) as (d1 & Hd1).
  pose proof (store_ids_insert d d1 p Hd1) as Hids1.
  destruct (IH d1 Hps) as (d' & Hrun & Hids).
  exists d'. cbn [insert_all]. rewrite Hd1. cbn [mbind result_bind bind].
  split; [done|].
  rewrite Hids, Hids1. cbn [map list_to_set]. clear. set_solver.
Qed.

Lemma filter_agree {A} (P Q : A -> Prop) `{!forall x, Decision (P x)}
    `{!forall x, Decision (Q x)} (l : list A) :
  (forall x, x ∈ l -> P x <-> Q x) -> filter P l = filter Q l.
Proof.
  induction l as [|x l IH]; intros Hpq; [done|].
  rewrite !filter_cons, IH by (intros y Hy; apply Hpq; by right).
  pose proof (Hpq x ltac:(by left)).
  repeat case_decide; tauto || done.
Qed.

Lemma identified_filter (P : dict -> Prop) `{!forall p, Decision (P p)}
    (ps : list dict) :
  forallb identified ps = true -> forallb identified (filter P ps) = true.
Proof.
  induction ps as [|p ps IH]; intros Hall; [done|].
  apply andb_prop in Hall as [Hp Hps]. rewrite filter_cons.
  destruct (decide (P p)); [|by apply IH].
  simpl. by rewrite Hp, IH.
Qed.

(** One pass over a page of identified records returns, and the store it
    leaves holds every identifier of the page. *)
Lemma save_page_identified (d : db) (t : totals) (ps : list dict) :
  forallb identified ps = true ->
  exists (d' : db),
    save_page d t ps
    = Ok (d',
          {| all_new_projects :=
               all_new_projects t
               ++ filter (fun p => record_key p ∉ store_ids d) ps;
             total_inserted :=
               (total_inserted t
                + length (filter (fun p => record_key p ∉ store_ids d) ps))%nat;
             total_skipped :=
               (total_skipped t
                + length (filter (fun p => record_key p ∈ store_ids d) ps))%nat
          |})
    /\ insert_all d (filter (fun p => record_key p ∉ store_ids d) ps) = Ok d'
    /\ store_ids d' = store_ids d ∪ list_to_set (map record_key ps).
Proof.
  intros Hall. unfold save_page.
  destruct (decide (ps = [])) as [-> | Hne].
  { exists d. simpl. rewrite app_nil_r, !Nat.add_0_r.
    split; [by destruct t|]. split; [done|]. clear. set_solver. }
  rewrite bool_decide_eq_false_2 by done.
  rewrite (identified_ids ps Hall), (existing_ids_identified d ps Hall).
  cbn [mbind result_bind bind].
  rewrite (partition_identified _ ps Hall). cbn [mbind result_bind bind].
  set (S := store_ids d ∩ list_to_set (map record_key ps)).
  assert (Hnew : forall p, p ∈ ps -> record_key p ∉ S <-> record_key p ∉ store_ids d).
  { intros p Hp. subst S. rewrite elem_of_intersection, elem_of_list_to_set.
    assert (record_key p ∈ map record_key ps)
      by (apply list_elem_of_fmap; eauto).
    tauto. }
  assert (Hfn : filter (fun p => record_key p ∉ S) ps
                = filter (fun p => record_key p ∉ store_ids d) ps).
  { by apply filter_agree. }
  assert (Hfk : filter (fun p => record_key p ∈ S) ps
                = filter (fun p => record_key p ∈ store_ids d) ps).
  { apply filter_agree. intros p Hp. apply Hnew in Hp.
    destruct (decide (record_key p ∈ S));
      destruct (decide (record_key p ∈ store_ids d)); tauto. }
  rewrite Hfn, Hfk.
  destruct (insert_all_storable
              (filter (fun p => record_key p ∉ store_ids d) ps) d)
    as (d' & Hrun & Hids); [by apply identified_filter|].
  exists d'. rewrite Hrun. cbn [mbind result_bind bind]. split; [done|].
  split; [done|]. rewrite Hids. apply set_eq. intros k.
  rewrite !elem_of_union, !elem_of_list_to_set, !list_elem_of_fmap.
  setoid_rewrite list_elem_of_filter.
  split; [naive_solver|].
  intros [Hk | (p & -> & Hp)]; [by left|].
  destruct (decide (record_key p ∈ store_ids d)); [by left|].
  right. by exists p.
Qed.

(** A pass over a page whose identifiers the store all holds skips every
    record and leaves the store as it is. *)
Lemma save_page_known (d : db) (t : totals) (ps : list dict) :
  forallb identified ps = true ->
  (forall p, p ∈ ps -> record_key p ∈ store_ids d) ->
  save_page d t ps
  = Ok (d, {| all_new_projects := all_new_projects t;
              total_inserted := total_inserted t;
              total_skipped := (total_skipped t + length ps)%nat |}).
Proof.
  intros Hall Hknown.
  destruct (save_page_identified d t ps Hall) as (d' & Hrun & Hins & _).
  assert (Hnone : filter (fun p => record_key p ∉ store_ids d) ps = []).
  { clear -Hknown. induction ps as [|p ps IH]; [done|].
    rewrite filter_cons, IH by (intros q Hq; apply Hknown; by right).
    rewrite decide_False; [done|].
    intros Hn. apply Hn, Hknown. by left. }
  assert (Hall' : filter (fun p => record_key p ∈ store_ids d) ps = ps).
  { clear -Hknown. induction ps as [|p ps IH]; [done|].
    rewrite filter_cons, IH by (intros q Hq; apply Hknown; by right).
    rewrite decide_True; [done|]. apply Hknown. by left. }
  rewrite Hnone in Hins. injection Hins as <-.
  rewrite Hrun, Hnone, Hall', app_nil_r, Nat.add_0_r. done.
Qed.









End PassFacts.

Section PassTheorem.
Import Py DatabaseManager KworkParser Reference.


End PassTheorem.

Section RunTwice.
Import Py DatabaseManager KworkParser Reference.

Variable repr : pyval -> str.
Variable json_loads : str -> result pyval.
Variable fetch : Z -> option str.

Local Abbreviation page_records := (parse_page repr json_loads fetch).
Local Abbreviation records_on := (Reference.records_on page_records).

Lemma filter_split_length {A} (P : A -> Prop) `{!forall x, Decision (P x)}
    (l : list A) :
  (length (filter (fun x => ~ P x) l) + length (filter P l))%nat = length l.
Proof.
  induction l as [|x l IH]; [done|].
  rewrite !filter_cons. repeat case_decide; simpl; tauto || lia.
Qed.

(** The first run over pages of identified records returns; it counts
    every record once and leaves a store that holds all their identifiers
    and what it held before. *)
Lemma page_loop_first (pages : list Z) :
  forall (d : db) (t : totals),
    forallb (fun page => forallb identified (page_records page)) pages
    = true ->
    exists (d1 : db) (t1 : totals),
      page_loop repr json_loads fetch d t pages = Ok (d1, t1)
      /\ store_ids d ⊆ store_ids d1
      /\ (forall page p, page ∈ pages -> p ∈ page_records page ->
                         record_key p ∈ store_ids d1)
      /\ (total_inserted t1 + total_skipped t1
          = total_inserted t + total_skipped t + records_on pages)%nat.
Proof.
  induction pages as [|page pages IH]; intros d t Hall.
  { exists d, t. split; [done|]. split; [done|]. split.
    - intros page p Hin. by inversion Hin.
    - unfold Reference.records_on. simpl. lia. }
  apply andb_prop in Hall as [Hpage Hpages].
  destruct (save_page_identified d t _ Hpage) as (d0 & Hsave & _ & Hids0).
  match type of Hsave with _ = Ok (_, ?t') => set (t0 := t') in * end.
  destruct (IH d0 t0 Hpages) as (d1 & t1 & Hloop & Hsub & Hkeys & Hsum).
  exists d1, t1. cbn [page_loop]. rewrite Hsave.
  cbn [mbind result_bind bind]. split; [exact Hloop|].
  split; [clear -Hsub Hids0; set_solver|]. split.
  - intros page' p Hin Hp. apply elem_of_cons in Hin as [-> | Hin].
    + apply Hsub. rewrite Hids0, elem_of_union, elem_of_list_to_set. right.
      apply list_elem_of_fmap. by exists p.
    + by apply (Hkeys page').
  - rewrite Hsum. subst t0. cbn [total_inserted total_skipped].
    unfold Reference.records_on. cbn [map concat]. rewrite length_app.
    pose proof (filter_split_length
                  (fun p => record_key p ∈ store_ids d) (page_records page))
      as Hsplit.
    cbv beta in Hsplit. lia.
Qed.

(** A run over pages whose identifiers the store all holds skips every
    record and leaves the store as it is. *)
Lemma page_loop_known (pages : list Z) :
  forall (d : db) (t : totals),
    forallb (fun page => forallb identified (page_records page)) pages
    = true ->
    (forall page p, page ∈ pages -> p ∈ page_records page ->
                    record_key p ∈ store_ids d) ->
    page_loop repr json_loads fetch d t pages
    = Ok (d, {| all_new_projects := all_new_projects t;
                total_inserted := total_inserted t;
                total_skipped := (total_skipped t + records_on pages)%nat |}).
Proof.
  induction pages as [|page pages IH]; intros d t Hall Hknown.
  { unfold Reference.records_on. simpl. rewrite Nat.add_0_r.
    by destruct t. }
  apply andb_prop in Hall as [Hpage Hpages].
  cbn [page_loop]. rewrite save_page_known; [|done|].
  2:{ intros p Hp. apply (Hknown page); [by left | done]. }
  cbn [mbind result_bind bind]. rewrite IH; [|done|].
  2:{ intros page' p Hin Hp. apply (Hknown page'); [by right | done]. }
  cbn [all_new_projects total_inserted total_skipped].
  unfold Reference.records_on. cbn [map concat]. rewrite length_app.
  do 3 f_equal. lia.
Qed.

(** A whole run of [parse_and_save] repeated on the store it left, the
    pages being the same and every extracted record having a non-empty
    integer identifier that the engine accepts and a name that can be
    shown: the first run returns, and the second run finds no new project,
    skips as many records as the first run parsed, and reports the same
    numbers of stored projects and buyers. *)
Lemma parse_and_save_twice (d : db) (start_page end_page : Z) :
  forallb (fun page => forallb identified (page_records page))
          (page_range start_page end_page) = true ->
  exists (d1 : db) (st1 : stats),
    parse_and_save repr json_loads fetch d start_page end_page
    = Ok (d1, st1)
    /\ parse_and_save repr json_loads fetch d1 start_page end_page
       = Ok (d1, {| total_parsed := total_parsed st1;
                    new_projects := 0;
                    skipped_existing := total_parsed st1;
                    db_total_projects := db_total_projects st1;
                    db_total_buyers := db_total_buyers st1 |}).
Proof.
  intros Hall. unfold parse_and_save.
  destruct (page_loop_first _ d no_totals Hall)
    as (d1 & t1 & Hloop & _ & Hkeys & Hsum).
  unfold no_totals in Hloop, Hsum. rewrite Hloop. cbn [mbind result_bind bind].
  eexists d1, _. split; [reflexivity|].
  rewrite (page_loop_known _ d1 _ Hall Hkeys).
  cbn [mbind result_bind bind total_inserted total_skipped total_parsed
       db_total_projects db_total_buyers].
  simpl in Hsum. rewrite Hsum. done.
Qed.

End RunTwice.

(* ===================================================================== *)
(** * Properties of the extractor *)
(* ===================================================================== *)

Section ExtractorTheorems.
Import Py KworkParser Reference.

Variable repr : pyval -> str.
Variable json_loads : str -> result pyval.

(** Reading the fifteen fields back from the dictionary that
    [_parse_project_data] builds, whatever is added after them. *)
Lemma project_literal_fields
    (id name url description price_limit possible_price_limit category_id
     status time_left offers_count date_create date_active date_expire
     kwork_count is_higher_price : pyval) (extra : dict) :
  let project :=
    [ (lit "id", id); (lit "name", name); (lit "url", url);
      (lit "description", description); (lit "price_limit", price_limit);
      (lit "possible_price_limit", possible_price_limit);
      (lit "category_id", category_id); (lit "status", status);
      (lit "time_left", time_left); (lit "offers_count", offers_count);
      (lit "date_create", date_create); (lit "date_active", date_active);
      (lit "date_expire", date_expire); (lit "kwork_count", kwork_count);
      (lit "is_higher_price", is_higher_price) ] ++ extra in
  assoc (lit "id") project = Some id
  /\ assoc (lit "url") project = Some url
  /\ Forall (fun '(field, v) => assoc field project = Some v)
       [ (lit "name", name); (lit "description", description);
         (lit "price_limit", price_limit);
         (lit "possible_price_limit", possible_price_limit);
         (lit "category_id", category_id); (lit "status", status);
         (lit "time_left", time_left); (lit "offers_count", offers_count);
         (lit "date_create", date_create); (lit "date_active", date_active);
         (lit "date_expire", date_expire); (lit "kwork_count", kwork_count);
         (lit "is_higher_price", is_higher_price) ].
Proof.
  cbv zeta. split; [by vm_compute|]. split; [by vm_compute|].
  repeat (constructor; [by vm_compute|]). constructor.
Qed.

(** The dictionary built from a raw entry that is a dictionary: its first
    fifteen items. *)
Lemma parse_project_body_shape (data : pyval) (project : dict) :
  parse_project_body repr data = Ok project ->
  exists (raw extra : dict),
    data = PDict raw
    /\ project =
       [ (lit "id", dget raw (lit "id") PNone);
         (lit "name", dget raw (lit "name") (PStr []));
         (lit "url",
          PStr (base_url ++ lit "/projects/"
                ++ to_str repr (dget raw (lit "id") (PStr []))));
         (lit "description", dget raw (lit "description") (PStr []));
         (lit "price_limit", dget raw (lit "priceLimit") (PStr []));
         (lit "possible_price_limit",
          dget raw (lit "possiblePriceLimit") (PStr []));
         (lit "category_id", dget raw (lit "category_id") (PStr []));
         (lit "status", dget raw (lit "status") (PStr []));
         (lit "time_left", dget raw (lit "timeLeft") (PStr []));
         (lit "offers_count", dget raw (lit "views_dirty") (PInt 0));
         (lit "date_create", dget raw (lit "date_create") (PStr []));
         (lit "date_active", dget raw (lit "date_active") (PStr []));
         (lit "date_expire", dget raw (lit "date_expire") (PStr []));
         (lit "kwork_count", dget raw (lit "kwork_count") (PInt 0));
         (lit "is_higher_price",
          dget raw (lit "isHigherPrice") (PBool false)) ] ++ extra
    /\ (assoc (lit "user") raw = None -> extra = []).
Proof.
  unfold parse_project_body.
  destruct data as [| | | | | |raw]; try (cbn; discriminate).
  cbn [get mbind result_bind bind contains]. fold (dget raw).
  intros H. exists raw.
  case_bool_decide as Huser.
  - destruct Huser as [user Huser].
    cbn [getitem] in H. rewrite Huser in H. cbn [mbind result_bind bind] in H.
    destruct user as [| | | | | |u]; try discriminate H.
    cbn [get contains mbind result_bind bind] in H.
    case_bool_decide.
    + cbn [getitem] in H. destruct (assoc (lit "data") u) as [ud|];
        [|discriminate H].
      cbn [mbind result_bind bind] in H.
      destruct ud as [| | | | | |udd]; try discriminate H.
      cbn [get mbind result_bind bind] in H. injection H as <-.
      eexists. split; [done|]. split; [reflexivity|]. congruence.
    + injection H as <-. eexists. split; [done|]. split; [reflexivity|].
      congruence.
  - injection H as <-. exists []. rewrite app_nil_r. done.
Qed.

(** C5, as the code has it.  In a record built from a raw entry, each of
    the copied fields whose key the raw entry lacks has its default (an
    empty string, zero or [False], never [None]) and otherwise the raw
    value; the [url] is always a string.  The identifier is copied without
    a default: it is [None] when the raw entry has none. *)
Theorem parse_project_defaults (data : pyval) (project : dict) :
  _parse_project_data repr data = Some project ->
  exists raw : dict,
    data = PDict raw
    /\ Forall (fun '(field, source, dflt) =>
                 assoc field project = Some (dget raw source dflt)
                 /\ dflt <> PNone
                 /\ (assoc source raw = None ->
                     assoc field project = Some dflt))
              field_defaults
    /\ assoc (lit "id") project = Some (dget raw (lit "id") PNone)
    /\ (assoc (lit "id") raw = None -> assoc (lit "id") project = Some PNone)
    /\ exists url : str, assoc (lit "url") project = Some (PStr url).
Proof.
  unfold _parse_project_data. intros H.
  destruct (parse_project_body repr data) as [project'|] eqn:Hbody;
    [|discriminate H].
  injection H as ->.
  apply parse_project_body_shape in Hbody as (raw & extra & -> & -> & _).
  exists raw. split; [done|].
  match goal with
  | |- context [?fields ++ extra] =>
      match fields with
      | [(_, ?id); (_, ?name); (_, ?url); (_, ?de); (_, ?pl); (_, ?ppl);
         (_, ?ci); (_, ?st); (_, ?tl); (_, ?oc); (_, ?dc); (_, ?da);
         (_, ?dx); (_, ?kc); (_, ?hp)] =>
          destruct (project_literal_fields id name url de pl ppl ci st tl oc
                      dc da dx kc hp extra) as (Hid & Hurl & Hfields)
      end
  end.
  split; [|split; [exact Hid|split; [|eexists; exact Hurl]]].
  - unfold field_defaults.
    repeat match goal with
           | Hf : Forall _ (_ :: _) |- _ =>
               apply Forall_cons in Hf as [? Hf]
           end.
    repeat (constructor;
            [split; [assumption|]; split; [discriminate|];
             intros Habsent; unfold dget in *; rewrite Habsent in *;
             assumption|]).
    constructor.
  - intros Habsent. rewrite Hid. unfold dget. by rewrite Habsent.
Qed.

Lemma getitem_Ok (v x : pyval) (key : str) :
  getitem v key = Ok x -> exists d, v = PDict d /\ assoc key d = Some x.
Proof.
  destruct v as [| | | | | |d]; try discriminate.
  unfold getitem. destruct (assoc key d) as [y|] eqn:Hy; [|discriminate].
  intros [= ->]. by exists d.
Qed.

(** When the [try] block returns records, the decoded block has a listing
    array under one of the two shapes. *)
Lemma extract_body_listing (group : str) (state_data : pyval)
    (projects : list dict) :
  json_loads group = Ok state_data ->
  extract_body repr json_loads group = Ok projects ->
  listing state_data = None ->
  projects = [].
Proof.
  intros Hloads Hbody Hnone. unfold extract_body in Hbody.
  rewrite Hloads in Hbody. cbn [mbind result_bind bind] in Hbody.
  apply bind_Ok in Hbody as (has_list & _ & Hbody).
  destruct has_list; cbn [negb] in Hbody; [|by injection Hbody].
  apply bind_Ok in Hbody as (wants_list & Hwl & Hbody).
  apply getitem_Ok in Hwl as (d & -> & Hwl).
  unfold listing in Hnone. cbn [descend] in Hnone. rewrite Hwl in Hnone.
  apply bind_Ok in Hbody as (has_pagination & _ & Hbody).
  apply bind_Ok in Hbody as (paginated & _ & Hbody).
  destruct paginated.
  - apply bind_Ok in Hbody as (pagination & Hpg & Hbody).
    apply getitem_Ok in Hpg as (wl & -> & Hpg). rewrite Hpg in Hnone.
    apply bind_Ok in Hbody as (projects_raw & Hraw & _).
    apply getitem_Ok in Hraw as (pg & -> & Hraw). rewrite Hraw in Hnone.
    discriminate Hnone.
  - apply bind_Ok in Hbody as (has_wants & _ & Hbody).
    destruct has_wants; [|by injection Hbody].
    apply bind_Ok in Hbody as (projects_raw & Hraw & _).
    apply getitem_Ok in Hraw as (wl & -> & Hraw). rewrite Hraw in Hnone.
    by repeat case_match.
Qed.

Lemma strip_prefix_starts_with (p text : str) :
  starts_with p text = false -> strip_prefix p text = None.
Proof.
  revert text. induction p as [|a p IH]; intros [|b text]; simpl; try done.
  destruct (a =? b)%N; simpl; [apply IH | done].
Qed.

(** A page that does not contain the text [window.stateData] has no match
    of the pattern. *)
Lemma re_search_without_anchor (html : str) :
  str_contains (lit "window.stateData") html = false ->
  re_search html = None.
Proof.
  induction html as [|c html IH]; intros Hnone.
  - cbn [str_contains] in Hnone. apply orb_false_elim in Hnone as [Hhere _].
    cbn [re_search]. unfold match_here.
    by rewrite (strip_prefix_starts_with _ _ Hhere).
  - cbn [str_contains] in Hnone. apply orb_false_elim in Hnone as [Hhere Hrest].
    cbn [re_search]. unfold match_here.
    rewrite (strip_prefix_starts_with _ _ Hhere). cbn. by apply IH.
Qed.

(** C6. [_extract_projects_from_js] never raises: whatever the page
    content, it returns a list.  It returns the empty list when the page
    has no embedded block (the anchor pattern does not match, as on every
    page without the text [window.stateData]), when the block does not
    decode, and when the decoded block holds no listing
    array under the paginated shape nor under the flat one. *)
Theorem extract_never_raises (html : str) :
  (exists projects : list dict,
     extract_outcome repr json_loads html = Ok projects
     /\ _extract_projects_from_js repr json_loads html = projects)
  /\ (re_search html = None ->
      _extract_projects_from_js repr json_loads html = [])
  /\ (str_contains (lit "window.stateData") html = false ->
      _extract_projects_from_js repr json_loads html = [])
  /\ (forall (group : str) (e : exn),
        re_search html = Some group ->
        json_loads group = Raise e ->
        _extract_projects_from_js repr json_loads html = [])
  /\ (forall (group : str) (state_data : pyval),
        re_search html = Some group ->
        json_loads group = Ok state_data ->
        listing state_data = None ->
        _extract_projects_from_js repr json_loads html = []).
Proof.
  unfold _extract_projects_from_js, extract_outcome.
  split; [|split; [|split; [|split]]].
  - destruct (re_search html) as [group|]; [|by exists []].
    destruct (extract_body repr json_loads group) as [projects|e];
      eexists; split; reflexivity.
  - by intros ->.
  - intros Hnone. by rewrite (re_search_without_anchor html Hnone).
  - intros group e -> Hloads. unfold extract_body. by rewrite Hloads.
  - intros group state_data -> Hloads Hnone.
    destruct (extract_body repr json_loads group) as [projects|e] eqn:Hbody;
      [|done].
    by apply (extract_body_listing group state_data).
Qed.

End ExtractorTheorems.

(* ===================================================================== *)
(** * Scenarios *)
(* ===================================================================== *)

Section Scenarios.
Import Py DatabaseManager TelegramBot KworkParser Reference.


(** A batch with a record that has no identifier between two records with
    the identifier 1. *)
Lemma insert_projects_partition_witness :
  forallb candidate [sample_record 1; []; sample_record 1] = true
  /\ exists (d' : db) (c : counts),
       insert_projects empty_db [sample_record 1; []; sample_record 1]
       = Ok (d', c)
       /\ (inserted c + skipped c = 2)%nat.
Proof.
  assert (Hall : forallb candidate [sample_record 1; []; sample_record 1]
                 = true) by (vm_compute; reflexivity).
  split; [exact Hall|].
  destruct (proj1 insert_projects_partition empty_db
              [sample_record 1; []; sample_record 1] Hall)
    as (d' & c & Hrun & Hsum & _).
  exists d', c. split; [exact Hrun | exact Hsum].
Defined.

(** A text of 4001 characters without newline is cut after 4000. *)
Lemma split_segments_within_limit_witness :
  (4000 < length long_text)%nat
  /\ exists k : nat,
       split_parts long_text
       = take k long_text :: split_parts (lstrip (drop k long_text))
       /\ ((k < 4000)%nat /\ long_text !! k = Some NL /\
             (forall j : nat, (k < j < 4000)%nat ->
                              long_text !! j <> Some NL)
           \/ k = 4000%nat /\ NL ∉ take 4000 long_text).
Proof.
  assert (Hlong : (4000 < length long_text)%nat)
    by (apply Nat.ltb_lt; vm_compute; reflexivity).
  split; [exact Hlong|].
  exact (proj2 (split_segments_within_limit long_text) Hlong).
Defined.


(** The record built from an entry with an identifier and a name. *)
Lemma parse_project_defaults_witness :
  _parse_project_data no_repr (sample_entry 7) = Some (sample_record 7)
  /\ assoc (lit "id") (sample_record 7) = Some (PInt 7)
  /\ exists url : str, assoc (lit "url") (sample_record 7) = Some (PStr url).
Proof.
  assert (Hparse : _parse_project_data no_repr (sample_entry 7)
                   = Some (sample_record 7)) by (vm_compute; reflexivity).
  split; [exact Hparse|].
  destruct (parse_project_defaults no_repr (sample_entry 7)
              (sample_record 7) Hparse)
    as (raw & Hraw & _ & Hid & _ & Hurl).
  injection Hraw as <-. split; [exact Hid | exact Hurl].
Defined.

(** A page without the embedded block, with a block that does not decode,
    and with a block that holds no listing. *)
Lemma extract_never_raises_witness :
  re_search (lit "<html><body>no data</body></html>") = None
  /\ _extract_projects_from_js no_repr never_decodes
       (lit "<html><body>no data</body></html>") = []
  /\ _extract_projects_from_js no_repr never_decodes
       (lit "<script>window.stateData = {broken;</script>};") = []
  /\ _extract_projects_from_js no_repr decodes_empty_state
       (lit "<script>window.stateData = {};</script>") = [].
Proof.
  assert (Hnone : re_search (lit "<html><body>no data</body></html>")
                  = None) by (vm_compute; reflexivity).
  split; [exact Hnone|]. split; [|split].
  - exact (proj1 (proj2 (extract_never_raises no_repr never_decodes
                           (lit "<html><body>no data</body></html>")))
                 Hnone).
  - refine (proj1 (proj2 (proj2 (proj2 (extract_never_raises no_repr
              never_decodes
              (lit "<script>window.stateData = {broken;</script>};")))))
              (lit "{broken;</script>}") JSONDecodeError _ _);
      vm_compute; reflexivity.
  - refine (proj2 (proj2 (proj2 (proj2 (extract_never_raises no_repr
              decodes_empty_state
              (lit "<script>window.stateData = {};</script>")))))
              (lit "{}") (PDict [(lit "wantsListData", PDict [])]) _ _ _);
      vm_compute; reflexivity.
Defined.

(** Two payloads for the identifier 7. *)
Lemma upsert_overwrites_witness :
  record_id (sample_record 7) = PInt 7
  /\ record_id (renamed_record 7) = PInt 7
  /\ storable (sample_record 7) = true
  /\ storable (renamed_record 7) = true
  /\ exists d1 d2 : db,
       insert_project empty_db (sample_record 7) = Ok d1
       /\ insert_project d1 (renamed_record 7) = Ok d2
       /\ filter (fun r => p_id r = 7) (projects d2)
          = [row_of (renamed_record 7)]
       /\ p_id (row_of (renamed_record 7)) = 7.
Proof.
  assert (H1 : record_id (sample_record 7) = PInt 7)
    by (vm_compute; reflexivity).
  assert (H2 : record_id (renamed_record 7) = PInt 7)
    by (vm_compute; reflexivity).
  assert (H3 : storable (sample_record 7) = true)
    by (vm_compute; reflexivity).
  assert (H4 : storable (renamed_record 7) = true)
    by (vm_compute; reflexivity).
  split; [exact H1|]. split; [exact H2|]. split; [exact H3|].
  split; [exact H4|].
  exact (upsert_overwrites empty_db 7 (sample_record 7) (renamed_record 7)
           H1 H2 H3 H4).
Defined.

(** Seven records in batches of the default size. *)
Lemma send_projects_batch_count_witness :
  0 < default_batch_size
  /\ exists (w' : world) (sent_count : nat),
       send_projects_batch no_repr always_delivered []
         (map sample_record [1; 2; 3; 4; 5; 6; 7]) default_batch_size
       = Ok (w', sent_count)
       /\ (0 <= sent_count <= 7)%nat.
Proof.
  assert (Hpos : 0 < default_batch_size) by (vm_compute; reflexivity).
  split; [exact Hpos|].
  destruct (send_projects_batch_count no_repr always_delivered []
              (map sample_record [1; 2; 3; 4; 5; 6; 7]) default_batch_size
              Hpos)
    as (_ & _ & w' & oks & _ & _ & Hrun & Hbound).
  exists w', (delivered
                (chunks (Z.to_nat default_batch_size)
                        (map sample_record [1; 2; 3; 4; 5; 6; 7])) oks).
  split; [exact Hrun | exact Hbound].
Defined.

(** The loop on a long text that starts with a newline: the first cut is
    at position 0 and the trim removes the newline. *)
Lemma split_loop_terminates_witness :
  (length long_text_nl < 4003)%nat
  /\ (max_length < length long_text_nl)%nat
  /\ split_loop 4003 long_text_nl [] = Some (split_parts long_text_nl)
  /\ (length (lstrip (drop (Z.to_nat (split_pos long_text_nl)) long_text_nl))
      < length long_text_nl)%nat
  /\ (0 < split_pos long_text_nl \/ head long_text_nl = Some NL).
Proof.
  assert (Hfuel : (length long_text_nl < 4003)%nat)
    by (apply Nat.ltb_lt; vm_compute; reflexivity).
  assert (Hlong : (max_length < length long_text_nl)%nat)
    by (apply Nat.ltb_lt; vm_compute; reflexivity).
  split; [exact Hfuel|]. split; [exact Hlong|].
  destruct (split_loop_terminates long_text_nl 4003 Hfuel) as [Hrun Hstep].
  split; [exact Hrun | exact (Hstep Hlong)].
Defined.

(** Three records with names, one of them without identifier. *)
Lemma insert_projects_refines_witness :
  forallb named [sample_record 1; sample_record 0; sample_record 1] = true
  /\ insert_projects empty_db
       [sample_record 1; sample_record 0; sample_record 1]
     = bulk_insert_reference empty_db
         (filter (fun p => has_id p = true)
                 [sample_record 1; sample_record 0; sample_record 1]).
Proof.
  assert (Hn : forallb named
                 [sample_record 1; sample_record 0; sample_record 1]
               = true) by (vm_compute; reflexivity).
  split; [exact Hn|].
  exact (proj1 (insert_projects_refines empty_db
                  [sample_record 1; sample_record 0; sample_record 1]) Hn).
Defined.

(** ** Where the code departs from the design *)



(** The record built from an entry without identifier has [None] as its
    identifier, and a record built from an entry without [user] has no
    [buyer] field. *)
Lemma parse_project_without_id :
  exists project : dict,
    _parse_project_data no_repr nameless_entry = Some project
    /\ assoc (lit "id") project = Some PNone
    /\ assoc (lit "buyer") project = None.
Proof.
  eexists. split; [vm_compute; reflexivity|].
  split; vm_compute; reflexivity.
Qed.

(** On a record whose identifier is 0, the bulk insert and the reference
    program part ways: the bulk insert passes the record over, the
    reference program stores it and counts it as inserted. *)
Lemma insert_projects_passes_over_zero_id :
  insert_projects empty_db [sample_record 0]
  = Ok (empty_db, {| inserted := 0; skipped := 0 |})
  /\ (exists d' : db,
        bulk_insert_reference empty_db [sample_record 0]
        = Ok (d', {| inserted := 1; skipped := 0 |})
        /\ projects d' = [row_of (sample_record 0)])
  /\ insert_projects empty_db [sample_record 0]
     <> bulk_insert_reference empty_db [sample_record 0].
Proof.
  split; [vm_compute; reflexivity|]. split.
  - eexists. split; vm_compute; reflexivity.
  - vm_compute. discriminate.
Qed.

End Scenarios.

(* ===================================================================== *)
(** * Further properties of the record store *)
(* ===================================================================== *)

Section StoreLookups.
Import Py DatabaseManager Reference.

Lemma filter_other_ids (rows : list project_row) (k : Z) :
  k ∉ map p_id rows -> filter (fun r => p_id r ≠ k) rows = rows.
Proof.
  induction rows as [|r rows IH]; intros Hk; [done|].
  rewrite filter_cons. cbn [map] in Hk.
  rewrite not_elem_of_cons in Hk. destruct Hk as [Hne Hk].
  rewrite decide_True by congruence. by rewrite IH.
Qed.

(** Insert, then look up.  After [insert_project] has stored a record,
    [project_exists] answers [True] for its identifier, and its answer
    for every other integer identifier is what it was. *)
Theorem insert_then_exists (d d' : db) (p : dict) :
  insert_project d p = Ok d' ->
  project_exists d' (record_id p) = Ok true
  /\ forall z : Z,
       z <> record_key p ->
       project_exists d' (PInt z) = project_exists d (PInt z).
Proof.
  intros Hins.
  pose proof (store_ids_insert d d' p Hins) as Hids.
  apply insert_project_Ok in Hins as (Hid & Hkey & _).
  split.
  - unfold project_exists. rewrite Hid. cbn [mbind result_bind bind].
    rewrite Hkey. cbn [mbind result_bind bind].
    rewrite existsb_store_ids, Hids. f_equal.
    apply bool_decide_eq_true. set_solver.
  - intros z Hz. unfold project_exists.
    destruct (sql_param (PInt z)) as [a|e] eqn:Ha; [|done].
    apply sql_param_Ok in Ha as ->. cbn.
    f_equal. rewrite !existsb_store_ids, Hids.
    apply bool_decide_ext. set_solver.
Qed.

(** [insert_project] replaces at most the row of its own identifier: the
    rows with another identifier are the same as before, in the same
    order; if identifiers were unique in the table they still are; and the
    number of rows grows by one when the identifier was absent and stays
    the same when it was present once. *)
Theorem insert_project_frame (d d' : db) (p : dict) :
  insert_project d p = Ok d' ->
  filter (fun r => p_id r ≠ record_key p) (projects d')
  = filter (fun r => p_id r ≠ record_key p) (projects d)
  /\ (NoDup (map p_id (projects d)) ->
      NoDup (map p_id (projects d'))
      /\ total_projects d' =
           if bool_decide (record_key p ∈ store_ids d)
           then total_projects d else S (total_projects d)).
Proof.
  intros Hins. apply insert_project_Ok in Hins as (_ & _ & Hrows).
  rewrite Hrows. split.
  - rewrite filter_app, filter_cons, filter_nil.
    rewrite decide_False by (intros Hne; by apply Hne).
    rewrite app_nil_r. apply list_filter_filter_l. tauto.
  - intros Hnodup. unfold total_projects, store_ids. rewrite Hrows. clear Hrows.
    assert (Hrowk : p_id (row_of p) = record_key p) by reflexivity.
    revert Hrowk. generalize (row_of p). generalize (record_key p).
    intros k row Hrowk.
    assert (Hrow : forall rows : list project_row,
      NoDup (map p_id rows) ->
      NoDup (map p_id (filter (fun r => p_id r ≠ k) rows))
      /\ (k ∉ map p_id (filter (fun r => p_id r ≠ k) rows))
      /\ S (length (filter (fun r => p_id r ≠ k) rows))
         = if bool_decide (k ∈ (list_to_set (map p_id rows) : gset Z))
           then length rows else S (length rows)).
    { induction rows as [|r rows IH]; intros Hnd.
      - cbn. split; [constructor|]. split; [|done]. intros Hin.
        by inversion Hin.
      - cbn [map] in Hnd. apply NoDup_cons in Hnd as [Hr Hnd].
        destruct (IH Hnd) as (IH1 & IH2 & IH3).
        rewrite filter_cons. cbn [map list_to_set length].
        destruct (decide (p_id r ≠ k)) as [Hne | Heq].
        + cbn [map length]. split.
          { apply NoDup_cons. split; [|done].
            intros Hin. apply Hr. apply list_elem_of_fmap in Hin
              as (r' & -> & Hin). apply list_elem_of_filter in Hin as [_ Hin].
            apply list_elem_of_fmap. by exists r'. }
          split; [rewrite not_elem_of_cons; split; [congruence | done]|].
          rewrite IH3.
          rewrite (bool_decide_ext (k ∈ {[p_id r]} ∪ _)
                     (k ∈ (list_to_set (map p_id rows) : gset Z)))
            by set_solver.
          by case_bool_decide.
        + assert (p_id r = k) as <-
            by (by destruct (decide (p_id r = k)); [|destruct Heq]).
          split; [done|]. split; [done|].
          rewrite bool_decide_eq_true_2 by set_solver.
          rewrite filter_other_ids by done. done. }
    destruct (Hrow (projects d) Hnodup) as (H1 & H2 & H3).
    rewrite map_app, length_app. cbn [map length]. split.
    + apply NoDup_app. split; [done|]. split; [|apply NoDup_singleton].
      intros x Hx Hx'. apply list_elem_of_singleton in Hx' as ->.
      by rewrite Hrowk in Hx.
    + rewrite Nat.add_1_r. exact H3.
Qed.

End StoreLookups.


Section StoreBulk.
Import Py DatabaseManager Reference.

Lemma insert_absent_appends (d d' : db) (p : dict) :
  project_exists d (record_id p) = Ok false ->
  insert_project d p = Ok d' ->
  projects d' = projects d ++ [row_of p].
Proof.
  intros Hex Hins. apply project_exists_Ok in Hex.
  symmetry in Hex. apply bool_decide_eq_false in Hex.
  apply insert_project_Ok in Hins as (_ & _ & ->).
  rewrite filter_other_ids; [done|].
  intros Hin. apply Hex. unfold store_ids.
  by apply elem_of_list_to_set.
Qed.

Lemma insert_loop_appends (ps : list dict) :
  forall (d d' : db) (c c' : counts),
    insert_loop d c ps = Ok (d', c') ->
    exists added : list project_row,
      projects d' = projects d ++ added
      /\ (inserted c' = inserted c + length added)%nat
      /\ Forall (fun r => p_id r ∉ store_ids d) added
      /\ NoDup (map p_id added).
Proof.
  induction ps as [|p ps IH]; intros d d' c c' Hrun.
  { injection Hrun as <- <-. exists []. rewrite app_nil_r.
    repeat split; [simpl; lia | constructor | constructor]. }
  cbn [insert_loop] in Hrun. fold (record_id p) in Hrun.
  destruct (truthy (record_id p)); cbn [negb] in Hrun; [|by apply IH in Hrun].
  apply bind_Ok in Hrun as (found & Hfound & Hrun).
  destruct found.
  - apply IH in Hrun as (added & Hrows & Hins & Hnew & Hnd).
    exists added. by repeat split.
  - apply bind_Ok in Hrun as (d1 & Hd1 & Hrun).
    apply bind_Ok in Hrun as (shown & _ & Hrun).
    pose proof (insert_absent_appends d d1 p Hfound Hd1) as Hrows1.
    pose proof (store_ids_insert d d1 p Hd1) as Hids1.
    apply project_exists_Ok in Hfound. symmetry in Hfound.
    apply bool_decide_eq_false in Hfound.
    apply IH in Hrun as (added & Hrows & Hins & Hnew & Hnd).
    exists (row_of p :: added). cbn [inserted] in Hins.
    split; [by rewrite Hrows, Hrows1, <- app_assoc|].
    split; [cbn [length]; lia|]. split.
    + constructor; [exact Hfound|].
      eapply Forall_impl; [exact Hnew|]. intros r Hr. cbn beta in Hr.
      rewrite Hids1 in Hr. clear -Hr. set_solver.
    + cbn [map]. apply NoDup_cons. split; [|done].
      intros Hin. apply list_elem_of_fmap in Hin as (r & Hr & Hin).
      rewrite Forall_forall in Hnew. apply Hnew in Hin.
      apply Hin. rewrite Hids1, <- Hr. clear. set_solver.
Qed.

(** The bulk insert only appends.  When [insert_projects] returns, the
    table is the old table followed by one new row per record counted as
    inserted; the new rows have pairwise different identifiers, none of
    which the store held, so no stored row is changed or removed and the
    record count grows by exactly the inserted count. *)
Theorem insert_projects_appends (d d' : db) (c : counts) (ps : list dict) :
  insert_projects d ps = Ok (d', c) ->
  exists added : list project_row,
    projects d' = projects d ++ added
    /\ length added = inserted c
    /\ Forall (fun r => p_id r ∉ store_ids d) added
    /\ NoDup (map p_id added)
    /\ total_projects d' = (total_projects d + inserted c)%nat.
Proof.
  intros Hrun. apply insert_loop_appends in Hrun
    as (added & Hrows & Hins & Hnew & Hnd).
  cbn [inserted] in Hins. exists added.
  split; [done|]. split; [lia|]. split; [done|]. split; [done|].
  unfold total_projects. rewrite Hrows, length_app. lia.
Qed.

(** The batched lookup and the point lookup.  When
    [get_existing_project_ids] returns a set for a list of identifiers,
    the key that an identifier of the list denotes is in the set exactly
    when [project_exists] answers [True] for it.  For an identifier that is
    not a text this is the test [proj_id in existing_ids] of the page loop;
    for a text identifier that test answers [False], also when the key is
    in the set and [project_exists] answers [True].  Every member of the
    set is in the store and is the key of an identifier of the list (so the
    set is empty for the empty list). *)
Theorem existing_ids_agree (d : db) (ids : list pyval) (found : gset Z) :
  get_existing_project_ids d ids = Ok found ->
  (forall v, v ∈ ids ->
     project_exists d v = Ok (bool_decide (id_key v ∈ found)))
  /\ (forall v, v ∈ ids -> (forall s : str, v <> PStr s) ->
        KworkParser.in_ids v found = project_exists d v)
  /\ (forall s : str, KworkParser.in_ids (PStr s) found = Ok false)
  /\ (forall k, k ∈ found ->
        k ∈ store_ids d /\ exists v, v ∈ ids /\ id_key v = k)
  /\ (ids = [] -> found = ∅).
Proof.
  intros H. apply existing_ids_Ok in H as [Hall Hmem].
  assert (Hpoint : forall v, v ∈ ids ->
            project_exists d v = Ok (bool_decide (id_key v ∈ found))).
  { intros v Hv. destruct (Hall v Hv) as [Hp Hkey].
    unfold project_exists. rewrite Hp. cbn [mbind result_bind bind].
    rewrite Hkey. cbn [mbind result_bind bind].
    rewrite existsb_store_ids. f_equal. apply bool_decide_ext.
    rewrite Hmem. split; [|tauto]. intros Hin. split; [done|].
    apply list_elem_of_fmap. by exists v. }
  split; [exact Hpoint|]. split; [|split; [done|split]].
  - intros v Hv Htext. rewrite (Hpoint v Hv).
    destruct (Hall v Hv) as [_ Hkey].
    destruct v as [|b|z|f|s|l|x]; try discriminate Hkey; [done..|].
    by destruct (Htext s).
  - intros k Hin. apply Hmem in Hin as [Hs Hin]. split; [done|].
    apply list_elem_of_fmap in Hin as (v & -> & Hv). by exists v.
  - intros ->. apply set_eq. intros k. rewrite Hmem.
    split; [intros [_ Hk]; by inversion Hk|].
    intros Hk. by apply not_elem_of_empty in Hk.
Qed.

End StoreBulk.


Section StoreBuyers.
Import Py DatabaseManager Reference.

(** What [insert_buyer] leaves when it returns. *)
Lemma insert_buyer_Ok (d d' : db) (buyer : pyval) :
  insert_buyer d buyer = Ok d' ->
  exists (b : dict) (key : str),
    buyer = PDict b
    /\ as_text_key (dget b (lit "user_id") (PStr [])) = Ok key
    /\ d' = {| projects := projects d;
               buyers :=
                 filter (fun r => b_user_id r ≠ key) (buyers d)
                 ++ [{| b_user_id := key;
                        b_username := dget b (lit "username") (PStr []);
                        b_profile_url :=
                          dget b (lit "profile_url") (PStr []);
                        b_avatar := dget b (lit "avatar") (PStr []);
                        b_wants_count :=
                          dget b (lit "wants_count") (PStr []);
                        b_hired_percent :=
                          dget b (lit "hired_percent") (PStr []) |}];
               project_buyers := project_buyers d |}.
Proof.
  unfold insert_buyer. intros H.
  destruct buyer as [| | | | | |b]; try discriminate H.
  cbn [get mbind result_bind bind] in H. fold (dget b) in H.
  inv_bind H.
  repeat match goal with
         | Hs : sql_param _ = Ok _ |- _ =>
             apply sql_param_Ok in Hs; subst
         end.
  match goal with Hn : not_null _ = Ok _ |- _ =>
    apply not_null_Ok in Hn; subst end.
  injection H as <-. eexists b, _. split; [done|]. split; [eassumption|done].
Qed.

(** Upsert of a buyer.  Two successful [insert_buyer] with the same
    [user_id] leave exactly one row for it, which holds the fields of the
    second dictionary; the two other tables are untouched. *)
Theorem insert_buyer_upsert (d d1 d2 : db) (b1 b2 : dict) (key : str) :
  as_text_key (dget b1 (lit "user_id") (PStr [])) = Ok key ->
  as_text_key (dget b2 (lit "user_id") (PStr [])) = Ok key ->
  insert_buyer d (PDict b1) = Ok d1 ->
  insert_buyer d1 (PDict b2) = Ok d2 ->
  filter (fun r => b_user_id r = key) (buyers d2)
  = [{| b_user_id := key;
        b_username := dget b2 (lit "username") (PStr []);
        b_profile_url := dget b2 (lit "profile_url") (PStr []);
        b_avatar := dget b2 (lit "avatar") (PStr []);
        b_wants_count := dget b2 (lit "wants_count") (PStr []);
        b_hired_percent := dget b2 (lit "hired_percent") (PStr []) |}]
  /\ projects d2 = projects d
  /\ project_buyers d2 = project_buyers d.
Proof.
  intros Hk1 Hk2 H1 H2.
  apply insert_buyer_Ok in H1 as (b1' & key1 & [= <-] & Hkey1 & ->).
  apply insert_buyer_Ok in H2 as (b2' & key2 & [= <-] & Hkey2 & ->).
  rewrite Hk1 in Hkey1. injection Hkey1 as <-.
  rewrite Hk2 in Hkey2. injection Hkey2 as <-.
  cbn [buyers projects project_buyers]. split; [|done].
  rewrite filter_app, filter_cons, filter_nil.
  rewrite decide_True by done.
  match goal with
  | |- filter ?P (filter ?Q ?l) ++ _ = _ =>
      assert (Hnone : filter P (filter Q l) = [])
  end.
  { match goal with |- filter _ (filter _ ?l) = _ => generalize l end.
    intros l. induction l as [|r l IH]; [done|].
    rewrite (filter_cons (fun r => b_user_id r ≠ key)).
    destruct (decide (b_user_id r ≠ key)); [|exact IH].
    rewrite filter_cons. by rewrite decide_False. }
  by rewrite Hnone.
Qed.

(** What the [INSERT OR IGNORE] leaves when it returns. *)
Lemma link_buyer_Ok (d d' : db) (pid uid : pyval) :
  link_buyer d pid uid = Ok d' ->
  exists (k : Z) (u : str),
    sql_param pid = Ok pid /\ sql_param uid = Ok uid
    /\ as_integer_key pid = Ok k /\ as_text_key uid = Ok u
    /\ d' = (if bool_decide ((k, u) ∈ project_buyers d) then d
             else {| projects := projects d;
                     buyers := buyers d;
                     project_buyers := project_buyers d ++ [(k, u)] |}).
Proof.
  unfold link_buyer. intros H. inv_bind H.
  repeat match goal with
         | Hs : sql_param _ = Ok _ |- _ =>
             pose proof (sql_param_Ok _ _ Hs); subst; revert Hs
         end.
  intros Hp Hu. injection H as <-. by eexists _, _.
Qed.

(** Linking is idempotent.  A successful link of a project to a buyer
    leaves the pair in the table; linking the same pair again changes
    nothing; the first link added at most the one pair, at the end, and a
    table without repeated pairs stays without. *)
Theorem link_buyer_idempotent (d d1 : db) (pid uid : pyval) :
  link_buyer d pid uid = Ok d1 ->
  link_buyer d1 pid uid = Ok d1
  /\ exists (k : Z) (u : str),
       (k, u) ∈ project_buyers d1
       /\ (project_buyers d1 = project_buyers d
           \/ project_buyers d1 = project_buyers d ++ [(k, u)])
       /\ (NoDup (project_buyers d) -> NoDup (project_buyers d1))
       /\ projects d1 = projects d /\ buyers d1 = buyers d.
Proof.
  intros H. apply link_buyer_Ok in H as (k & u & Hp & Hu & Hk & Hu' & ->).
  assert (Hin : (k, u) ∈ project_buyers
            (if bool_decide ((k, u) ∈ project_buyers d) then d
             else {| projects := projects d; buyers := buyers d;
                     project_buyers := project_buyers d ++ [(k, u)] |})).
  { case_bool_decide; [done|]. cbn. apply elem_of_app. right. by left. }
  split.
  - unfold link_buyer. rewrite Hp. cbn [mbind result_bind bind].
    rewrite Hu. cbn [mbind result_bind bind].
    rewrite Hk. cbn [mbind result_bind bind].
    rewrite Hu'. cbn [mbind result_bind bind].
    by rewrite bool_decide_eq_true_2.
  - exists k, u. split; [exact Hin|]. clear Hin.
    case_bool_decide as Hold; cbn [projects buyers project_buyers].
    + split; [by left|]. done.
    + split; [by right|]. split; [|done].
      intros Hnd. apply NoDup_app. split; [done|].
      split; [|apply NoDup_singleton].
      intros x Hx Hx'. apply list_elem_of_singleton in Hx' as ->. done.
Qed.

(** A successful [insert_project] never removes a link, and adds at most
    one; when the record carries a buyer dictionary with a non-empty
    [user_id], the buyer has a row and the record is linked to it
    afterwards. *)
Theorem insert_project_links (d d' : db) (p : dict) :
  insert_project d p = Ok d' ->
  (exists added : list (Z * str),
     project_buyers d' = project_buyers d ++ added /\ (length added <= 1)%nat)
  /\ (forall (b : dict) (key : str),
        assoc (lit "buyer") p = Some (PDict b) ->
        as_text_key (dget b (lit "user_id") (PStr [])) = Ok key ->
        truthy (dget b (lit "user_id") (PStr [])) = true ->
        (record_key p, key) ∈ project_buyers d'
        /\ exists row, row ∈ buyers d' /\ b_user_id row = key
                       /\ b_username row
                          = dget b (lit "username") (PStr [])).
Proof.
  unfold insert_project. intros H.
  apply bind_Ok in H as (d0 & Hrep & H).
  apply replace_project_Ok in Hrep as (Hid & Hkey & ->).
  assert (Hsame : forall links : list (Z * str),
            exists added : list (Z * str),
              links = links ++ added /\ (length added <= 1)%nat).
  { intros links. exists []. rewrite app_nil_r. split; [done | simpl; lia]. }
  destruct (assoc (lit "buyer") p) as [buyer|] eqn:Hbuyer.
  2:{ injection H as <-. cbn. split; [apply Hsame | by intros]. }
  destruct (truthy buyer) eqn:Htruthy.
  2:{ injection H as <-. cbn. split.
      - apply Hsame.
      - intros b key [= ->] _ Huid. exfalso.
        cbn in Htruthy. destruct b; [|done]. cbn in Huid. done. }
  apply bind_Ok in H as (d1 & Hbuy & H).
  apply insert_buyer_Ok in Hbuy as (b & key & -> & Hbkey & ->).
  cbn [get mbind result_bind bind] in H.
  change (default (PStr []) (assoc (lit "user_id") b))
    with (dget b (lit "user_id") (PStr [])) in H.
  destruct (truthy (dget b (lit "user_id") (PStr []))) eqn:Huid.
  - apply link_buyer_Ok in H as (k & u & _ & _ & Hk & Hu & ->).
    fold (record_id p) in Hk. rewrite Hkey in Hk. injection Hk as <-.
    rewrite Hbkey in Hu. injection Hu as <-.
    cbn [projects buyers project_buyers].
    case_bool_decide as Hold; cbn [projects buyers project_buyers].
    + split; [apply Hsame|].
      intros b' key' [= <-] Hkey' _. rewrite Hbkey in Hkey'.
      injection Hkey' as <-. split; [done|].
      eexists. split; [apply elem_of_app; right; by left|]. done.
    + split; [exists [(record_key p, key)]; split; [done | simpl; lia]|].
      intros b' key' [= <-] Hkey' _. rewrite Hbkey in Hkey'.
      injection Hkey' as <-. split; [apply elem_of_app; right; by left|].
      eexists. split; [apply elem_of_app; right; by left|]. done.
  - injection H as <-. cbn [projects buyers project_buyers]. split.
    + apply Hsame.
    + intros b' key' [= <-] _ Huid'. congruence.
Qed.

End StoreBuyers.

(* ===================================================================== *)
(** * Further properties of a run *)
(* ===================================================================== *)

Section PassStore.
Import Py DatabaseManager KworkParser Reference.

(** The new projects of a partition: each has a non-empty identifier that
    was not found among the existing ones. *)
Lemma partition_projects_Ok (existing : gset Z) (ps news : list dict)
    (ins skip : nat) :
  partition_projects existing ps = Ok (news, ins, skip) ->
  ins = length news
  /\ (ins + skip = length (filter (fun p => has_id p = true) ps))%nat
  /\ Forall (fun p => p ∈ ps /\ has_id p = true
                      /\ in_ids (record_id p) existing = Ok false) news.
Proof.
  revert news ins skip. induction ps as [|p ps IH]; intros news ins skip H.
  { injection H as <- <- <-. repeat split; constructor. }
  cbn [partition_projects] in H. fold (record_id p) in H.
  rewrite filter_cons.
  destruct (truthy (record_id p)) eqn:Hid; cbn [negb] in H.
  - apply bind_Ok in H as (known & Hknown & H).
    apply bind_Ok in H as (shown & _ & H).
    apply bind_Ok in H as ([[news' ins'] skip'] & Hrest & H).
    destruct (IH _ _ _ Hrest) as (-> & Hsum & Hnews).
    assert (Hnews' : Forall (fun q => q ∈ p :: ps /\ has_id q = true
                              /\ in_ids (record_id q) existing = Ok false)
                             news').
    { eapply Forall_impl; [exact Hnews|]. intros q (Hq & ? & ?).
      split; [by right | done]. }
    rewrite decide_True by done.
    destruct known; injection H as <- <- <-.
    + split; [done|]. split; [simpl; lia | done].
    + split; [done|]. split; [simpl; lia|].
      constructor; [|done]. split; [by left|]. by split.
  - apply IH in H as (-> & Hsum & Hnews).
    rewrite decide_False by (by rewrite not_true_iff_false).
    split; [done|]. split; [done|].
    eapply Forall_impl; [exact Hnews|]. intros q (Hq & ? & ?).
    split; [by right | done].
Qed.

Lemma insert_all_appends (news : list dict) :
  forall (d0 d' : db) (old : list project_row),
    insert_all d0 news = Ok d' ->
    old `prefix_of` projects d0 ->
    Forall (fun p => record_key p ∉ map p_id old) news ->
    old `prefix_of` projects d'
    /\ (length (projects d') <= length (projects d0) + length news)%nat
    /\ store_ids d' = store_ids d0 ∪ list_to_set (map record_key news).
Proof.
  induction news as [|p news IH]; intros d0 d' old H Hold Hnew.
  { injection H as <-. split; [done|]. split; [simpl; lia|].
    cbn. clear. set_solver. }
  cbn [insert_all] in H. apply bind_Ok in H as (d1 & Hd1 & H).
  apply Forall_cons in Hnew as [Hp Hnew].
  pose proof (store_ids_insert d0 d1 p Hd1) as Hids1.
  apply insert_project_Ok in Hd1 as (_ & _ & Hrows).
  destruct Hold as [rest Hold].
  assert (Hold1 : old `prefix_of` projects d1).
  { rewrite Hrows, Hold, filter_app, (filter_other_ids old) by done.
    rewrite <- app_assoc. by eexists. }
  assert (Hlen : (length (projects d1) <= S (length (projects d0)))%nat).
  { rewrite Hrows, length_app. simpl.
    pose proof (length_filter (fun r => p_id r ≠ record_key p) (projects d0)).
    lia. }
  destruct (IH d1 d' old H Hold1 Hnew) as (Hpre & Hlen' & Hids).
  split; [done|]. split; [simpl; lia|].
  rewrite Hids, Hids1. cbn [map list_to_set]. clear. set_solver.
Qed.

(** The records a pass stores: those it reports as new, each taken from
    the page with an identifier the store did not hold. *)
Lemma save_page_new (d d' : db) (t t' : totals) (ps : list dict) :
  Forall (fun p => text_id p = false) ps ->
  save_page d t ps = Ok (d', t') ->
  exists news : list dict,
    insert_all d news = Ok d'
    /\ all_new_projects t' = all_new_projects t ++ news
    /\ total_inserted t' = (total_inserted t + length news)%nat
    /\ (total_inserted t' + total_skipped t'
        = total_inserted t + total_skipped t
          + length (filter (fun p => has_id p = true) ps))%nat
    /\ Forall (fun p => p ∈ ps /\ record_key p ∉ store_ids d) news.
Proof.
  unfold save_page. intros Hplain H. case_bool_decide as Hnil.
  { injection H as <- <-. exists []. subst ps. rewrite app_nil_r. simpl.
    repeat split; try lia. constructor. }
  apply bind_Ok in H as (existing & Hex & H).
  apply bind_Ok in H as ([[news ins] skip] & Hpart & H).
  apply bind_Ok in H as (d1 & Hall & H). injection H as <- <-.
  apply existing_ids_Ok in Hex as [Hbound Hmem].
  apply partition_projects_Ok in Hpart as (-> & Hsum & Hnews).
  exists news. cbn [all_new_projects total_inserted total_skipped].
  split; [done|]. split; [done|]. split; [done|]. split; [lia|].
  eapply Forall_impl; [exact Hnews|]. intros p (Hp & Hid & Hin).
  split; [done|].
  assert (Hlisted : record_id p ∈
    filter (fun v => truthy v = true)
           (map (fun p => dget p (lit "id") PNone) ps)).
  { apply list_elem_of_filter. split; [exact Hid|].
    apply list_elem_of_fmap. by exists p. }
  destruct (Hbound _ Hlisted) as [_ Hkey].
  intros Hstored.
  assert (Hfound : record_key p ∈ existing).
  { apply Hmem. split; [done|]. apply list_elem_of_fmap.
    by exists (record_id p). }
  rewrite Forall_forall in Hplain. specialize (Hplain p Hp).
  unfold text_id in Hplain. unfold record_key in Hfound.
  destruct (record_id p); try discriminate Hkey; try discriminate Hplain;
    cbn in Hin, Hfound; injection Hin as Hin;
    by apply bool_decide_eq_false in Hin.
Qed.

(** Storing records whose identifiers the store does not hold. *)
Lemma insert_all_fresh (d d' : db) (news : list dict) :
  insert_all d news = Ok d' ->
  Forall (fun p => record_key p ∉ store_ids d) news ->
  projects d `prefix_of` projects d'
  /\ (total_projects d' <= total_projects d + length news)%nat
  /\ store_ids d' = store_ids d ∪ list_to_set (map record_key news).
Proof.
  intros Hall Hfresh.
  apply (insert_all_appends news d d' (projects d) Hall); [done|].
  eapply Forall_impl; [exact Hfresh|]. intros p Hp Hin. apply Hp.
  unfold store_ids. by apply elem_of_list_to_set.
Qed.

(** A pass never alters what is stored under an identifier that is not a
    text.  When [save_page] returns on a page without text identifiers, the
    table of projects is the old table followed by new rows, whose
    identifiers the store did not hold; the records reported as new are
    exactly those counted as inserted, each with an identifier absent from
    the old store, and the store ends up holding the old identifiers and
    theirs. *)
Theorem save_page_keeps_stored (d d' : db) (t t' : totals) (ps : list dict) :
  Forall (fun p => text_id p = false) ps ->
  save_page d t ps = Ok (d', t') ->
  projects d `prefix_of` projects d'
  /\ exists news : list dict,
       all_new_projects t' = all_new_projects t ++ news
       /\ total_inserted t' = (total_inserted t + length news)%nat
       /\ (total_inserted t' + total_skipped t'
           = total_inserted t + total_skipped t
             + length (filter (fun p => has_id p = true) ps))%nat
       /\ Forall (fun p => p ∈ ps /\ record_key p ∉ store_ids d) news
       /\ store_ids d' = store_ids d ∪ list_to_set (map record_key news)
       /\ (total_projects d' <= total_projects d + length news)%nat.
Proof.
  intros Hplain H.
  apply (save_page_new _ _ _ _ _ Hplain) in H
    as (news & Hall & Hnew & Hins & Hsum & Hfresh).
  assert (Hkeys : Forall (fun p => record_key p ∉ store_ids d) news).
  { eapply Forall_impl; [exact Hfresh|]. by intros p [_ Hp]. }
  destruct (insert_all_fresh d d' news Hall Hkeys) as (Hpre & Hlen & Hids).
  split; [exact Hpre|]. exists news.
  split; [exact Hnew|]. split; [exact Hins|]. split; [exact Hsum|].
  split; [exact Hfresh|]. split; [exact Hids | exact Hlen].
Qed.

End PassStore.


Section PassAgainstBulk.
Import Py DatabaseManager KworkParser Reference.

(** On records with pairwise different identifiers, the loop of the bulk
    insert stores what [insert_all] stores on the records that the store
    did not hold, and counts them. *)
Lemma insert_loop_insert_all (ps : list dict) :
  forall (d : db) (c : counts),
    forallb identified ps = true ->
    NoDup (map record_key ps) ->
    exists d' : db,
      insert_all d (filter (fun p => record_key p ∉ store_ids d) ps) = Ok d'
      /\ insert_loop d c ps
         = Ok (d',
               {| inserted :=
                    (inserted c
                     + length (filter (fun p => record_key p ∉ store_ids d)
                                      ps))%nat;
                  skipped :=
                    (skipped c
                     + length (filter (fun p => record_key p ∈ store_ids d)
                                      ps))%nat |}).
Proof.
  induction ps as [|p ps IH]; intros d c Hall Hnd.
  { exists d. cbn. rewrite !Nat.add_0_r. by destruct c. }
  apply andb_prop in Hall as [Hp Hps].
  apply identified_parts in Hp as (Hid & _ & Hs & Hn).
  cbn [map] in Hnd. apply NoDup_cons in Hnd as [Hfresh Hnd].
  cbn [insert_loop]. fold (record_id p). unfold has_id in Hid.
  rewrite Hid. cbn [negb]. rewrite (project_exists_storable d p Hs).
  cbn [mbind result_bind bind]. rewrite !filter_cons.
  case_bool_decide as Hin.
  - rewrite decide_False by tauto. rewrite decide_True by done.
    destruct (IH d {| inserted := inserted c; skipped := S (skipped c) |}
                Hps Hnd) as (d' & Hall' & Hloop).
    exists d'. split; [done|]. rewrite Hloop. cbn [inserted skipped length].
    do 3 f_equal. lia.
  - rewrite decide_True by done. rewrite decide_False by done.
    destruct (storable_insert d p Hs) as (d1 & Hd1).
    pose proof (store_ids_insert d d1 p Hd1) as Hids1.
    cbn [insert_all]. rewrite Hd1. cbn [mbind result_bind bind].
    destruct (named_slice p ru_no_name Hn) as [shown ->].
    cbn [mbind result_bind bind].
    assert (Hsame : forall q, q ∈ ps ->
              record_key q ∉ store_ids d1 <-> record_key q ∉ store_ids d).
    { intros q Hq. rewrite Hids1.
      assert (record_key q <> record_key p).
      { intros Heq. apply Hfresh. rewrite <- Heq.
        apply list_elem_of_fmap. by exists q. }
      clear -H. set_solver. }
    assert (Hnew : filter (fun q => record_key q ∉ store_ids d1) ps
                   = filter (fun q => record_key q ∉ store_ids d) ps)
      by (by apply filter_agree).
    assert (Hknown : filter (fun q => record_key q ∈ store_ids d1) ps
                     = filter (fun q => record_key q ∈ store_ids d) ps).
    { apply filter_agree. intros q Hq. apply Hsame in Hq.
      destruct (decide (record_key q ∈ store_ids d1));
        destruct (decide (record_key q ∈ store_ids d)); tauto. }
    destruct (IH d1 {| inserted := S (inserted c); skipped := skipped c |}
                Hps Hnd) as (d' & Hall' & Hloop).
    rewrite Hnew in Hall', Hloop. rewrite Hknown in Hloop.
    exists d'. split; [done|]. rewrite Hloop. cbn [inserted skipped length].
    do 3 f_equal. lia.
Qed.

(** The pass and the bulk insert agree.  On a page of records with
    non-empty integer identifiers that the store accepts and names that
    can be shown, no two of them with the same identifier, [save_page]
    leaves the store that [insert_projects] leaves and adds to its counters
    the counts that [insert_projects] returns. *)
Theorem save_page_as_bulk_insert (d : db) (t : totals) (ps : list dict) :
  forallb identified ps = true ->
  NoDup (map record_key ps) ->
  exists (d' : db) (c : counts) (t' : totals),
    insert_projects d ps = Ok (d', c)
    /\ save_page d t ps = Ok (d', t')
    /\ total_inserted t' = (total_inserted t + inserted c)%nat
    /\ total_skipped t' = (total_skipped t + skipped c)%nat
    /\ length (all_new_projects t')
       = (length (all_new_projects t) + inserted c)%nat.
Proof.
  intros Hall Hnd.
  destruct (insert_loop_insert_all ps d {| inserted := 0; skipped := 0 |}
              Hall Hnd) as (d' & Hins & Hloop).
  destruct (save_page_identified d t ps Hall) as (d'' & Hsave & Hins' & _).
  rewrite Hins in Hins'. injection Hins' as <-.
  eexists d', _, _. split; [exact Hloop|]. split; [exact Hsave|].
  cbn [total_inserted total_skipped all_new_projects inserted skipped].
  rewrite length_app. done.
Qed.

End PassAgainstBulk.


Section RunStore.
Import Py DatabaseManager KworkParser Reference.

Variable repr : pyval -> str.
Variable json_loads : str -> result pyval.
Variable fetch : Z -> option str.

Local Abbreviation page_records := (parse_page repr json_loads fetch).

Lemma page_range_bounds (start_page end_page page : Z) :
  page ∈ page_range start_page end_page -> start_page <= page <= end_page.
Proof.
  unfold page_range. intros H. apply list_elem_of_fmap in H as (k & -> & Hk).
  apply elem_of_seq in Hk. lia.
Qed.

Lemma page_loop_quiet (pages : list Z) (d : db) (t : totals) :
  (forall page, page ∈ pages -> page_records page = []) ->
  page_loop repr json_loads fetch d t pages = Ok (d, t).
Proof.
  induction pages as [|page pages IH]; intros Hquiet; [done|].
  cbn [page_loop]. rewrite (Hquiet page) by (by left).
  unfold save_page. rewrite bool_decide_eq_true_2 by done.
  cbn [mbind result_bind bind]. apply IH.
  intros page' Hin. apply Hquiet. by right.
Qed.

(** A run that finds nothing.  When no page of the range yields a record
    (the request fails, or the page has no listing), [parse_and_save]
    returns, leaves the store as it is and reports zero parsed, new and
    skipped records beside the store's counts; a failed request alone makes
    a page yield nothing. *)
Theorem parse_and_save_quiet (d : db) (start_page end_page : Z) :
  (forall page : Z, fetch page = None -> page_records page = [])
  /\ ((forall page : Z,
         start_page <= page <= end_page -> page_records page = []) ->
      parse_and_save repr json_loads fetch d start_page end_page
      = Ok (d, {| total_parsed := 0; new_projects := 0;
                  skipped_existing := 0;
                  db_total_projects := total_projects d;
                  db_total_buyers := total_buyers d |})).
Proof.
  split.
  - intros page Hfail. unfold parse_page. by rewrite Hfail.
  - intros Hquiet. unfold parse_and_save. rewrite page_loop_quiet; [done|].
    intros page Hin. apply Hquiet. by apply page_range_bounds.
Qed.

Lemma page_loop_effect (pages : list Z) :
  forall (d d' : db) (t t' : totals),
    (forall page, page ∈ pages ->
       Forall (fun p => text_id p = false) (page_records page)) ->
    page_loop repr json_loads fetch d t pages = Ok (d', t') ->
    projects d `prefix_of` projects d'
    /\ store_ids d ⊆ store_ids d'
    /\ (total_inserted t <= total_inserted t')%nat
    /\ (total_projects d' + total_inserted t
        <= total_projects d + total_inserted t')%nat
    /\ (total_inserted t' + total_skipped t'
        = total_inserted t + total_skipped t
          + length (filter (fun p => has_id p = true)
                           (concat (map page_records pages))))%nat.
Proof.
  induction pages as [|page pages IH]; intros d d' t t' Hplain H.
  { injection H as <- <-. repeat split; try done; simpl; lia. }
  cbn [page_loop] in H. apply bind_Ok in H as ([d0 t0] & Hpage & H).
  apply save_page_new in Hpage
    as (news & Hall & _ & Hins0 & Hsum0 & Hfresh); [|apply Hplain; by left].
  assert (Hkeys : Forall (fun p => record_key p ∉ store_ids d) news).
  { eapply Forall_impl; [exact Hfresh|]. by intros p [_ Hp]. }
  destruct (insert_all_fresh d d0 news Hall Hkeys) as (Hpre0 & Hlen0 & Hids0).
  apply IH in H as (Hpre & Hsub & Hins & Hlen & Hsum);
    [|intros page' Hin; apply Hplain; by right].
  split; [by etrans|]. split; [clear -Hsub Hids0; set_solver|].
  split; [lia|]. split; [lia|].
  cbn [map concat]. rewrite filter_app, length_app. lia.
Qed.

(** A run never alters what is stored under an identifier that is not a
    text.  When [parse_and_save] returns and no page of the range yields a
    record with a text identifier, the table of projects is the table it
    found followed by new rows; the count of stored projects it reports is
    at most the old count plus the number of new projects; a run that
    reports no new project left the table as it was; and [total_parsed]
    counts exactly the extracted records that have an identifier. *)
Theorem parse_and_save_keeps_stored (d d' : db) (st : stats)
    (start_page end_page : Z) :
  (forall page : Z,
     start_page <= page <= end_page ->
     Forall (fun p => text_id p = false) (page_records page)) ->
  parse_and_save repr json_loads fetch d start_page end_page = Ok (d', st) ->
  projects d `prefix_of` projects d'
  /\ store_ids d ⊆ store_ids d'
  /\ (db_total_projects st <= total_projects d + new_projects st)%nat
  /\ (new_projects st = 0%nat -> projects d' = projects d)
  /\ total_parsed st
     = length (filter (fun p => has_id p = true)
                 (concat (map page_records
                              (page_range start_page end_page)))).
Proof.
  unfold parse_and_save. intros Hplain H.
  apply bind_Ok in H as ([d1 t1] & Hloop & H). injection H as <- <-.
  apply page_loop_effect in Hloop as (Hpre & Hsub & _ & Hlen & Hsum);
    [|intros page Hin; by apply Hplain, page_range_bounds].
  cbn [total_inserted total_skipped db_total_projects new_projects
       total_parsed] in *.
  split; [done|]. split; [done|]. split; [lia|]. split; [|lia].
  intros Hzero. destruct Hpre as [rest Hrest]. rewrite Hrest.
  unfold total_projects in Hlen. rewrite Hrest, length_app in Hlen.
  destruct rest; [by rewrite app_nil_r|]. simpl in Hlen. lia.
Qed.

End RunStore.


Section KeysAndNames.
Import Py DatabaseManager KworkParser Reference.

Lemma store_row_replaced (d d' : db) (p : dict) :
  insert_project d p = Ok d' ->
  filter (fun r => p_id r = record_key p) (projects d') = [row_of p].
Proof.
  intros H. apply insert_project_Ok in H as (_ & _ & ->).
  rewrite filter_app.
  assert (Hnone : filter (fun r => p_id r = record_key p)
                    (filter (fun r => p_id r ≠ record_key p) (projects d))
                  = []).
  { induction (projects d) as [|r rows IH]; [done|].
    rewrite (filter_cons (fun r => p_id r ≠ record_key p)).
    destruct (decide (p_id r ≠ record_key p)); [|exact IH].
    rewrite filter_cons. by destruct (decide (p_id r = record_key p)). }
  rewrite Hnone. cbn [app]. rewrite filter_cons, filter_nil.
  by rewrite decide_True.
Qed.

Lemma existing_ids_one (d : db) (v : pyval) (k : Z) :
  sql_param v = Ok v -> as_integer_key v = Ok k ->
  get_existing_project_ids d [v]
  = Ok (list_to_set (filter (fun k' => k' ∈ [k]) (map p_id (projects d)))).
Proof.
  intros Hbound Hkey. unfold get_existing_project_ids.
  rewrite bool_decide_eq_false_2 by done.
  cbn [mapM]. rewrite Hbound.
  cbn [mbind result_bind bind mret result_ret mapM]. by rewrite Hkey.
Qed.

(** A text identifier defeats the page loop's test for known projects.
    For a record whose identifier is a text that denotes a key the store
    already holds, the bulk insert finds the project and skips the record,
    while the page body of [parse_and_save] does not find the text among
    the existing identifiers: it reports the record as new and stores it
    over the row that was there. *)
Theorem text_id_stored_again (d : db) (t : totals) (p : dict) :
  text_id p = true -> has_id p = true ->
  storable p = true -> named p = true ->
  record_key p ∈ store_ids d ->
  insert_projects d [p]
  = Ok (d, {| inserted := 0; skipped := 1 |})
  /\ exists d' : db,
       save_page d t [p]
       = Ok (d', {| all_new_projects := all_new_projects t ++ [p];
                    total_inserted := (total_inserted t + 1)%nat;
                    total_skipped := (total_skipped t + 0)%nat |})
       /\ filter (fun r => p_id r = record_key p) (projects d')
          = [row_of p]
       /\ store_ids d' = store_ids d.
Proof.
  intros Htext Hid Hs Hn Hheld. split.
  - unfold insert_projects. cbn [insert_loop]. fold (record_id p).
    fold (has_id p). rewrite Hid. cbn [negb].
    rewrite (project_exists_storable d p Hs).
    rewrite bool_decide_eq_true_2 by done. done.
  - destruct (storable_insert d p Hs) as (d' & Hins).
    exists d'. split; [|split].
    + unfold save_page. rewrite bool_decide_eq_false_2 by done.
      cbn [map]. fold (record_id p). rewrite filter_cons, filter_nil.
      fold (has_id p) in *.
      change (truthy (record_id p)) with (has_id p).
      rewrite decide_True by done.
      apply insert_project_Ok in Hins as Hparts.
      destruct Hparts as (Hbound & Hkey & _).
      rewrite (existing_ids_one d _ _ Hbound Hkey).
      cbn [mbind result_bind bind partition_projects].
      fold (record_id p). change (truthy (record_id p)) with (has_id p).
      rewrite Hid. cbn [negb].
      unfold text_id in Htext.
      destruct (record_id p) as [| | | |s| |] eqn:Hrid; try discriminate Htext.
      cbn [in_ids mbind result_bind bind].
      destruct (named_slice p [] Hn) as [shown ->].
      cbn [mbind result_bind bind insert_all]. rewrite Hins.
      cbn [mbind result_bind bind]. done.
    + by apply (store_row_replaced d).
    + rewrite (store_ids_insert d d' p Hins). clear -Hheld. set_solver.
Qed.

(** The progress line needs a name it can slice.  For a new record whose
    identifier is an integer and which the engine accepts, but whose name
    is a number or a boolean, the bulk insert and the page body of
    [parse_and_save] raise [TypeError], while the reference program
    (existence check, then upsert) returns with the record stored. *)
Theorem unnamed_record_raises (d : db) (t : totals) (p : dict) :
  has_id p = true -> integer_id p = true ->
  storable p = true -> named p = false ->
  record_key p ∉ store_ids d ->
  insert_projects d [p] = Raise TypeError
  /\ save_page d t [p] = Raise TypeError
  /\ exists d' : db,
       bulk_insert_reference d [p]
       = Ok (d', {| inserted := 1; skipped := 0 |})
       /\ record_key p ∈ store_ids d'.
Proof.
  intros Hid Hint Hs Hn Hnew.
  destruct (storable_insert d p Hs) as (d' & Hins).
  assert (Hslice : forall dflt : str,
            slice_to (dget p (lit "name") (PStr dflt)) 50 = Raise TypeError).
  { intros dflt. unfold named, dget in *.
    destruct (assoc (lit "name") p) as [v|]; [|discriminate Hn].
    cbn [default] in *. by destruct v. }
  split; [|split].
  - unfold insert_projects. cbn [insert_loop]. fold (record_id p).
    fold (has_id p). rewrite Hid. cbn [negb].
    rewrite (project_exists_storable d p Hs).
    rewrite bool_decide_eq_false_2 by done.
    cbn [mbind result_bind bind]. rewrite Hins.
    cbn [mbind result_bind bind]. by rewrite Hslice.
  - unfold save_page. rewrite bool_decide_eq_false_2 by done.
    cbn [map]. fold (record_id p). rewrite filter_cons, filter_nil.
    change (truthy (record_id p)) with (has_id p).
    rewrite decide_True by done.
    apply insert_project_Ok in Hins as Hparts.
    destruct Hparts as (Hbound & Hkey & _).
    rewrite (existing_ids_one d _ _ Hbound Hkey).
    cbn [mbind result_bind bind partition_projects].
    fold (record_id p). change (truthy (record_id p)) with (has_id p).
    rewrite Hid. cbn [negb].
    rewrite (in_ids_integer p _ Hint).
    rewrite bool_decide_eq_false_2.
    + cbn [mbind result_bind bind]. by rewrite Hslice.
    + rewrite elem_of_list_to_set, list_elem_of_filter.
      intros [_ Hin]. apply Hnew. unfold store_ids.
      by apply elem_of_list_to_set.
  - exists d'. split.
    + unfold bulk_insert_reference. cbn [exists_then_upsert].
      rewrite (project_exists_storable d p Hs).
      rewrite bool_decide_eq_false_2 by done.
      cbn [mbind result_bind bind]. rewrite Hins. done.
    + rewrite (store_ids_insert d d' p Hins). clear. set_solver.
Qed.

End KeysAndNames.

(* ===================================================================== *)
(** * Further properties of the notifier *)
(* ===================================================================== *)

Section SplitContent.
Import Py TelegramBot Reference.

Lemma visible_app (a b : str) : visible (a ++ b) = visible a ++ visible b.
Proof. unfold visible. apply filter_app. Qed.

Lemma visible_lstrip (s : str) : visible (lstrip s) = visible s.
Proof.
  induction s as [|c s IH]; [done|]. simpl.
  destruct (py_isspace c) eqn:Hc; [|done].
  rewrite IH. unfold visible. rewrite (filter_cons _ c).
  by rewrite decide_False by (by rewrite Hc).
Qed.

Lemma lstrip_head (s : str) :
  match lstrip s with
  | [] => True
  | c :: _ => py_isspace c = false
  end.
Proof.
  induction s as [|c s IH]; [done|]. simpl.
  by destruct (py_isspace c) eqn:Hc.
Qed.

(** Splitting loses nothing but whitespace.  The parts of a text, put end
    to end, have the same non-whitespace characters as the text, in the
    same order. *)
Theorem split_parts_keep_visible (text : str) :
  visible (concat (split_parts text)) = visible text.
Proof.
  remember (length text) as n eqn:Hn. revert text Hn.
  induction n as [n IH] using lt_wf_ind. intros text ->.
  destruct (decide (text = [])) as [-> | Hne].
  { by rewrite split_parts_nil. }
  destruct (decide (length text <= max_length)%nat) as [Hle | Hgt].
  { rewrite split_parts_short by done. simpl. by rewrite app_nil_r. }
  rewrite split_parts_long by lia. cbn [concat].
  rewrite visible_app.
  rewrite (IH _ (split_rest_shorter text ltac:(lia)) _ eq_refl).
  rewrite visible_lstrip, <- visible_app. by rewrite take_drop.
Qed.

(** The parts of a text that does not start with whitespace are not empty
    and do not start with whitespace. *)
Lemma split_parts_heads (text : str) :
  match text with [] => True | c :: _ => py_isspace c = false end ->
  Forall (fun part : str =>
            exists c rest, part = c :: rest /\ py_isspace c = false)
         (split_parts text).
Proof.
  remember (length text) as n eqn:Hn. revert text Hn.
  induction n as [n IH] using lt_wf_ind. intros text -> Hhead.
  destruct text as [|c t]; [rewrite split_parts_nil; constructor|].
  destruct (decide (length (c :: t) <= max_length)%nat) as [Hle | Hgt].
  { rewrite split_parts_short by done. constructor; [|constructor].
    by exists c, t. }
  rewrite split_parts_long by lia.
  destruct (split_pos_spec (c :: t) ltac:(lia)) as (k & Hk & Hcut).
  rewrite Hk, Nat2Z.id. constructor.
  - destruct k as [|k].
    + destruct Hcut as [(_ & Hnl & _) | (Hmax & _)]; [|done].
      simpl in Hnl. injection Hnl as ->. done.
    + exists c, (take k t). done.
  - eapply IH; [|reflexivity|apply lstrip_head].
    pose proof (split_rest_shorter (c :: t) ltac:(lia)) as Hshort.
    by rewrite Hk, Nat2Z.id in Hshort.
Qed.

(** Only the first part can be empty.  Every part after the first has at
    least one character and starts with a character that is not
    whitespace; the first part is empty exactly when a text of more than
    4000 characters starts with a newline that is the only newline among
    its first 4000 characters. *)
Theorem split_parts_later_nonempty (text : str) :
  Forall (fun part : str =>
            exists c rest, part = c :: rest /\ py_isspace c = false)
         (tail (split_parts text))
  /\ (head (split_parts text) = Some [] <->
      (max_length < length text)%nat /\ split_pos text = 0).
Proof.
  destruct (decide (text = [])) as [-> | Hne].
  { rewrite split_parts_nil. split; [constructor|].
    split; [done|]. intros [Hlen _]. simpl in Hlen. lia. }
  destruct (decide (length text <= max_length)%nat) as [Hle | Hgt].
  { rewrite split_parts_short by done. split; [constructor|].
    split; [|lia]. intros [= Hnil]. done. }
  rewrite split_parts_long by lia. cbn [tail head]. split.
  - apply split_parts_heads, lstrip_head.
  - pose proof (split_pos_le text ltac:(lia)) as Hrange.
    split.
    + intros [= Hnil]. split; [lia|].
      apply (f_equal length) in Hnil. rewrite length_take in Hnil.
      simpl in Hnil. lia.
    + intros [_ ->]. done.
Qed.

End SplitContent.


Section SendOutcome.
Import Py TelegramBot Reference.

Variable http_post : world -> str -> str -> bool.

Lemma outcomes_app (w1 w2 : world) :
  outcomes (w1 ++ w2) = outcomes w1 ++ outcomes w2.
Proof. unfold outcomes. apply omap_app. Qed.

Lemma pauses_app (w1 w2 : world) : pauses (w1 ++ w2) = pauses w1 ++ pauses w2.
Proof. unfold pauses. apply omap_app. Qed.

(** The sending loop over parts that fit, seen from the channel. *)
Lemma send_parts_outcomes depth parse_mode (parts : list str) :
  Forall (fun part : str => (length part <= telegram_limit)%nat) parts ->
  forall (w : world) (i : nat),
  exists (new : world) (ok : bool),
    send_parts
      (fun w part => send_message_rec http_post depth w part parse_mode)
               w i parts = Ok (w ++ new, ok)
    /\ (ok = true ->
        outcomes new = map (fun part => (part, true)) parts)
    /\ (ok = false ->
        exists (before : list str) (failed : str) (after : list str),
          parts = before ++ failed :: after
          /\ outcomes new
             = map (fun part => (part, true)) before ++ [(failed, false)])
    /\ pauses new
       = replicate
           (length (outcomes new) - (if (0 <? i)%nat then 0 else 1)) 1%nat.
Proof.
  induction 1 as [|part parts Hpart _ IH]; intros w i.
  { exists [], true. rewrite app_nil_r. cbn. by repeat split. }
  cbn [send_parts]. rewrite send_message_rec_short by done.
  set (pause := if (0 <? i)%nat then [Sleep 1] else []).
  assert (Hw1 : (if (0 <? i)%nat then w ++ [Sleep 1] else w) = w ++ pause).
  { subst pause. destruct (0 <? i)%nat; [done | by rewrite app_nil_r]. }
  rewrite Hw1. cbn [mbind result_bind bind].
  destruct (http_post (w ++ pause) part parse_mode) eqn:Hok.
  - destruct (IH ((w ++ pause) ++ [Post part parse_mode true]) (S i))
      as (new & ok & Hrun & Htrue & Hfalse & Hpauses).
    exists (pause ++ [Post part parse_mode true] ++ new), ok.
    split; [by rewrite Hrun, <- !app_assoc|].
    assert (Hout : outcomes (pause ++ [Post part parse_mode true] ++ new)
                   = (part, true) :: outcomes new).
    { rewrite !outcomes_app. subst pause. by destruct (0 <? i)%nat. }
    rewrite Hout. split; [|split].
    + intros ->. cbn [map]. by rewrite Htrue.
    + intros ->. destruct (Hfalse eq_refl)
        as (before & failed & after & -> & Hnew).
      exists (part :: before), failed, after. split; [done|].
      by rewrite Hnew.
    + rewrite !pauses_app, Hpauses. cbn [length]. subst pause.
      destruct i as [|i]; cbn; rewrite ?Nat.sub_0_r; done.
  - exists (pause ++ [Post part parse_mode false]), false.
    split; [by rewrite <- !app_assoc|].
    assert (Hout : outcomes (pause ++ [Post part parse_mode false])
                   = [(part, false)]).
    { rewrite !outcomes_app. subst pause. by destruct (0 <? i)%nat. }
    rewrite Hout. split; [done|]. split.
    + intros _. by exists [], part, parts.
    + rewrite pauses_app. subst pause. by destruct i.
Qed.

(** What a call of [send_message] does to the channel.  It returns, having
    only added to the history.  It posts the pieces of the text in order,
    stops at the first request that fails, and answers [True] exactly when
    every piece was posted and accepted; it pauses one second between two
    requests and at no other time. *)
Theorem send_message_outcome (w : world) (text parse_mode : str) :
  exists (new : world) (ok : bool),
    send_message http_post w text parse_mode = Ok (w ++ new, ok)
    /\ (ok = true ->
        outcomes new = map (fun part => (part, true)) (pieces text))
    /\ (ok = false ->
        exists (before : list str) (failed : str) (after : list str),
          pieces text = before ++ failed :: after
          /\ outcomes new
             = map (fun part => (part, true)) before ++ [(failed, false)])
    /\ pauses new = replicate (length (outcomes new) - 1) 1%nat.
Proof.
  unfold send_message, pieces. cbn [send_message_rec].
  destruct (telegram_limit <? length text)%nat eqn:Hlong.
  - destruct (send_parts_outcomes 0 parse_mode _ (split_parts_fit text) w 0)
      as (new & ok & Hrun & Htrue & Hfalse & Hpauses).
    exists new, ok. by repeat split.
  - unfold post_message.
    exists [Post text parse_mode (http_post w text parse_mode)],
           (http_post w text parse_mode).
    split; [done|]. cbn. split; [by intros ->|]. split; [|done].
    intros ->. by exists [], text, [].
Qed.

End SendOutcome.

Section BatchEdges.
Import Py TelegramBot Reference.

Variable repr : pyval -> str.
Variable http_post : world -> str -> str -> bool.

(** The batch size at its edges.  With a batch size of zero
    [send_projects_batch] raises [ValueError], whatever the list; with a
    negative batch size, or with an empty list and a batch size other than
    zero, it contacts nobody and returns 0. *)
Theorem send_projects_batch_edges (w : world) (projects : list dict)
    (batch_size : Z) :
  (batch_size = 0 ->
   send_projects_batch repr http_post w projects batch_size = Raise ValueError)
  /\ (batch_size < 0 ->
      send_projects_batch repr http_post w projects batch_size
      = Ok (w, 0%nat))
  /\ (batch_size <> 0 ->
      send_projects_batch repr http_post w [] batch_size = Ok (w, 0%nat)).
Proof.
  unfold send_projects_batch, range0. split; [|split].
  - by intros ->.
  - intros Hneg. destruct (Z.eqb_spec batch_size 0); [lia|].
    destruct (Z.ltb_spec 0 batch_size); [lia|].
    cbn [mbind result_bind bind].
    assert (Hcount : (- Z.of_nat (length projects) - batch_size - 1)
                       / - batch_size <= 0).
    { apply Z.lt_succ_r, Z.div_lt_upper_bound; lia. }
    replace (Z.to_nat _) with 0%nat by lia. done.
  - intros Hnz. destruct (Z.eqb_spec batch_size 0); [done|].
    cbn [mbind result_bind bind length].
    destruct (Z.ltb_spec 0 batch_size).
    + replace (Z.to_nat _) with 0%nat; [done|].
      rewrite Z.div_small; lia.
    + assert (Hcount : (- Z.of_nat 0 - batch_size - 1) / - batch_size <= 0).
      { apply Z.lt_succ_r, Z.div_lt_upper_bound; lia. }
      replace (Z.to_nat _) with 0%nat by lia. done.
Qed.

End BatchEdges.


Section EscapeMore.
Import Py TelegramBot Reference.

Variable repr : pyval -> str.

Lemma escape_char_cases (x : N) :
  x = 38%N /\ escape_char x = [38; 97; 109; 112; 59]%N
  \/ x = 60%N /\ escape_char x = [38; 108; 116; 59]%N
  \/ x = 62%N /\ escape_char x = [38; 103; 116; 59]%N
  \/ (x <> 38%N /\ x <> 60%N /\ x <> 62%N) /\ escape_char x = [x].
Proof.
  unfold escape_char.
  destruct (N.eqb_spec x 38) as [-> | H1]; [by left|].
  destruct (N.eqb_spec x 60) as [-> | H2]; [by right; left|].
  destruct (N.eqb_spec x 62) as [-> | H3]; [by right; right; left|].
  by right; right; right.
Qed.

Lemma escape_injective (s1 s2 : str) :
  flat_map escape_char s1 = flat_map escape_char s2 -> s1 = s2.
Proof.
  revert s2. induction s1 as [|x s1 IH]; intros [|y s2] H; [done| | |].
  - cbn [flat_map] in H.
    destruct (escape_char_cases y) as [[_ Hy]|[[_ Hy]|[[_ Hy]|[_ Hy]]]];
      rewrite Hy in H; cbn [app] in H; discriminate H.
  - cbn [flat_map] in H.
    destruct (escape_char_cases x) as [[_ Hx]|[[_ Hx]|[[_ Hx]|[_ Hx]]]];
      rewrite Hx in H; cbn [app] in H; discriminate H.
  - cbn [flat_map] in H.
    destruct (escape_char_cases x) as [[Hx Ex]|[[Hx Ex]|[[Hx Ex]|[Hx Ex]]]];
      destruct (escape_char_cases y) as [[Hy Ey]|[[Hy Ey]|[[Hy Ey]|[Hy Ey]]]];
      rewrite Ex, Ey in H; cbn [app] in H;
      first [by f_equal; [congruence | apply IH; congruence]
            | exfalso; intuition congruence].
Qed.

(** Escaping a string loses no information and leaves plain text alone.
    For strings, [_escape_html] maps every character to its entity or to
    itself; two different strings have different escaped forms; a string
    without [&], [<] and [>] is returned as it is; and the escaped form is
    never shorter than the string. *)
Theorem escape_html_faithful (s1 s2 : str) :
  (_escape_html repr (PStr s1) = _escape_html repr (PStr s2) -> s1 = s2)
  /\ (38%N ∉ s1 -> 60%N ∉ s1 -> 62%N ∉ s1 ->
      _escape_html repr (PStr s1) = s1)
  /\ (length s1 <= length (_escape_html repr (PStr s1)))%nat.
Proof.
  assert (Hesc : forall s : str,
            _escape_html repr (PStr s) = flat_map escape_char s).
  { intros s. unfold _escape_html. cbn [truthy to_str].
    destruct s as [|c s]; [done|]. cbn [length Nat.eqb negb].
    apply escape_chain. }
  rewrite !Hesc. split; [apply escape_injective|]. split.
  - induction s1 as [|x s IH]; intros H38 H60 H62; [done|].
    rewrite not_elem_of_cons in H38, H60, H62.
    cbn [flat_map]. rewrite IH by tauto.
    destruct (escape_char_cases x) as [[Hx _]|[[Hx _]|[[Hx _]|[_ ->]]]];
      [subst; tauto..|done].
  - induction s1 as [|x s IH]; [done|].
    cbn [flat_map]. rewrite length_app. cbn [length].
    destruct (escape_char_cases x) as [[_ ->]|[[_ ->]|[[_ ->]|[_ ->]]]];
      cbn [length]; lia.
Qed.

End EscapeMore.

Section SingleMessageFacts.
Import Py TelegramBot Reference.

Variable repr : pyval -> str.

Lemma lstrip_visible_head (c : N) (s : str) :
  py_isspace c = false -> lstrip (c :: s) = c :: s.
Proof. intros Hc. simpl. by rewrite Hc. Qed.

Lemma rstrip_snoc (s : str) (c : N) :
  py_isspace c = false -> rstrip (s ++ [c]) = s ++ [c].
Proof.
  intros Hc. unfold rstrip. rewrite reverse_app. cbn [reverse rev_append app].
  change (reverse [c]) with [c]. cbn [app].
  rewrite lstrip_visible_head by done.
  by rewrite reverse_cons, reverse_involutive.
Qed.

Lemma rstrip_newline (s : str) : rstrip (s ++ [NL]) = rstrip s.
Proof.
  unfold rstrip. rewrite reverse_app. change (reverse [NL]) with [NL].
  cbn [app]. by rewrite lstrip_newline.
Qed.

Lemma strip_framed (middle : str) :
  strip ([NL] ++ lit "<b>" ++ middle ++ rule_line ++ [NL])
  = lit "<b>" ++ middle ++ rule_line.
Proof.
  unfold strip. cbn [app]. rewrite lstrip_newline.
  change (lit "<b>") with ([60; 98; 62]%N). cbn [app].
  rewrite lstrip_visible_head by done.
  change (60%N :: 98%N :: 62%N :: middle ++ rule_line ++ [NL])
    with (([60; 98; 62]%N ++ middle) ++ rule_line ++ [NL]).
  rewrite (app_assoc _ rule_line [NL]), rstrip_newline.
  change rule_line with (repeat 9473%N 19 ++ [9473%N]).
  rewrite (app_assoc _ _ [9473%N]), rstrip_snoc by done.
  by rewrite <- !app_assoc.
Qed.

(** The message for one project.  The description it shows has at most 500
    characters: the escaped description itself when that has at most 500,
    else its first 497 characters followed by three dots.  The message is
    the template without its first and last newline, so it starts with
    [<b>] and ends with the rule.  Formatting fails, with [AttributeError],
    exactly when the record carries a non-empty buyer that is not a
    dictionary. *)
Theorem format_project_message_shape (project : dict) :
  (length (shown_description repr project) <= 500)%nat
  /\ (forall message : str,
        _format_project_message repr project = Ok message ->
        exists info body : str,
          buyer_info repr project = Ok info
          /\ project_template repr project info = [NL] ++ message ++ [NL]
          /\ message = lit "<b>" ++ body ++ rule_line)
  /\ (forall e : exn,
        _format_project_message repr project = Raise e <->
        e = AttributeError
        /\ exists buyer : pyval,
             assoc (lit "buyer") project = Some buyer
             /\ truthy buyer = true
             /\ forall b : dict, buyer <> PDict b).
Proof.
  split; [|split].
  - unfold shown_description. cbv zeta.
    destruct (Nat.ltb_spec 500 (length (_escape_html repr
      (dget project (lit "description") (PStr ru_no_description)))))
      as [Hlong | Hshort]; [|lia].
    rewrite length_app, length_take.
    change (length (lit "...")) with 3%nat. lia.
  - intros message H. unfold _format_project_message in H.
    apply bind_Ok in H as (info & Hinfo & H). injection H as <-.
    exists info. unfold project_template. cbv zeta.
    match goal with
    | |- context [[NL] ++ lit "<b>" ++ ?rest] =>
        match rest with
        | context C [rule_line ++ [NL]] =>
            let middle := context C [@nil N] in
            exists middle;
            replace rest with (middle ++ rule_line ++ [NL])
              by (by rewrite <- !app_assoc)
        end
    end.
    split; [done|]. rewrite strip_framed. by rewrite <- !app_assoc.
  - intros e. unfold _format_project_message, buyer_info.
    destruct (assoc (lit "buyer") project) as [buyer|]; cbn.
    2:{ split; [done|]. by intros (_ & buyer & [=] & _). }
    destruct (truthy buyer) eqn:Htruthy; cbn.
    2:{ split; [done|]. intros (_ & b & [= <-] & Hb & _). congruence. }
    destruct buyer as [| | | | | |b]; cbn;
      try (split; [intros [= <-]; split; [done|]; eexists; split; [done|];
                   split; [done|]; by intros b'
                  | by intros [-> _]]).
    split; [done|]. intros (_ & buyer & [= <-] & _ & Hne). by destruct (Hne b).
Qed.

End SingleMessageFacts.

(* ===================================================================== *)
(** * Further properties of the extractor *)
(* ===================================================================== *)

Section ExtractorEntries.
Import Py KworkParser Reference.

Variable repr : pyval -> str.

Lemma is_dict_dec (v : pyval) :
  (exists d : dict, v = PDict d) \/ (forall d : dict, v <> PDict d).
Proof. destruct v; [right; congruence..|left; by eexists]. Qed.

Lemma get_not_dict (v : pyval) (key : str) (dflt : pyval) :
  (forall d : dict, v <> PDict d) -> get v key dflt = Raise AttributeError.
Proof. destruct v as [| | | | | |d]; try done. intros H. by destruct (H d). Qed.

Lemma getitem_dict (key : str) (d : dict) :
  getitem (PDict d) key
  = match assoc key d with Some x => Ok x | None => Raise KeyError end.
Proof. done. Qed.

Lemma contains_dict (key : str) (d : dict) :
  contains key (PDict d) = Ok (bool_decide (is_Some (assoc key d))).
Proof. done. Qed.

(** What [parse_project_body] does with the [user] of an entry that is a
    dictionary, after the fifteen copied fields. *)
Lemma parse_project_body_user (raw : dict) :
  exists fields : dict,
    length fields = 15%nat
    /\ assoc (lit "buyer") fields = None
    /\ parse_project_body repr (PDict raw) =
       match assoc (lit "user") raw with
       | None => Ok fields
       | Some user =>
           username ← get user (lit "username") (PStr []);
           user_id ← get user (lit "USERID") (PStr []);
           profile_name ← get user (lit "username") (PStr []);
           avatar ← get user (lit "profilepicture") (PStr []);
           let buyer : dict :=
             [ (lit "username", username);
               (lit "user_id", user_id);
               (lit "profile_url",
                PStr (base_url ++ lit "/user/" ++ to_str repr profile_name));
               (lit "avatar", avatar) ] in
           has_data ← contains (lit "data") user;
           if has_data : bool then
             user_data ← getitem user (lit "data");
             wants_count ← get user_data (lit "wants_count") (PStr (lit "0"));
             hired_percent ←
               get user_data (lit "wants_hired_percent") (PStr (lit "0"));
             Ok (fields
                 ++ [(lit "buyer",
                      PDict (buyer ++ [(lit "wants_count", wants_count);
                                       (lit "hired_percent", hired_percent)]))])
           else Ok (fields ++ [(lit "buyer", PDict buyer)])
       end.
Proof.
  unfold parse_project_body. cbn [get mbind result_bind bind].
  rewrite contains_dict. cbn [mbind result_bind bind].
  eexists. split; [|split]; cycle 2.
  - destruct (assoc (lit "user") raw) as [user|] eqn:Huser.
    + rewrite bool_decide_eq_true_2 by done.
      rewrite getitem_dict, Huser. cbn [mbind result_bind bind].
      reflexivity.
    + rewrite bool_decide_eq_false_2 by (by intros [? ?]). reflexivity.
  - reflexivity.
  - by vm_compute.
Qed.

(** The only entries [_parse_project_data] gives up on.  It returns [None]
    exactly when the entry is not a dictionary, or its [user] is not a
    dictionary, or that user's [data] is not a dictionary; every other
    entry yields a record, whatever its fields hold. *)
Theorem parse_project_data_none_iff (data : pyval) :
  _parse_project_data repr data = None <->
  (forall raw : dict, data <> PDict raw)
  \/ exists (raw : dict) (user : pyval),
       data = PDict raw /\ assoc (lit "user") raw = Some user
       /\ ((forall u : dict, user <> PDict u)
           \/ exists (u : dict) (user_data : pyval),
                user = PDict u /\ assoc (lit "data") u = Some user_data
                /\ forall x : dict, user_data <> PDict x).
Proof.
  unfold _parse_project_data.
  destruct (is_dict_dec data) as [[raw ->] | Hnot].
  2:{ split; [by left|]. intros _. unfold parse_project_body.
      by rewrite (get_not_dict data (lit "id") PNone). }
  destruct (parse_project_body_user raw) as (fields & _ & _ & ->).
  destruct (assoc (lit "user") raw) as [user|] eqn:Huser.
  2:{ split; [done|]. intros [H | (raw' & user & [= <-] & Hu & _)];
        [by destruct (H raw) | congruence]. }
  destruct (is_dict_dec user) as [[u ->] | Hnotu].
  2:{ rewrite (get_not_dict user (lit "username") (PStr [])) by done.
      split; [|done]. intros _. right.
      exists raw, user. by repeat split; [|left]. }
  cbn [get mbind result_bind bind]. rewrite contains_dict.
  cbn [mbind result_bind bind].
  destruct (assoc (lit "data") u) as [user_data|] eqn:Hdata.
  2:{ rewrite bool_decide_eq_false_2 by (by intros [? ?]).
      split; [done|].
      intros [H | (raw' & user & [= <-] & Hu & [H | (u' & ud & Hu' & Hd & _)])].
      - by destruct (H raw).
      - rewrite Huser in Hu. injection Hu as <-. by destruct (H u).
      - rewrite Huser in Hu. injection Hu as <-. injection Hu' as <-.
        congruence. }
  rewrite bool_decide_eq_true_2 by done.
  rewrite getitem_dict, Hdata. cbn [mbind result_bind bind].
  destruct (is_dict_dec user_data) as [[x ->] | Hnotd].
  - cbn [get mbind result_bind bind]. split; [done|].
    intros [H | (raw' & user & [= <-] & Hu & [H | (u' & ud & Hu' & Hd & Hx)])].
    + by destruct (H raw).
    + rewrite Huser in Hu. injection Hu as <-. by destruct (H u).
    + rewrite Huser in Hu. injection Hu as <-. injection Hu' as <-.
      rewrite Hdata in Hd. injection Hd as <-. by destruct (Hx x).
  - rewrite (get_not_dict user_data (lit "wants_count") (PStr (lit "0")))
      by done.
    split; [|done]. intros _. right.
    exists raw, (PDict u). split; [done|]. split; [done|]. right.
    by exists u, user_data.
Qed.

(** The buyer of an extracted record.  A record has a [buyer] exactly when
    the raw entry has a [user]; the buyer is then a dictionary that takes
    its [user_id] from [USERID] and its [username] from [username], and it
    carries [wants_count] and [hired_percent] exactly when the user has a
    [data] block. *)
Theorem parse_project_buyer (raw project : dict) :
  _parse_project_data repr (PDict raw) = Some project ->
  (assoc (lit "user") raw = None -> assoc (lit "buyer") project = None)
  /\ (forall user : pyval,
        assoc (lit "user") raw = Some user ->
        exists u buyer : dict,
          user = PDict u
          /\ assoc (lit "buyer") project = Some (PDict buyer)
          /\ assoc (lit "user_id") buyer
             = Some (dget u (lit "USERID") (PStr []))
          /\ assoc (lit "username") buyer
             = Some (dget u (lit "username") (PStr []))
          /\ (assoc (lit "data") u = None ->
              assoc (lit "wants_count") buyer = None
              /\ assoc (lit "hired_percent") buyer = None)
          /\ (forall user_data : pyval,
                assoc (lit "data") u = Some user_data ->
                exists x : dict,
                  user_data = PDict x
                  /\ assoc (lit "wants_count") buyer
                     = Some (dget x (lit "wants_count") (PStr (lit "0")))
                  /\ assoc (lit "hired_percent") buyer
                     = Some (dget x (lit "wants_hired_percent")
                                  (PStr (lit "0"))))).
Proof.
  unfold _parse_project_data.
  destruct (parse_project_body_user raw) as (fields & Hlen & Hnone & ->).
  assert (Hlast : forall v : pyval,
            assoc (lit "buyer") (fields ++ [(lit "buyer", v)]) = Some v).
  { intros v. clear Hlen. induction fields as [|[k w] fields IH].
    - by vm_compute.
    - cbn [app assoc] in *. destruct (str_eqb k (lit "buyer")); [done|].
      by apply IH. }
  destruct (assoc (lit "user") raw) as [user|] eqn:Huser.
  2:{ intros [= <-]. split; [done|]. by intros user [=]. }
  intros H. split; [by intros [=]|]. intros user' [= <-].
  destruct (is_dict_dec user) as [[u ->] | Hnotu];
    [|by rewrite (get_not_dict user (lit "username") (PStr [])) in H].
  cbn [get mbind result_bind bind] in H. rewrite contains_dict in H.
  cbn [mbind result_bind bind] in H.
  destruct (assoc (lit "data") u) as [user_data|] eqn:Hdata.
  - rewrite bool_decide_eq_true_2 in H by done.
    rewrite getitem_dict, Hdata in H.
    cbn [mbind result_bind bind] in H.
    destruct (is_dict_dec user_data) as [[x ->] | Hnotd];
      [|by rewrite (get_not_dict user_data (lit "wants_count")
                     (PStr (lit "0"))) in H].
    cbn [get mbind result_bind bind] in H. injection H as <-.
    eexists u, _. split; [done|]. split; [apply Hlast|].
    split; [by vm_compute|]. split; [by vm_compute|].
    split; [intros Hn; congruence|]. intros ud Hud.
    rewrite Hdata in Hud. injection Hud as <-. exists x.
    split; [done|]. split; by vm_compute.
  - rewrite bool_decide_eq_false_2 in H by (by intros [? ?]).
    injection H as <-.
    eexists u, _. split; [done|]. split; [apply Hlast|].
    split; [by vm_compute|]. split; [by vm_compute|].
    split; [intros _; split; by vm_compute|]. intros ud Hud. congruence.
Qed.

End ExtractorEntries.


Section ExtractorListing.
Import Py KworkParser Reference.

Variable repr : pyval -> str.
Variable json_loads : str -> result pyval.

(** The [if project:] test of the loop never drops a record: every record
    [_parse_project_data] returns has its fifteen fields. *)
Lemma collect_projects_omap (raws : list pyval) :
  collect_projects repr raws = omap (_parse_project_data repr) raws.
Proof.
  induction raws as [|raw raws IH]; [done|].
  cbn [collect_projects omap list_omap].
  destruct (_parse_project_data repr raw) as [project|] eqn:Hparse;
    [|apply IH].
  unfold _parse_project_data in Hparse.
  destruct (parse_project_body repr raw) as [project'|] eqn:Hbody;
    [|discriminate Hparse].
  injection Hparse as ->.
  apply parse_project_body_shape in Hbody as (data & extra & _ & -> & _).
  cbn [truthy app length Nat.eqb negb]. by rewrite IH.
Qed.

Lemma descend_cons (v x : pyval) (key : str) (path : list str) :
  descend v (key :: path) = Some x ->
  exists (d : dict) (v' : pyval),
    v = PDict d /\ assoc key d = Some v' /\ descend v' path = Some x.
Proof.
  cbn [descend]. destruct v as [| | | | | |d]; try discriminate.
  destruct (assoc key d) as [v'|] eqn:Hkey; [|discriminate].
  intros H. by exists d, v'.
Qed.

(** Which array the extractor reads, and what it makes of it.  When the
    decoded block has an array under [wantsListData.pagination.data], the
    records are those of its entries, whether or not there is a [wants]
    array as well; the [wants] array is read when there is no [pagination]
    or the pagination has no [data].  In both cases the result holds one
    record for every entry [_parse_project_data] accepts, in the order of
    the array, and an entry it rejects is left out alone. *)
Theorem extract_reads_listing (html group : str) (state_data : pyval) :
  re_search html = Some group ->
  json_loads group = Ok state_data ->
  (forall raws : list pyval,
     descend state_data [lit "wantsListData"; lit "pagination"; lit "data"]
       = Some (PList raws) ->
     _extract_projects_from_js repr json_loads html
       = omap (_parse_project_data repr) raws)
  /\ (forall (wants_list : dict) (raws : list pyval),
        descend state_data [lit "wantsListData"] = Some (PDict wants_list) ->
        assoc (lit "pagination") wants_list = None
        \/ (exists pagination : dict,
              assoc (lit "pagination") wants_list = Some (PDict pagination)
              /\ assoc (lit "data") pagination = None) ->
        assoc (lit "wants") wants_list = Some (PList raws) ->
        _extract_projects_from_js repr json_loads html
          = omap (_parse_project_data repr) raws).
Proof.
  intros Hmatch Hloads.
  unfold _extract_projects_from_js, extract_outcome, extract_body.
  rewrite Hmatch, Hloads. cbn [mbind result_bind bind]. split.
  - intros raws Hpath.
    apply descend_cons in Hpath as (sd & wl & -> & Hwl & Hpath).
    apply descend_cons in Hpath as (wd & pg & -> & Hpg & Hpath).
    apply descend_cons in Hpath as (pd & data & -> & Hdata & Hpath).
    cbn [descend] in Hpath. injection Hpath as ->.
    rewrite !contains_dict, !getitem_dict, Hwl.
    rewrite bool_decide_eq_true_2 by done.
    cbn [mbind result_bind bind negb].
    rewrite !contains_dict, !getitem_dict, Hpg.
    rewrite (bool_decide_eq_true_2 (is_Some (Some (PDict pd)))) by done.
    cbn [mbind result_bind bind].
    rewrite !contains_dict, Hdata.
    rewrite (bool_decide_eq_true_2 (is_Some (Some (PList raws)))) by done.
    cbn [mbind result_bind bind].
    rewrite getitem_dict, Hdata. cbn [mbind result_bind bind iter].
    apply collect_projects_omap.
  - intros wants_list raws Hpath Hpg Hwants.
    apply descend_cons in Hpath as (sd & wl & -> & Hwl & Hpath).
    cbn [descend] in Hpath. injection Hpath as ->.
    rewrite !contains_dict, !getitem_dict, Hwl.
    rewrite bool_decide_eq_true_2 by done.
    cbn [mbind result_bind bind negb].
    rewrite !contains_dict, !getitem_dict, Hwants.
    rewrite (bool_decide_eq_true_2 (is_Some (Some (PList raws)))) by done.
    destruct Hpg as [Hpg | (pagination & Hpg & Hdata)]; rewrite Hpg.
    + rewrite (bool_decide_eq_false_2 (is_Some None)) by (by intros [? ?]).
      cbn [mbind result_bind bind iter]. apply collect_projects_omap.
    + rewrite (bool_decide_eq_true_2 (is_Some (Some (PDict pagination))))
        by done.
      cbn [mbind result_bind bind].
      rewrite contains_dict, Hdata.
      rewrite (bool_decide_eq_false_2 (is_Some None)) by (by intros [? ?]).
      cbn [mbind result_bind bind iter]. apply collect_projects_omap.
Qed.

End ExtractorListing.

Section Pattern.
Import Py KworkParser Reference.

Lemma strip_prefix_Some (p text rest : str) :
  strip_prefix p text = Some rest -> text = p ++ rest.
Proof.
  revert text. induction p as [|a p IH]; intros [|b text]; cbn [strip_prefix].
  - by intros [= <-].
  - by intros [= <-].
  - done.
  - destruct (N.eqb_spec a b) as [-> | _]; [|done].
    intros H. by rewrite (IH _ H).
Qed.

Lemma lstrip_split (text : str) :
  exists spaces : str,
    text = spaces ++ lstrip text
    /\ Forall (fun c => py_isspace c = true) spaces.
Proof.
  induction text as [|c text (spaces & Heq & Hall)]; [by exists []|].
  cbn [lstrip]. destruct (py_isspace c) eqn:Hc.
  - exists (c :: spaces). split; [by rewrite Heq at 1|]. by constructor.
  - by exists [].
Qed.

Lemma lazy_until_close_Some (text group : str) :
  lazy_until_close text = Some group ->
  exists body rest : str,
    group = body ++ lit "}"
    /\ text = body ++ lit "};" ++ rest
    /\ forall i : nat,
         (i < length body)%nat ->
         text !! i = Some 125%N -> text !! S i <> Some 59%N.
Proof.
  revert group. induction text as [|c text IH]; intros group; [done|].
  cbn [lazy_until_close]. destruct text as [|c' text]; [done|].
  destruct (N.eqb_spec c 125) as [-> | Hc];
    [destruct (N.eqb_spec c' 59) as [-> | Hc']|]; cbn [andb].
  - intros [= <-]. exists [], text. split; [done|]. split; [done|].
    intros i Hi. cbn in Hi. lia.
  - destruct (lazy_until_close (c' :: text)) as [group'|] eqn:Hrest;
      [|done].
    intros [= <-].
    destruct (IH group' eq_refl) as (body & rest & -> & Ht & Hfirst).
    exists (125%N :: body), rest. split; [done|].
    split; [by rewrite Ht|]. intros [|i] Hi.
    + cbn. congruence.
    + cbn [length] in Hi. apply (Hfirst i). lia.
  - destruct (lazy_until_close (c' :: text)) as [group'|] eqn:Hrest;
      [|done].
    intros [= <-].
    destruct (IH group' eq_refl) as (body & rest & -> & Ht & Hfirst).
    exists (c :: body), rest. split; [done|].
    split; [by rewrite Ht|]. intros [|i] Hi.
    + cbn. congruence.
    + cbn [length] in Hi. apply (Hfirst i). lia.
Qed.

Lemma re_search_Some (html group : str) :
  re_search html = Some group ->
  exists before tail : str,
    html = before ++ tail /\ match_here tail = Some group.
Proof.
  induction html as [|c html IH]; cbn [re_search].
  - destruct (match_here []) as [g|] eqn:Hhere; [|done].
    intros [= <-]. by exists [], [].
  - destruct (match_here (c :: html)) as [g|] eqn:Hhere.
    + intros [= <-]. by exists [], (c :: html).
    + intros H. destruct (IH H) as (before & tail & -> & Htail).
      by exists (c :: before), tail.
Qed.

(** What the pattern captures.  When the search finds a block, the page
    reads [window.stateData], whitespace, [=], whitespace, then the block
    and a semicolon; the block starts with an opening brace and ends with
    the first closing brace after it that a semicolon follows, even if the
    text goes on beyond it. *)
Theorem re_search_captures (html group : str) :
  re_search html = Some group ->
  exists before spaces1 spaces2 body rest : str,
    html = before ++ lit "window.stateData" ++ spaces1 ++ lit "="
           ++ spaces2 ++ group ++ lit ";" ++ rest
    /\ Forall (fun c => py_isspace c = true) spaces1
    /\ Forall (fun c => py_isspace c = true) spaces2
    /\ group = lit "{" ++ body ++ lit "}"
    /\ forall i : nat,
         (i < length body)%nat ->
         (body ++ lit "};") !! i = Some 125%N ->
         (body ++ lit "};") !! S i <> Some 59%N.
Proof.
  intros H. apply re_search_Some in H as (before & tail & -> & H).
  unfold match_here in H.
  apply bind_Some in H as (rest1 & H1 & H).
  apply bind_Some in H as (rest2 & H2 & H).
  apply bind_Some in H as (rest3 & H3 & H).
  apply bind_Some in H as (closed & H4 & H). injection H as <-.
  apply strip_prefix_Some in H1, H2, H3.
  destruct (lstrip_split rest1) as (spaces1 & Hs1 & Hall1).
  destruct (lstrip_split rest2) as (spaces2 & Hs2 & Hall2).
  apply lazy_until_close_Some in H4 as (body & rest & -> & Hrest & Hfirst).
  exists before, spaces1, spaces2, body, rest.
  split; [|split; [done|split; [done|split; [done|]]]].
  - rewrite H1. rewrite Hs1, H2. rewrite Hs2, H3, Hrest.
    change (123%N :: body ++ lit "}") with (lit "{" ++ body ++ lit "}").
    rewrite <- !app_assoc. reflexivity.
  - intros i Hi Hbrace Hsemi. apply (Hfirst i Hi).
    + rewrite Hrest. rewrite app_assoc, lookup_app_l; [done|].
      rewrite length_app. change (length (lit "};")) with 2%nat. lia.
    + rewrite Hrest. rewrite app_assoc, lookup_app_l; [done|].
      rewrite length_app. change (length (lit "};")) with 2%nat. lia.
Qed.

End Pattern.

(* ===================================================================== *)
(** * Further scenarios *)
(* ===================================================================== *)

Section FurtherScenarios.
Import Py DatabaseManager TelegramBot KworkParser Reference.

(** Storing the record 7 in the empty store. *)
Lemma insert_then_exists_witness :
  exists d' : db,
    insert_project empty_db (sample_record 7) = Ok d'
    /\ project_exists d' (record_id (sample_record 7)) = Ok true.
Proof.
  destruct (insert_project empty_db (sample_record 7)) as [d'|e] eqn:Hrun;
    [|vm_compute in Hrun; discriminate Hrun].
  exists d'. split; [reflexivity|].
  exact (proj1 (insert_then_exists empty_db d' (sample_record 7) Hrun)).
Defined.

(** Storing the record 8 beside the record 7. *)
Lemma insert_project_frame_witness :
  exists d1 d2 : db,
    insert_project empty_db (sample_record 7) = Ok d1
    /\ insert_project d1 (sample_record 8) = Ok d2
    /\ filter (fun r => p_id r ≠ record_key (sample_record 8)) (projects d2)
       = filter (fun r => p_id r ≠ record_key (sample_record 8))
                (projects d1).
Proof.
  destruct (insert_project empty_db (sample_record 7)) as [d1|e] eqn:Hone;
    [|vm_compute in Hone; discriminate Hone].
  destruct (insert_project d1 (sample_record 8)) as [d2|e] eqn:Htwo;
    [|vm_compute in Hone; injection Hone as <-;
      vm_compute in Htwo; discriminate Htwo].
  exists d1, d2. split; [reflexivity|]. split; [exact Htwo|].
  exact (proj1 (insert_project_frame d1 d2 (sample_record 8) Htwo)).
Defined.

(** A batch of three records, two of them with the identifier 1, into the
    empty store. *)
Lemma insert_projects_appends_witness :
  exists (d' : db) (c : counts),
    insert_projects empty_db
      [sample_record 1; sample_record 2; sample_record 1] = Ok (d', c)
    /\ total_projects d' = (total_projects empty_db + inserted c)%nat.
Proof.
  destruct (insert_projects empty_db
              [sample_record 1; sample_record 2; sample_record 1])
    as [[d' c]|e] eqn:Hrun; [|vm_compute in Hrun; discriminate Hrun].
  exists d', c. split; [reflexivity|].
  destruct (insert_projects_appends empty_db d' c _ Hrun)
    as (added & _ & _ & _ & _ & Htotal).
  exact Htotal.
Defined.

(** Looking up the text ['7'] and the integer 9 in a store that holds
    7. *)
Lemma existing_ids_agree_witness :
  exists (d : db) (found : gset Z),
    insert_project empty_db (sample_record 7) = Ok d
    /\ get_existing_project_ids d [PStr (lit "7"); PInt 9] = Ok found
    /\ project_exists d (PStr (lit "7"))
       = Ok (bool_decide (id_key (PStr (lit "7")) ∈ found))
    /\ KworkParser.in_ids (PInt 9) found = project_exists d (PInt 9)
    /\ KworkParser.in_ids (PStr (lit "7")) found = Ok false.
Proof.
  destruct (insert_project empty_db (sample_record 7)) as [d|e] eqn:Hone;
    [|vm_compute in Hone; discriminate Hone].
  destruct (get_existing_project_ids d [PStr (lit "7"); PInt 9])
    as [found|e] eqn:Hrun;
    [|vm_compute in Hone; injection Hone as <-;
      vm_compute in Hrun; discriminate Hrun].
  exists d, found. split; [reflexivity|]. split; [exact Hrun|].
  destruct (existing_ids_agree d [PStr (lit "7"); PInt 9] found Hrun)
    as (Hpoint & Hpage & Htext & _).
  split; [apply Hpoint; left|]. split; [|apply Htext].
  apply Hpage; [right; left|]. intros s Hs. discriminate Hs.
Defined.


(** The buyer 42 stored twice, the second time under another name. *)
Lemma insert_buyer_upsert_witness :
  exists d1 d2 : db,
    insert_buyer empty_db (PDict sample_buyer) = Ok d1
    /\ insert_buyer d1
         (PDict ((lit "username", PStr (lit "anna2")) :: sample_buyer))
       = Ok d2
    /\ length (filter (fun r => b_user_id r = lit "42") (buyers d2)) = 1%nat
    /\ projects d2 = projects empty_db.
Proof.
  destruct (insert_buyer empty_db (PDict sample_buyer)) as [d1|e] eqn:Hone;
    [|vm_compute in Hone; discriminate Hone].
  destruct (insert_buyer d1
              (PDict ((lit "username", PStr (lit "anna2")) :: sample_buyer)))
    as [d2|e] eqn:Htwo;
    [|vm_compute in Hone; injection Hone as <-;
      vm_compute in Htwo; discriminate Htwo].
  exists d1, d2. split; [reflexivity|]. split; [exact Htwo|].
  assert (Hkey1 : as_text_key (dget sample_buyer (lit "user_id") (PStr []))
                  = Ok (lit "42")) by (vm_compute; reflexivity).
  assert (Hkey2 : as_text_key
                    (dget ((lit "username", PStr (lit "anna2"))
                           :: sample_buyer) (lit "user_id") (PStr []))
                  = Ok (lit "42")) by (vm_compute; reflexivity).
  destruct (insert_buyer_upsert empty_db d1 d2 _ _ (lit "42")
              Hkey1 Hkey2 Hone Htwo) as (Hrow & Hprojects & _).
  split; [by rewrite Hrow | exact Hprojects].
Defined.

(** The link of the project 7 to the buyer 42, made twice. *)
Lemma link_buyer_idempotent_witness :
  exists d1 : db,
    link_buyer empty_db (PInt 7) (PInt 42) = Ok d1
    /\ link_buyer d1 (PInt 7) (PInt 42) = Ok d1.
Proof.
  destruct (link_buyer empty_db (PInt 7) (PInt 42)) as [d1|e] eqn:Hone;
    [|vm_compute in Hone; discriminate Hone].
  exists d1. split; [reflexivity|].
  exact (proj1 (link_buyer_idempotent empty_db d1 (PInt 7) (PInt 42) Hone)).
Defined.

(** Storing the record 7 with its buyer. *)
Lemma insert_project_links_witness :
  exists d' : db,
    insert_project empty_db (record_with_buyer 7) = Ok d'
    /\ (record_key (record_with_buyer 7), lit "42") ∈ project_buyers d'.
Proof.
  destruct (insert_project empty_db (record_with_buyer 7)) as [d'|e] eqn:Hrun;
    [|vm_compute in Hrun; discriminate Hrun].
  exists d'. split; [reflexivity|].
  refine (proj1 (proj2 (insert_project_links empty_db d'
                          (record_with_buyer 7) Hrun)
                   sample_buyer (lit "42") _ _ _));
    vm_compute; reflexivity.
Defined.

(** A page with the records 1 and 2 saved into a store that holds 1. *)
Lemma save_page_keeps_stored_witness :
  Forall (fun p => text_id p = false) [sample_record 1; sample_record 2]
  /\ exists (d d' : db) (t' : totals),
       insert_project empty_db (sample_record 1) = Ok d
       /\ save_page d no_totals [sample_record 1; sample_record 2]
          = Ok (d', t')
       /\ projects d `prefix_of` projects d'.
Proof.
  assert (Hplain : Forall (fun p => text_id p = false)
                          [sample_record 1; sample_record 2])
    by (repeat constructor).
  split; [exact Hplain|].
  destruct (insert_project empty_db (sample_record 1)) as [d|e] eqn:Hone;
    [|vm_compute in Hone; discriminate Hone].
  destruct (save_page d no_totals [sample_record 1; sample_record 2])
    as [[d' t']|e] eqn:Hrun;
    [|vm_compute in Hone; injection Hone as <-;
      vm_compute in Hrun; discriminate Hrun].
  exists d, d', t'. split; [reflexivity|]. split; [exact Hrun|].
  exact (proj1 (save_page_keeps_stored d d' no_totals t' _ Hplain Hrun)).
Defined.

(** A page with the records 1 and 2 against the empty store, saved by the
    parser and by the bulk insert. *)
Lemma save_page_as_bulk_insert_witness :
  forallb identified [sample_record 1; sample_record 2] = true
  /\ NoDup (map record_key [sample_record 1; sample_record 2])
  /\ exists (d' : db) (c : counts) (t' : totals),
       insert_projects empty_db [sample_record 1; sample_record 2]
       = Ok (d', c)
       /\ save_page empty_db no_totals [sample_record 1; sample_record 2]
          = Ok (d', t').
Proof.
  assert (Hall : forallb identified [sample_record 1; sample_record 2]
                 = true) by (vm_compute; reflexivity).
  assert (Hdup : NoDup (map record_key [sample_record 1; sample_record 2])).
  { change (NoDup [1; 2]). apply NoDup_cons. split.
    - intros Hin. apply list_elem_of_singleton in Hin. discriminate Hin.
    - apply NoDup_singleton. }
  split; [exact Hall|]. split; [exact Hdup|].
  destruct (save_page_as_bulk_insert empty_db no_totals _ Hall Hdup)
    as (d' & c & t' & Hbulk & Hpage & _).
  exists d', c, t'. split; [exact Hbulk | exact Hpage].
Defined.


(** Three pages, every request failing. *)
Lemma parse_and_save_quiet_witness :
  parse_and_save no_repr never_decodes unreachable empty_db 1 3
  = Ok (empty_db, {| total_parsed := 0; new_projects := 0;
                     skipped_existing := 0;
                     db_total_projects := 0; db_total_buyers := 0 |}).
Proof.
  apply (proj2 (parse_and_save_quiet no_repr never_decodes unreachable
                  empty_db 1 3)).
  intros page _.
  apply (proj1 (parse_and_save_quiet no_repr never_decodes unreachable
                  empty_db 1 3)).
  reflexivity.
Defined.

(** Two pages that both list the records 1 and 2, from the empty store. *)
Lemma parse_and_save_keeps_stored_witness :
  (forall page : Z,
     1 <= page <= 2 ->
     Forall (fun p => text_id p = false)
       (parse_page no_repr (decodes_to both_listings) (serves block_page)
          page))
  /\ exists (d' : db) (st : stats),
       parse_and_save no_repr (decodes_to both_listings) (serves block_page)
         empty_db 1 2 = Ok (d', st)
       /\ (db_total_projects st
           <= total_projects empty_db + new_projects st)%nat
       /\ total_parsed st = 4%nat.
Proof.
  assert (Hplain : forall page : Z,
            1 <= page <= 2 ->
            Forall (fun p => text_id p = false)
              (parse_page no_repr (decodes_to both_listings)
                 (serves block_page) page)).
  { intros page _.
    change (parse_page no_repr (decodes_to both_listings)
              (serves block_page) page)
      with (_extract_projects_from_js no_repr (decodes_to both_listings)
              block_page).
    assert (Hpage : _extract_projects_from_js no_repr
                      (decodes_to both_listings) block_page
                    = [sample_record 1; sample_record 2])
      by (vm_compute; reflexivity).
    rewrite Hpage. repeat constructor. }
  split; [exact Hplain|].
  destruct (parse_and_save no_repr (decodes_to both_listings)
              (serves block_page) empty_db 1 2) as [[d' st]|e] eqn:Hrun;
    [|vm_compute in Hrun; discriminate Hrun].
  exists d', st. split; [reflexivity|].
  destruct (parse_and_save_keeps_stored no_repr (decodes_to both_listings)
              (serves block_page) empty_db d' st 1 2 Hplain Hrun)
    as (_ & _ & Hcount & _ & Hparsed).
  split; [exact Hcount|]. rewrite Hparsed. vm_compute. reflexivity.
Defined.

(** The same two pages parsed twice. *)
Lemma parse_and_save_twice_witness :
  forallb (fun page =>
             forallb identified
               (parse_page no_repr (decodes_to both_listings)
                  (serves block_page) page))
          (page_range 1 2) = true
  /\ exists (d1 : db) (st1 : stats),
       parse_and_save no_repr (decodes_to both_listings) (serves block_page)
         empty_db 1 2 = Ok (d1, st1)
       /\ parse_and_save no_repr (decodes_to both_listings)
            (serves block_page) d1 1 2
          = Ok (d1, {| total_parsed := total_parsed st1;
                       new_projects := 0;
                       skipped_existing := total_parsed st1;
                       db_total_projects := db_total_projects st1;
                       db_total_buyers := db_total_buyers st1 |}).
Proof.
  assert (Hall : forallb (fun page =>
                   forallb identified
                     (parse_page no_repr (decodes_to both_listings)
                        (serves block_page) page))
                   (page_range 1 2) = true) by (vm_compute; reflexivity).
  split; [exact Hall|].
  exact (parse_and_save_twice no_repr (decodes_to both_listings)
           (serves block_page) empty_db 1 2 Hall).
Defined.

(** An entry that is a text, and an entry whose user is a text. *)
Lemma parse_project_data_none_iff_witness :
  _parse_project_data no_repr (PStr (lit "junk")) = None
  /\ _parse_project_data no_repr
       (PDict [(lit "id", PInt 1); (lit "user", PStr (lit "anna"))]) = None.
Proof.
  split.
  - apply (proj2 (parse_project_data_none_iff no_repr (PStr (lit "junk")))).
    left. intros raw Hraw. discriminate Hraw.
  - apply (proj2 (parse_project_data_none_iff no_repr
                    (PDict [(lit "id", PInt 1);
                            (lit "user", PStr (lit "anna"))]))).
    right. exists [(lit "id", PInt 1); (lit "user", PStr (lit "anna"))],
                  (PStr (lit "anna")).
    split; [reflexivity|]. split; [vm_compute; reflexivity|].
    left. intros u Hu. discriminate Hu.
Defined.

(** The record built from an entry with a user. *)
Lemma parse_project_buyer_witness :
  exists (raw project : dict) (buyer : dict),
    entry_with_user 7 = PDict raw
    /\ _parse_project_data no_repr (PDict raw) = Some project
    /\ assoc (lit "buyer") project = Some (PDict buyer)
    /\ assoc (lit "user_id") buyer = Some (PInt 42).
Proof.
  destruct (_parse_project_data no_repr (entry_with_user 7))
    as [project|] eqn:Hparse; [|vm_compute in Hparse; discriminate Hparse].
  unfold entry_with_user in Hparse.
  match type of Hparse with
  | _parse_project_data _ (PDict ?raw) = _ =>
      destruct (proj2 (parse_project_buyer no_repr raw project Hparse)
                  (PDict [ (lit "username", PStr (lit "anna"));
                           (lit "USERID", PInt 42);
                           (lit "data",
                            PDict [(lit "wants_count", PInt 3)]) ]))
        as (u & buyer & Hu & Hbuyer & Hid & _);
        [vm_compute; reflexivity|];
      exists raw, project, buyer
  end.
  split; [reflexivity|]. split; [exact Hparse|]. split; [exact Hbuyer|].
  injection Hu as <-. exact Hid.
Defined.

(** A page whose block has both arrays, and one with the flat array
    only. *)
Lemma extract_reads_listing_witness :
  _extract_projects_from_js no_repr (decodes_to both_listings) block_page
  = [sample_record 1; sample_record 2]
  /\ _extract_projects_from_js no_repr (decodes_to flat_listing) block_page
     = [sample_record 3].
Proof.
  split.
  - refine (eq_trans
              (proj1 (extract_reads_listing no_repr (decodes_to both_listings)
                        block_page (lit "{}") both_listings _ _)
                 [sample_entry 1; PStr (lit "junk"); sample_entry 2] _) _);
      vm_compute; reflexivity.
  - refine (eq_trans
              (proj2 (extract_reads_listing no_repr (decodes_to flat_listing)
                        block_page (lit "{}") flat_listing _ _)
                 [(lit "wants", PList [sample_entry 3])]
                 [sample_entry 3] _ (or_introl _) _) _);
      vm_compute; reflexivity.
Defined.

(** A page whose block holds a closing brace and a semicolon inside a
    text: the capture stops there. *)
Lemma re_search_captures_witness :
  re_search (lit "window.stateData = {a: '};'};") = Some (lit "{a: '}")
  /\ exists before spaces1 spaces2 body rest : str,
       lit "window.stateData = {a: '};'};"
       = before ++ lit "window.stateData" ++ spaces1 ++ lit "="
         ++ spaces2 ++ lit "{a: '}" ++ lit ";" ++ rest
       /\ lit "{a: '}" = lit "{" ++ body ++ lit "}".
Proof.
  assert (Hfound : re_search (lit "window.stateData = {a: '};'};")
                   = Some (lit "{a: '}")) by (vm_compute; reflexivity).
  split; [exact Hfound|].
  destruct (re_search_captures _ _ Hfound)
    as (before & spaces1 & spaces2 & body & rest & Hpage & _ & _ & Hgroup
        & _).
  exists before, spaces1, spaces2, body, rest.
  split; [exact Hpage | exact Hgroup].
Defined.

(** A batch size of zero, a negative one, and no project at all. *)
Lemma send_projects_batch_edges_witness :
  send_projects_batch no_repr always_delivered [] [sample_record 1] 0
  = Raise ValueError
  /\ send_projects_batch no_repr always_delivered [] [sample_record 1] (-5)
     = Ok ([], 0%nat)
  /\ send_projects_batch no_repr always_delivered [] [] 5 = Ok ([], 0%nat).
Proof.
  split; [|split].
  - apply (proj1 (send_projects_batch_edges no_repr always_delivered []
                    [sample_record 1] 0)).
    reflexivity.
  - apply (proj1 (proj2 (send_projects_batch_edges no_repr always_delivered
                           [] [sample_record 1] (-5)))).
    reflexivity.
  - apply (proj2 (proj2 (send_projects_batch_edges no_repr always_delivered
                           [] [sample_record 1] 5))).
    discriminate.
Defined.

(** A text with markup and a plain text. *)
Lemma escape_html_faithful_witness :
  (_escape_html no_repr (PStr (lit "a<b"))
   = _escape_html no_repr (PStr (lit "a<b"))
   -> lit "a<b" = lit "a<b")
  /\ _escape_html no_repr (PStr (lit "plain")) = lit "plain"
  /\ (length (lit "a<b")
      <= length (_escape_html no_repr (PStr (lit "a<b"))))%nat.
Proof.
  split; [|split].
  - exact (proj1 (escape_html_faithful no_repr (lit "a<b") (lit "a<b"))).
  - apply (proj1 (proj2 (escape_html_faithful no_repr (lit "plain")
                           (lit "plain"))));
      intros Hin; vm_compute in Hin;
      repeat (apply elem_of_cons in Hin as [Hin | Hin];
              [discriminate Hin|]);
      exact (proj1 (elem_of_nil _) Hin).
  - exact (proj2 (proj2 (escape_html_faithful no_repr (lit "a<b")
                           (lit "a<b")))).
Defined.

(** The message for a record without buyer, and a record whose buyer is a
    text. *)
Lemma format_project_message_shape_witness :
  (exists message body : str,
     _format_project_message no_repr (sample_record 7) = Ok message
     /\ message = lit "<b>" ++ body ++ rule_line)
  /\ _format_project_message no_repr (record_with_text_buyer 7)
     = Raise AttributeError.
Proof.
  split.
  - destruct (_format_project_message no_repr (sample_record 7))
      as [message|e] eqn:Hrun; [|vm_compute in Hrun; discriminate Hrun].
    destruct (proj1 (proj2 (format_project_message_shape no_repr
                              (sample_record 7))) message Hrun)
      as (info & body & _ & _ & Hshape).
    exists message, body. split; [reflexivity | exact Hshape].
  - apply (proj2 (proj2 (format_project_message_shape no_repr
                           (record_with_text_buyer 7)))).
    split; [reflexivity|]. exists (PStr (lit "anna")).
    split; [vm_compute; reflexivity|]. split; [reflexivity|].
    intros b Hb. discriminate Hb.
Defined.

(** The record 7 under the text ['7'], against a store that holds 7. *)
Lemma text_id_stored_again_witness :
  exists d : db,
    insert_project empty_db (sample_record 7) = Ok d
    /\ record_key (text_id_record 7) ∈ store_ids d
    /\ insert_projects d [text_id_record 7]
       = Ok (d, {| inserted := 0; skipped := 1 |})
    /\ exists d' : db,
         save_page d no_totals [text_id_record 7]
         = Ok (d', {| all_new_projects := [text_id_record 7];
                      total_inserted := 1; total_skipped := 0 |}).
Proof.
  destruct (insert_project empty_db (sample_record 7)) as [d|e] eqn:Hone;
    [|vm_compute in Hone; discriminate Hone].
  exists d. split; [reflexivity|].
  assert (Hheld : record_key (text_id_record 7) ∈ store_ids d).
  { rewrite (store_ids_insert empty_db d (sample_record 7) Hone).
    apply elem_of_union. right. apply elem_of_singleton.
    vm_compute. reflexivity. }
  split; [exact Hheld|].
  assert (Htext : text_id (text_id_record 7) = true)
    by (vm_compute; reflexivity).
  assert (Hid : has_id (text_id_record 7) = true)
    by (vm_compute; reflexivity).
  assert (Hs : storable (text_id_record 7) = true)
    by (vm_compute; reflexivity).
  assert (Hn : named (text_id_record 7) = true)
    by (vm_compute; reflexivity).
  destruct (text_id_stored_again d no_totals (text_id_record 7)
              Htext Hid Hs Hn Hheld) as (Hbulk & d' & Hpage & _).
  split; [exact Hbulk|]. exists d'. exact Hpage.
Defined.

(** The record 1 with the number 5 for a name, against the empty store. *)
Lemma unnamed_record_raises_witness :
  named (numbered_record 1) = false
  /\ insert_projects empty_db [numbered_record 1] = Raise TypeError
  /\ save_page empty_db no_totals [numbered_record 1] = Raise TypeError.
Proof.
  assert (Hid : has_id (numbered_record 1) = true)
    by (vm_compute; reflexivity).
  assert (Hint : integer_id (numbered_record 1) = true)
    by (vm_compute; reflexivity).
  assert (Hs : storable (numbered_record 1) = true)
    by (vm_compute; reflexivity).
  assert (Hn : named (numbered_record 1) = false)
    by (vm_compute; reflexivity).
  assert (Hnew : record_key (numbered_record 1) ∉ store_ids empty_db).
  { unfold store_ids. cbn [projects empty_db map list_to_set].
    apply not_elem_of_empty. }
  destruct (unnamed_record_raises empty_db no_totals (numbered_record 1)
              Hid Hint Hs Hn Hnew) as (Hbulk & Hpage & _).
  split; [exact Hn|]. split; [exact Hbulk | exact Hpage].
Defined.

End FurtherScenarios.
